(** * Signal-Generator: the CSV transcoder and the command dispatcher

    A shallow embedding of [Random_waveform_code.py]: the methods of
    [WaveformGenerator] that talk to the instrument, transcode CSV files and
    reach the Redis store, and the callbacks of [WaveformGUI] behind the
    buttons of its three modes, [execute_redis_command], the remote command
    parser, first of all.

    The two constructors, the two query methods, the file dialog, the code
    that lays out the widgets and the four slider callbacks are left out: no
    statement below depends on them.  Of [plot_waveform] the choice of the
    curve is modelled, the sample values are not.

    Platform the model fixes (the script itself does not choose any of these):
    - POSIX paths ([os.path] is [posixpath], separator [/]);
    - a little-endian host ([sys_byteorder]) with IEEE-754 floats, so that
      the native format ['f'] of [struct.pack] is the four bytes of a
      binary32, least significant first;
    - Python [str] as a sequence of code points below 256 (Rocq [string]);
      text files are read with the ASCII codec, one byte per character, and
      a byte above 127 is a decoding error;
    - the file system holds regular files only, every path can be opened for
      writing, and the Redis server answers every request.

    The library functions the script calls ([float], [repr] of a float,
    [str.split], [os.path.splitext], [os.path.basename], [csv.reader],
    [struct.pack]) are modelled after CPython 3.11. *)

From Stdlib Require Import ZArith String Ascii List Bool Lia.
From Stdlib Require Import Strings.Byte.
From Stdlib Require Import Floats.SpecFloat.
From stdpp Require Import base option list strings pretty gmap.

Local Open Scope string_scope.
Local Open Scope list_scope.
Local Open Scope Z_scope.

(** ** Characters and strings *)

Module Text.

Definition code (c : ascii) : Z := Z.of_N (N_of_ascii c).

Definition chr (z : Z) : ascii := ascii_of_N (Z.to_N z).

Definition chars (s : string) : list ascii := list_ascii_of_string s.

Definition str (l : list ascii) : string := string_of_list_ascii l.

Definition is_digit (c : ascii) : bool := (48 <=? code c) && (code c <=? 57).

(** [Py_ISSPACE]: the six ASCII white-space characters. *)
Definition is_ascii_space (c : ascii) : bool :=
  ((9 <=? code c) && (code c <=? 13)) || (code c =? 32).

(** [str.isspace] on code points below 256. *)
Definition is_space (c : ascii) : bool :=
  is_ascii_space c || ((28 <=? code c) && (code c <=? 31))
  || (code c =? 133) || (code c =? 160).

Definition to_lower (c : ascii) : ascii :=
  if (65 <=? code c) && (code c <=? 90) then chr (code c + 32) else c.

Definition nl : string := String (chr 10) "".

Definition dquote : string := String (chr 34) "".

(** [str.split()] with no argument: runs of white space separate the
    words, and leading and trailing white space yields no empty word. *)
Fixpoint split_go (cur : list ascii) (l : list ascii) : list string :=
  match l with
  | [] => match cur with [] => [] | _ => [str (rev cur)] end
  | c :: l' =>
      if is_space c
      then match cur with
           | [] => split_go [] l'
           | _ => str (rev cur) :: split_go [] l'
           end
      else split_go (c :: cur) l'
  end.

Definition split (s : string) : list string := split_go [] (chars s).

End Text.

(** ** Python floats

    A [float] is an IEEE-754 binary64.  The sign of a NaN is kept because
    [struct.pack] copies it into the packed bytes. *)

Inductive pyfloat : Type :=
| Fzero (s : bool)
| Finf (s : bool)
| Fnan (s : bool)
| Ffin (s : bool) (m : positive) (e : Z).

Module Float.
Import Text.

Definition of_spec (s : bool) (x : spec_float) : pyfloat :=
  match x with
  | S754_zero _ => Fzero s
  | S754_infinity _ => Finf s
  | S754_nan => Fnan s
  | S754_finite _ m e => Ffin s m e
  end.

(** The binary64 nearest to [m * 10^e10] (ties to even), with sign [s]. *)
Definition of_decimal (s : bool) (m : Z) (e10 : Z) : pyfloat :=
  match m with
  | Zpos p =>
      of_spec s
        (if 0 <=? e10
         then binary_normalize 53 1024 (Zpos p * 10 ^ e10) 0 false
         else SFdiv 53 1024 (S754_finite false p 0)
                (S754_finite false (Z.to_pos (10 ^ (- e10))) 0))
  | _ => Fzero s
  end.

Fixpoint span_digits (l : list ascii) : list ascii * list ascii :=
  match l with
  | c :: l' =>
      if is_digit c
      then let '(d, r) := span_digits l' in (c :: d, r)
      else ([], l)
  | [] => ([], [])
  end.

Definition digits_value (l : list ascii) : Z :=
  fold_left (fun acc c => acc * 10 + (code c - 48)) l 0.

Definition take_sign (l : list ascii) : bool * list ascii :=
  match l with
  | c :: r =>
      if code c =? 45 then (true, r)
      else if code c =? 43 then (false, r)
      else (false, l)
  | [] => (false, [])
  end.

(** The literal after white space and underscores are gone:
    [[sign] (inf | infinity | nan | digits [. digits] [e [sign] digits])]. *)
Definition parse_literal (l : list ascii) : option pyfloat :=
  let '(neg, body) := take_sign l in
  let low := str (map to_lower body) in
  if String.eqb low "inf" || String.eqb low "infinity" then Some (Finf neg)
  else if String.eqb low "nan" then Some (Fnan neg)
  else
    let '(ip, r1) := span_digits body in
    let '(fp, r2) :=
      match r1 with
      | c :: r => if code c =? 46 then span_digits r else ([], r1)
      | [] => ([], [])
      end in
    match ip, fp with
    | [], [] => None
    | _, _ =>
        let m := digits_value (ip ++ fp) in
        let scale := - Z.of_nat (length fp) in
        match r2 with
        | [] => Some (of_decimal neg m scale)
        | c :: r3 =>
            if (code c =? 101) || (code c =? 69)
            then
              let '(eneg, r4) := take_sign r3 in
              let '(ed, r5) := span_digits r4 in
              match ed, r5 with
              | _ :: _, [] =>
                  let e := digits_value ed in
                  Some (of_decimal neg m
                          (scale + if eneg then - e else e))
              | _, _ => None
              end
            else None
        end
    end.

(** An underscore must stand between two digits. *)
Fixpoint underscores_ok (prev : option ascii) (l : list ascii) : bool :=
  match l with
  | [] => match prev with
          | Some p => negb (code p =? 95)
          | None => true
          end
  | c :: l' =>
      (if code c =? 95
       then match prev with Some p => is_digit p | None => false end
       else match prev with
            | Some p => if code p =? 95 then is_digit c else true
            | None => true
            end)
      && underscores_ok (Some c) l'
  end.

(** Leading and trailing white space that [float] ignores: the ASCII
    white space, and the non-ASCII code points that are spaces. *)
Definition is_float_space (c : ascii) : bool :=
  is_ascii_space c || (code c =? 133) || (code c =? 160).

Fixpoint lstrip (l : list ascii) : list ascii :=
  match l with
  | c :: l' => if is_float_space c then lstrip l' else l
  | [] => []
  end.

Definition strip (l : list ascii) : list ascii :=
  rev (lstrip (rev (lstrip l))).

(** [float(s)]: [None] stands for [ValueError]. *)
Definition float (s : string) : option pyfloat :=
  let l := strip (chars s) in
  if underscores_ok None l
  then parse_literal (filter (fun c => negb (code c =? 95)) l)
  else None.

(** C's [(float) x]: round to the nearest binary32, ties to even; beyond
    the binary32 range the result is an infinity. *)
Definition to_single (x : pyfloat) : pyfloat :=
  match x with
  | Ffin s m e => of_spec s (binary_normalize 24 128 (Zpos m) e false)
  | _ => x
  end.

Definition sign_bit (s : bool) : Z := if s then 2 ^ 31 else 0.

(** The IEEE-754 binary32 interchange encoding of a binary32 value: the
    sign in bit 31, the biased exponent in bits 30 to 23, the fraction
    below. *)
Definition bits_of_single (x : pyfloat) : Z :=
  match x with
  | Fzero s => sign_bit s
  | Finf s => sign_bit s + 0x7f800000
  | Fnan s => sign_bit s + 0x7fc00000
  | Ffin s m e =>
      if Zpos m <? 2 ^ 23
      then sign_bit s + Zpos m
      else sign_bit s + (e + 150) * 2 ^ 23 + (Zpos m - 2 ^ 23)
  end.

(** The binary32 value of an encoding. *)
Definition single_of_bits (b : Z) : pyfloat :=
  let s := 2 ^ 31 <=? b in
  let biased := (b / 2 ^ 23) mod 2 ^ 8 in
  let fraction := b mod 2 ^ 23 in
  if biased =? 0 then
    match fraction with
    | Zpos m => Ffin s m (-149)
    | _ => Fzero s
    end
  else if biased =? 255 then
    if fraction =? 0 then Finf s else Fnan s
  else
    match fraction + 2 ^ 23 with
    | Zpos m => Ffin s m (biased - 150)
    | _ => Fzero s
    end.

(** The values of the binary32 format. *)
Definition single_valid (x : pyfloat) : bool :=
  match x with
  | Ffin _ m e => bounded 24 128 m e
  | _ => true
  end.

End Float.

(** ** [repr] of a float: the shortest decimal string that reads back as
    the same binary64, in the layout of format code ['r']. *)

Module Repr.
Import Text Float.

(** [m * 2^e] as a fraction. *)
Definition fraction (m : positive) (e : Z) : Z * Z :=
  if 0 <=? e then (Zpos m * 2 ^ e, 1) else (Zpos m, 2 ^ (- e)).

(** [num / den < 10^k] *)
Definition below_pow10 (num den k : Z) : bool :=
  if 0 <=? k then num <? 10 ^ k * den else num * 10 ^ (- k) <? den.

Fixpoint search_decpt (fuel : nat) (num den k : Z) : Z :=
  match fuel with
  | O => k
  | S fuel' =>
      if below_pow10 num den k then k
      else search_decpt fuel' num den (k + 1)
  end.

(** The [k] with [10^(k-1) <= num/den < 10^k]. *)
Definition decimal_point (num den : Z) : Z :=
  search_decpt 8 num den
    ((Z.log2 num - Z.log2 den) * 30103 / 100000 - 2).

(** [num/den / 10^k] as floor and remainder over a common denominator. *)
Definition scale_div (num den k : Z) : Z * Z * Z :=
  let '(n', d') :=
    if 0 <=? k then (num, den * 10 ^ k) else (num * 10 ^ (- k), den) in
  (n' / d', n' mod d', d').

Definition reads_back (x : pyfloat) (c k : Z) : bool :=
  match x, of_decimal false c k with
  | Ffin _ m e, Ffin _ m' e' => (Zpos m =? Zpos m') && (e =? e')
  | _, _ => false
  end.

(** The [n]-digit decimal nearest to [x] that reads back as [x], if any. *)
Definition candidate (x : pyfloat) (num den decpt : Z) (n : Z)
  : option (Z * Z) :=
  let k := decpt - n in
  let '(lo, r, d) := scale_div num den k in
  let hi := lo + 1 in
  let lo_ok := reads_back x lo k in
  let hi_ok := reads_back x hi k in
  let lo_nearer := (2 * r <? d) || ((2 * r =? d) && Z.even lo) in
  if lo_ok && (negb hi_ok || lo_nearer) then Some (lo, k)
  else if hi_ok then Some (hi, k)
  else None.

Fixpoint shortest (fuel : nat) (x : pyfloat) (num den decpt n : Z)
  : Z * Z :=
  match fuel with
  | O => (fst (fst (scale_div num den (decpt - n))), decpt - n)
  | S fuel' =>
      match candidate x num den decpt n with
      | Some ck => ck
      | None => shortest fuel' x num den decpt (n + 1)
      end
  end.

Fixpoint strip_zeros (fuel : nat) (c k : Z) : Z * Z :=
  match fuel with
  | O => (c, k)
  | S fuel' =>
      if (c mod 10 =? 0) && negb (c =? 0)
      then strip_zeros fuel' (c / 10) (k + 1)
      else (c, k)
  end.

Definition zeros (n : Z) : string := str (repeat (chr 48) (Z.to_nat n)).

Definition two_digits (n : Z) : string :=
  if n <? 10 then "0" +:+ pretty n else pretty n.

(** Layout of the digit string [ds] read as [0.ds * 10^decpt]. *)
Definition layout (ds : string) (decpt : Z) : string :=
  let nd := Z.of_nat (String.length ds) in
  if (decpt <=? -4) || (16 <? decpt)
  then
    let mant :=
      match ds with
      | String c "" => String c ""
      | String c rest => String c ("." +:+ rest)
      | "" => ""
      end in
    mant +:+ "e" +:+ (if decpt - 1 <? 0 then "-" else "+")
         +:+ two_digits (Z.abs (decpt - 1))
  else if decpt <=? 0 then "0." +:+ zeros (- decpt) +:+ ds
  else if nd <=? decpt then ds +:+ zeros (decpt - nd) +:+ ".0"
  else str (take (Z.to_nat decpt) (chars ds)) +:+ "."
       +:+ str (drop (Z.to_nat decpt) (chars ds)).

Definition repr (x : pyfloat) : string :=
  match x with
  | Fnan _ => "nan"
  | Finf s => if s then "-inf" else "inf"
  | Fzero s => if s then "-0.0" else "0.0"
  | Ffin s m e =>
      let '(num, den) := fraction m e in
      let decpt := decimal_point num den in
      let '(c, k) := shortest 17 x num den decpt 1 in
      let '(c', k') := strip_zeros 17 c k in
      let ds := pretty c' in
      (if s then "-" else "") +:+
      layout ds (k' + Z.of_nat (String.length ds))
  end.

End Repr.

(** ** [os.path] (posixpath) *)

Module Path.
Import Text.

Fixpoint rfind_go (c : ascii) (l : list ascii) (i last : Z) : Z :=
  match l with
  | [] => last
  | x :: l' => rfind_go c l' (i + 1) (if Ascii.eqb x c then i else last)
  end.

(** [p.rfind(c)]: the last index of [c] in [p], or [-1]. *)
Definition rfind (p : string) (c : ascii) : Z := rfind_go c (chars p) 0 (-1).

(** [p[:i]] and [p[i:]] for [0 <= i]. *)
Definition upto (p : string) (i : Z) : string :=
  str (take (Z.to_nat i) (chars p)).

Definition from (p : string) (i : Z) : string :=
  str (drop (Z.to_nat i) (chars p)).

Definition char_at (p : string) (i : Z) : option ascii :=
  chars p !! Z.to_nat i.

(** [os.path.basename] *)
Definition basename (p : string) : string := from p (rfind p "/" + 1).

(** The loop of [genericpath._splitext] that skips the leading dots of
    the file name: [true] when a character other than a dot stands before
    the last dot. *)
Fixpoint skip_leading_dots (fuel : nat) (p : string)
    (filenameIndex dotIndex : Z) : bool :=
  match fuel with
  | O => false
  | S fuel' =>
      if filenameIndex <? dotIndex
      then match char_at p filenameIndex with
           | Some c =>
               if Ascii.eqb c "." then
                 skip_leading_dots fuel' p (filenameIndex + 1) dotIndex
               else true
           | None => true
           end
      else false
  end.

(** [os.path.splitext] *)
Definition splitext (p : string) : string * string :=
  let sepIndex := rfind p "/" in
  let dotIndex := rfind p "." in
  if (sepIndex <? dotIndex)
     && skip_leading_dots (String.length p) p (sepIndex + 1) dotIndex
  then (upto p dotIndex, from p dotIndex)
  else (p, "").

End Path.

(** ** Exceptions *)

Inductive exn : Type :=
| FileNotFoundError (msg : string)
| StopIteration
| ValueError (msg : string)
| IndexError
| TypeError (msg : string)
| AttributeError
| UnicodeDecodeError
| CsvError (msg : string)
| VisaIOError.

(** ** [csv.reader] over a text file (the default [excel] dialect) *)

Inductive records : Type :=
| RStop
| RRow (row : list string) (rest : records)
| RRaise (e : exn).

Module Csv.
Import Text.

Inductive parser_state : Type :=
| START_RECORD | START_FIELD | IN_FIELD | IN_QUOTED_FIELD
| QUOTE_IN_QUOTED_FIELD | EAT_CRNL.

Record ReaderObj : Type := mkReader {
  state : parser_state;
  fields : list string;       (* the fields saved so far *)
  field : list ascii;         (* the field being read, last character first *)
}.

Definition field_limit : Z := 131072.

Definition is_start_record (s : parser_state) : bool :=
  match s with START_RECORD => true | _ => false end.

Definition is_in_quoted (s : parser_state) : bool :=
  match s with IN_QUOTED_FIELD => true | _ => false end.

Definition parse_reset : ReaderObj := mkReader START_RECORD [] [].

Definition parse_save_field (r : ReaderObj) (s : parser_state) : ReaderObj :=
  mkReader s (fields r ++ [str (rev (field r))]) [].

Definition parse_add_char (r : ReaderObj) (s : parser_state) (c : ascii)
  : option ReaderObj :=
  if field_limit <=? Z.of_nat (length (field r)) then None
  else Some (mkReader s (fields r) (c :: field r)).

Definition is_newline (c : ascii) : bool := (code c =? 10) || (code c =? 13).

Definition is_delimiter (c : ascii) : bool := code c =? 44.

Definition is_quotechar (c : ascii) : bool := code c =? 34.

Definition set_state (r : ReaderObj) (s : parser_state) : ReaderObj :=
  mkReader s (fields r) (field r).

(** [parse_process_char]; the end of a line is [None]. *)
Definition parse_process_char (r : ReaderObj) (c : option ascii)
  : option ReaderObj :=
  let after_eol := match c with None => START_RECORD | _ => EAT_CRNL end in
  let eol := match c with None => true | Some x => is_newline x end in
  let start_field r :=
    match c with
    | Some x =>
        if is_newline x then Some (parse_save_field r after_eol)
        else if is_quotechar x then Some (set_state r IN_QUOTED_FIELD)
        else if is_delimiter x then Some (parse_save_field r START_FIELD)
        else parse_add_char r IN_FIELD x
    | None => Some (parse_save_field r after_eol)
    end in
  match state r with
  | START_RECORD =>
      match c with
      | None => Some r
      | Some x =>
          if is_newline x then Some (set_state r EAT_CRNL)
          else start_field r
      end
  | START_FIELD => start_field r
  | IN_FIELD =>
      match c with
      | Some x =>
          if is_newline x then Some (parse_save_field r after_eol)
          else if is_delimiter x then Some (parse_save_field r START_FIELD)
          else parse_add_char r IN_FIELD x
      | None => Some (parse_save_field r after_eol)
      end
  | IN_QUOTED_FIELD =>
      match c with
      | None => Some r
      | Some x =>
          if is_quotechar x then Some (set_state r QUOTE_IN_QUOTED_FIELD)
          else parse_add_char r IN_QUOTED_FIELD x
      end
  | QUOTE_IN_QUOTED_FIELD =>
      match c with
      | Some x =>
          if is_quotechar x then parse_add_char r IN_QUOTED_FIELD x
          else if is_delimiter x then Some (parse_save_field r START_FIELD)
          else if is_newline x then Some (parse_save_field r after_eol)
          else parse_add_char r IN_FIELD x
      | None => Some (parse_save_field r after_eol)
      end
  | EAT_CRNL =>
      match c with
      | None => Some (set_state r START_RECORD)
      | Some x => if is_newline x then Some r else None
      end
  end.

Fixpoint process_line (r : ReaderObj) (line : list ascii)
  : option ReaderObj :=
  match line with
  | [] => parse_process_char r None
  | c :: line' =>
      match parse_process_char r (Some c) with
      | Some r' => process_line r' line'
      | None => None
      end
  end.

(** [Reader_iternext], called until the lines run out. *)
Fixpoint iternext (r : ReaderObj) (lines : list (list ascii)) : records :=
  match lines with
  | [] =>
      match field r, is_in_quoted (state r) with
      | [], false => RStop
      | _, _ => RRow (fields (parse_save_field r START_RECORD)) RStop
      end
  | line :: lines' =>
      match process_line r line with
      | None => RRaise (CsvError "field larger than field limit (131072)")
      | Some r' =>
          if is_start_record (state r')
          then RRow (fields r') (iternext parse_reset lines')
          else iternext r' lines'
      end
  end.

(** Universal newlines: [\r\n] and [\r] are read as [\n]. *)
Fixpoint translate_newlines (l : list ascii) : list ascii :=
  match l with
  | c :: l' =>
      if code c =? 13
      then chr 10 :: match l' with
                     | d :: l'' =>
                         if code d =? 10 then translate_newlines l''
                         else translate_newlines l'
                     | [] => []
                     end
      else c :: translate_newlines l'
  | [] => []
  end.

(** The lines of a text, each with its [\n]. *)
Fixpoint lines_go (cur : list ascii) (l : list ascii) : list (list ascii) :=
  match l with
  | [] => match cur with [] => [] | _ => [rev cur] end
  | c :: l' =>
      if code c =? 10 then rev (c :: cur) :: lines_go [] l'
      else lines_go (c :: cur) l'
  end.

Definition decode (data : list byte) : option (list ascii) :=
  if forallb (fun b => (Byte.to_N b <? 128)%N) data
  then Some (map ascii_of_byte data)
  else None.

(** The rows that [csv.reader(open(path, 'r'))] yields for a file whose
    bytes are [data]. *)
Definition reader (data : list byte) : records :=
  match decode data with
  | Some text => iternext parse_reset (lines_go [] (translate_newlines text))
  | None => RRaise UnicodeDecodeError
  end.

End Csv.

(** ** The world the program acts on *)

(** Python values that are formatted into a command. *)
Inductive pyval : Type :=
| VInt (n : Z)
| VFloat (x : pyfloat)
| VStr (s : string).

(** [str(v)], what an f-string field [{v}] expands to. *)
Definition py_str (v : pyval) : string :=
  match v with
  | VInt n => pretty n
  | VFloat x => Repr.repr x
  | VStr s => s
  end.

(** Calls on the pyvisa resource [self.device]. *)
Inductive dev_call : Type :=
| DevWrite (command : string)
| DevWriteBinaryValues (message : string) (values : list byte).

(** [dev_log] lists the calls issued on the device handle, oldest first,
    the refused one included; [dev_ok log c] tells whether the bus carries
    out call [c] after the calls of [log] or raises. *)
Record world : Type := mkWorld {
  fs : gmap string (list byte);
  redis : gmap string string;
  dev_log : list dev_call;
  dev_ok : list dev_call -> dev_call -> bool;
  stdout : list string;
}.

Definition with_fs (w : world) (f : gmap string (list byte)) : world :=
  mkWorld f (redis w) (dev_log w) (dev_ok w) (stdout w).

Definition with_dev_log (w : world) (l : list dev_call) : world :=
  mkWorld (fs w) (redis w) l (dev_ok w) (stdout w).

Definition with_stdout (w : world) (l : list string) : world :=
  mkWorld (fs w) (redis w) (dev_log w) (dev_ok w) l.

(** ** Computations that change the world or raise *)

Inductive result (A : Type) : Type :=
| Ok (a : A)
| Raise (e : exn).

Arguments Ok {A} a.
Arguments Raise {A} e.

Definition M (A : Type) : Type := world -> result A * world.

#[global] Instance M_ret : MRet M := fun A a w => (Ok a, w).

#[global] Instance M_bind : MBind M := fun A B f m w =>
  match m w with
  | (Ok a, w') => f a w'
  | (Raise e, w') => (Raise e, w')
  end.

Definition raise {A : Type} (e : exn) : M A := fun w => (Raise e, w).

Definition print (line : string) : M unit :=
  fun w => (Ok tt, with_stdout w (stdout w ++ [line])).

(** [os.path.isfile] *)
Definition isfile (path : string) : M bool :=
  fun w => (Ok (bool_decide (is_Some (fs w !! path))), w).

(** [open(path, 'wb')]: the file is created, or emptied. *)
Definition open_wb (path : string) : M unit :=
  fun w => (Ok tt, with_fs w (<[path := []]> (fs w))).

(** [binfile.write(data)] followed, at the latest when the [with] block is
    left, by the flush to the file. *)
Definition file_write (path : string) (data : list byte) : M unit :=
  fun w => (Ok tt, with_fs w (<[path := default [] (fs w !! path) ++ data]> (fs w))).

(** [open(path, mode).read()] of a whole file. *)
Definition file_read (path : string) : M (list byte) :=
  fun w =>
    match fs w !! path with
    | Some data => (Ok data, w)
    | None => (Raise (FileNotFoundError path), w)
    end.

Definition device_call (c : dev_call) : M unit :=
  fun w =>
    let w' := with_dev_log w (dev_log w ++ [c]) in
    if dev_ok w (dev_log w) c then (Ok tt, w') else (Raise VisaIOError, w').

(** [redis_client.get(key)] with [decode_responses=True] *)
Definition redis_get (key : string) : M (option string) :=
  fun w => (Ok (redis w !! key), w).

(** [float(s)] as a computation: [ValueError] carries the refused string. *)
Definition float (s : string) : M pyfloat :=
  match Float.float s with
  | Some x => mret x
  | None => raise (ValueError s)
  end.

(** ** [struct.pack] with format ['f' * n] *)

Definition byte_of_Z (z : Z) : byte :=
  default x00 (Byte.of_N (Z.to_N (z mod 256))).

Definition le_bytes4 (b : Z) : list byte :=
  [byte_of_Z b; byte_of_Z (Z.shiftr b 8);
   byte_of_Z (Z.shiftr b 16); byte_of_Z (Z.shiftr b 24)].

(** [sys.byteorder] *)
Inductive byteorder : Type := little | big.

Definition sys_byteorder : byteorder := little.

Definition native_bytes4 (b : Z) : list byte :=
  match sys_byteorder with
  | little => le_bytes4 b
  | big => rev (le_bytes4 b)
  end.

(** One ['f']: the C cast to [float], copied out in host byte order. *)
Definition pack_f (x : pyfloat) : list byte :=
  native_bytes4 (Float.bits_of_single (Float.to_single x)).

Definition struct_pack (float_row : list pyfloat) : list byte :=
  concat (map pack_f float_row).

Definition Z_of_byte (b : byte) : Z := Z.of_N (Byte.to_N b).

(** [struct.unpack('f', bs)], as the binary32 that the four bytes hold. *)
Definition unpack_f (bs : list byte) : option pyfloat :=
  match bs with
  | [b0; b1; b2; b3] =>
      let value b0 b1 b2 b3 :=
        Z_of_byte b0 + Z_of_byte b1 * 2 ^ 8
        + Z_of_byte b2 * 2 ^ 16 + Z_of_byte b3 * 2 ^ 24 in
      Some (Float.single_of_bits
              match sys_byteorder with
              | little => value b0 b1 b2 b3
              | big => value b3 b2 b1 b0
              end)
  | _ => None
  end.

(** ** class WaveformGenerator *)

Definition send_command (command : string) : M unit :=
  print ("Sending command: " +:+ command) ;;
  device_call (DevWrite command).

Definition set_waveform_type (channel waveform_type : pyval) : M unit :=
  send_command ("C" +:+ py_str channel +:+ ":BSWV WVTP," +:+ py_str waveform_type).

Definition set_frequency (channel frequency : pyval) : M unit :=
  send_command ("C" +:+ py_str channel +:+ ":BSWV FRQ," +:+ py_str frequency).

Definition set_amplitude (channel amplitude : pyval) : M unit :=
  send_command ("C" +:+ py_str channel +:+ ":BSWV AMP," +:+ py_str amplitude).

Definition set_phase (channel phase : pyval) : M unit :=
  send_command ("C" +:+ py_str channel +:+ ":BSWV PHSE," +:+ py_str phase).

Definition set_offset (channel offset : pyval) : M unit :=
  send_command ("C" +:+ py_str channel +:+ ":BSWV OFST," +:+ py_str offset).

Definition start_waveform (channel : pyval) : M unit :=
  send_command ("C" +:+ py_str channel +:+ ":OUTP ON").

Definition stop_waveform (channel : pyval) : M unit :=
  send_command ("C" +:+ py_str channel +:+ ":OUTP OFF").

Definition set_arbitrary_waveform_by_name (channel : pyval) (name : string)
  : M unit :=
  send_command ("C" +:+ py_str channel +:+ ":ARWV NAME," +:+ name).

(** The body of [for row in reader]. *)
Fixpoint write_rows (bin_filename : string) (reader : records) : M unit :=
  match reader with
  | RStop => mret tt
  | RRaise e => raise e
  | RRow row rest =>
      float_row ← mapM float row;
      let bin_row := struct_pack float_row in
      file_write bin_filename bin_row ;;
      write_rows bin_filename rest
  end.

(** The rows a reader over [csv_filename] yields; nothing is read from the
    file before the first row is asked for. *)
Definition csv_reader (csv_filename : string) : M records :=
  data ← file_read csv_filename;
  mret (Csv.reader data).

Definition convert_csv_to_binary (csv_filename bin_filename : string)
  : M unit :=
  present ← isfile csv_filename;
  if negb present
  then raise (FileNotFoundError ("No such file: '" +:+ csv_filename +:+ "'"))
  else
    open_wb bin_filename ;;
    reader ← csv_reader csv_filename;
    match reader with               (* next(reader): skip the header row *)
    | RStop => raise StopIteration
    | RRaise e => raise e
    | RRow _ rest => write_rows bin_filename rest
    end ;;
    print ("Converted " +:+ csv_filename +:+ " to " +:+ bin_filename).

Definition save_binary_waveform_to_device (bin_filename : string) : M unit :=
  let waveform_name := (Path.splitext (Path.basename bin_filename)).1 in
  data ← file_read bin_filename;
  device_call
    (DevWriteBinaryValues ("C1:WVDT WVNM," +:+ waveform_name +:+ ",WAVEDATA,")
       data) ;;
  print ("Binary waveform " +:+ bin_filename +:+ " saved to device as "
         +:+ waveform_name +:+ ".").

Definition upload_and_generate_waveform (channel : pyval)
    (csv_filename : string) (frequency amplitude phase offset : pyval)
  : M unit :=
  let bin_filename := (Path.splitext csv_filename).1 +:+ ".bin" in
  convert_csv_to_binary csv_filename bin_filename ;;
  save_binary_waveform_to_device bin_filename ;;
  set_arbitrary_waveform_by_name channel
    (Path.splitext (Path.basename csv_filename)).1 ;;
  set_frequency channel frequency ;;
  set_amplitude channel amplitude ;;
  set_phase channel phase ;;
  set_offset channel offset ;;
  start_waveform channel ;;
  print ("Waveform from " +:+ csv_filename
         +:+ " is now being generated on channel " +:+ py_str channel).

(** The parameters of [upload_and_generate_waveform] after [self]; none
    has a default value. *)
Definition upload_and_generate_waveform_params : list string :=
  ["channel"; "csv_filename"; "frequency"; "amplitude"; "phase"; "offset"].

(** A call of [generator.upload_and_generate_waveform] on the positional
    arguments [args]: Python binds them to the six parameters before the
    body runs, and raises [TypeError] when their number is not six. *)
Definition call_upload_and_generate_waveform (args : list pyval) : M unit :=
  match args with
  | [channel; VStr csv_filename; frequency; amplitude; phase; offset] =>
      upload_and_generate_waveform channel csv_filename
        frequency amplitude phase offset
  | [_; _; _; _; _; _] =>
      raise (TypeError "expected str, bytes or os.PathLike object")
  | _ =>
      if (length args <? 6)%nat
      then raise (TypeError
                    ("missing required positional arguments: " +:+
                     String.concat ", "
                       (drop (length args) upload_and_generate_waveform_params)))
      else raise (TypeError "too many positional arguments")
  end.

Definition get_command_from_redis (key : string) : M (option string) :=
  redis_get key.

(** ** class WaveformGUI *)

(** The Tk variables the callbacks read, and the connected generator's
    world: [self.generator] is set, that is, [connect_device] has run. *)
Record WaveformGUI : Type := mkGUI {
  channel : Z;
  frequency : pyfloat;
  amplitude : pyfloat;
  phase : pyfloat;
  offset : pyfloat;
  redis_key : string;
  file_path : string;
}.

(** [parts[i]] *)
Definition getitem (parts : list string) (i : nat) : M string :=
  match parts !! i with
  | Some s => mret s
  | None => raise IndexError
  end.

Definition execute_redis_command (self : WaveformGUI) : M unit :=
  command ← get_command_from_redis (redis_key self);
  parts ← match command with
          | Some c => mret (Text.split c)
          | None => raise AttributeError
          end;
  verb ← getitem parts 0;
  if String.eqb verb "upload" then
    csv_filename ← getitem parts 2;
    present ← isfile csv_filename;
    if negb present
    then print ("No such file: '" +:+ csv_filename +:+ "'")
    else call_upload_and_generate_waveform
           [VInt (channel self); VStr csv_filename]
  else if String.eqb verb "set" then
    waveform_type ← getitem parts 2;
    set_waveform_type (VInt (channel self)) (VStr waveform_type) ;;
    p3 ← getitem parts 3;
    f ← float p3;
    set_frequency (VInt (channel self)) (VFloat f) ;;
    p4 ← getitem parts 4;
    a ← float p4;
    set_amplitude (VInt (channel self)) (VFloat a) ;;
    start_waveform (VInt (channel self))
  else if String.eqb verb "stop" then
    stop_waveform (VInt (channel self))
  else print "Unknown command.".

Definition upload_and_generate (self : WaveformGUI) : M unit :=
  call_upload_and_generate_waveform
    [VInt (channel self); VStr (file_path self); VFloat (frequency self);
     VFloat (amplitude self); VFloat (phase self); VFloat (offset self)].

(** ** The remaining methods and callbacks *)

Definition with_redis (w : world) (r : gmap string string) : world :=
  mkWorld (fs w) r (dev_log w) (dev_ok w) (stdout w).

(** [redis_client.set(key, value)] *)
Definition redis_set (key value : string) : M unit :=
  fun w => (Ok tt, with_redis w (<[key := value]> (redis w))).

Definition set_command_to_redis (key value : string) : M unit :=
  redis_set key value.

(** [str.lower] on code points below 256: the ASCII capitals and the
    Latin-1 capitals, which are 192 to 222 without the multiplication
    sign 215. *)
Definition lower_char (c : ascii) : ascii :=
  let n := Text.code c in
  if ((65 <=? n) && (n <=? 90))
     || ((192 <=? n) && (n <=? 222) && negb (n =? 215))
  then Text.chr (n + 32) else c.

Definition lower (s : string) : string :=
  Text.str (map lower_char (Text.chars s)).

(** The array [y] that [plot_waveform] draws over
    [t = np.linspace(0, 1, 500)], kept as the numpy expression that
    computes it: [np.zeros_like(t)], [np.sin(2 * np.pi * f * t)], the
    [np.sign] of that sine, [2 * (t - np.floor(t + 0.5))],
    [np.where(sine > 0, 1, 0)], [np.random.normal(0, 1, len(t))] and
    [np.ones_like(t)]. *)
Inductive samples : Type :=
| zeros_like_t
| sin_2pi_f_t (f : pyfloat)
| sign_sin_2pi_f_t (f : pyfloat)
| ramp_t
| where_sin_positive (f : pyfloat)
| random_normal
| ones_like_t.

(** One subplot: the line [ax.plot(t, y)] and the three labels. *)
Record Axes : Type := mkAxes {
  plotted : samples;
  ax_title : string;
  ax_xlabel : string;
  ax_ylabel : string;
}.

(** The options of [frame.grid(column=, row=, columnspan=, pady=)]. *)
Inductive grid_options : Type :=
| Grid (column row columnspan pady : Z).

(** The Tk variables and widgets of the form that the dispatcher does not
    read: the two remaining string variables, the three mode frames, each
    with its place in the grid while it is shown, the subplots of
    [self.figure], and what [self.canvas] has drawn. *)
Record Widgets : Type := mkWidgets {
  mode : string;
  waveform_type : string;
  manual_frame : option grid_options;
  redis_frame : option grid_options;
  custom_frame : option grid_options;
  figure : list Axes;
  canvas : list Axes;
}.

(** [self.manual_frame.grid_forget()], for [None], and
    [self.manual_frame.grid(...)]; likewise for the two other frames. *)
Definition grid_manual_frame (g : option grid_options) (tk : Widgets)
  : Widgets :=
  mkWidgets (mode tk) (waveform_type tk) g (redis_frame tk) (custom_frame tk)
    (figure tk) (canvas tk).

Definition grid_redis_frame (g : option grid_options) (tk : Widgets)
  : Widgets :=
  mkWidgets (mode tk) (waveform_type tk) (manual_frame tk) g (custom_frame tk)
    (figure tk) (canvas tk).

Definition grid_custom_frame (g : option grid_options) (tk : Widgets)
  : Widgets :=
  mkWidgets (mode tk) (waveform_type tk) (manual_frame tk) (redis_frame tk) g
    (figure tk) (canvas tk).

Definition mode_selected (tk : Widgets) : Widgets :=
  let tk := grid_manual_frame None tk in
  let tk := grid_redis_frame None tk in
  let tk := grid_custom_frame None tk in
  if String.eqb (mode tk) "Manual" then
    grid_manual_frame (Some (Grid 0 6 3 10)) tk
  else if String.eqb (mode tk) "Redis" then
    grid_redis_frame (Some (Grid 0 6 2 10)) tk
  else if String.eqb (mode tk) "Custom" then
    grid_custom_frame (Some (Grid 0 6 3 10)) tk
  else tk.

Definition plot_waveform (self : WaveformGUI) (tk : Widgets) : Widgets :=
  let kind := lower (waveform_type tk) in
  let y :=
    if String.eqb kind "sine" then sin_2pi_f_t (frequency self)
    else if String.eqb kind "square" then sign_sin_2pi_f_t (frequency self)
    else if String.eqb kind "ramp" then ramp_t
    else if String.eqb kind "pulse" then where_sin_positive (frequency self)
    else if String.eqb kind "noise" then random_normal
    else if String.eqb kind "dc" then ones_like_t
    else zeros_like_t in
  let ax := mkAxes y ("Waveform: " +:+ waveform_type tk) "Time" "Amplitude" in
  mkWidgets (mode tk) (waveform_type tk)
    (manual_frame tk) (redis_frame tk) (custom_frame tk) [ax] [ax].

(** The form's [Set Waveform] button; the widgets it returns are those
    after the redraw. *)
Definition set_waveform_manual (self : WaveformGUI) (tk : Widgets)
  : M Widgets :=
  set_waveform_type (VInt (channel self)) (VStr (waveform_type tk)) ;;
  set_frequency (VInt (channel self)) (VFloat (frequency self)) ;;
  set_amplitude (VInt (channel self)) (VFloat (amplitude self)) ;;
  set_phase (VInt (channel self)) (VFloat (phase self)) ;;
  set_offset (VInt (channel self)) (VFloat (offset self)) ;;
  start_waveform (VInt (channel self)) ;;
  mret (plot_waveform self tk).

(** ** Vocabulary of the statements *)

(** Rows put in front of what a reader yields afterwards. *)
Fixpoint rows_then (rows : list (list string)) (rest : records) : records :=
  match rows with
  | [] => rest
  | row :: rows' => RRow row (rows_then rows' rest)
  end.

(** The fields of a row as floats, when every field is numeric. *)
Definition numeric_row (row : list string) : option (list pyfloat) :=
  mapM Float.float row.

(** A word of a command: not empty and free of white space. *)
Definition is_token (s : string) : bool :=
  match Text.chars s with
  | [] => false
  | l => forallb (fun c => negb (Text.is_space c)) l
  end.

(** The bytes of an ASCII text. *)
Definition bytes_of (s : string) : list byte :=
  map byte_of_ascii (Text.chars s).

(** The device calls of one upload, in the order of the method body. *)
Definition upload_steps (channel : pyval) (csv_filename : string)
    (data : list byte) (frequency amplitude phase offset : pyval)
  : list dev_call :=
  let bin_filename := (Path.splitext csv_filename).1 +:+ ".bin" in
  [ DevWriteBinaryValues
      ("C1:WVDT WVNM," +:+ (Path.splitext (Path.basename bin_filename)).1
       +:+ ",WAVEDATA,") data;
    DevWrite ("C" +:+ py_str channel +:+ ":ARWV NAME,"
              +:+ (Path.splitext (Path.basename csv_filename)).1);
    DevWrite ("C" +:+ py_str channel +:+ ":BSWV FRQ," +:+ py_str frequency);
    DevWrite ("C" +:+ py_str channel +:+ ":BSWV AMP," +:+ py_str amplitude);
    DevWrite ("C" +:+ py_str channel +:+ ":BSWV PHSE," +:+ py_str phase);
    DevWrite ("C" +:+ py_str channel +:+ ":BSWV OFST," +:+ py_str offset);
    DevWrite ("C" +:+ py_str channel +:+ ":OUTP ON") ].

(** How many of the calls [cs] are issued after [log]: all of them, or
    those up to and including the first one the bus refuses. *)
Fixpoint issued (ok : list dev_call -> dev_call -> bool)
    (log : list dev_call) (cs : list dev_call) : nat :=
  match cs with
  | [] => O
  | c :: cs' => if ok log c then S (issued ok (log ++ [c]) cs') else 1%nat
  end.

(** Whether the bus carries out every call of [cs] after [log]. *)
Fixpoint all_accepted (ok : list dev_call -> dev_call -> bool)
    (log : list dev_call) (cs : list dev_call) : bool :=
  match cs with
  | [] => true
  | c :: cs' => ok log c && all_accepted ok (log ++ [c]) cs'
  end.

(** A device that carries out every call. *)
Definition reliable (w : world) : Prop :=
  forall log c, dev_ok w log c = true.

Definition always_ok : list dev_call -> dev_call -> bool := fun _ _ => true.

(** A directory prefix of a path: empty, or ending in the separator. *)
Definition dir_prefix (dir : list ascii) : Prop :=
  dir = [] \/ exists d, dir = d ++ ["/"%char].

Definition all_dots (m : list ascii) : bool :=
  forallb (fun c => Ascii.eqb c ".") m.

(** A bench with one file, one Redis key and a device that carries out
    every call; the operator holds channel 1. *)
Definition bench (path : string) (data : list byte) (command : string)
  : world :=
  mkWorld {[ path := data ]} {[ "cmd" := command ]} [] always_ok [].

Definition demo_csv : list byte :=
  bytes_of ("t,v" +:+ Text.nl +:+ "0,1.5" +:+ Text.nl +:+ "1,-2" +:+ Text.nl).

(** The same file with a non-numeric field in its second data row. *)
Definition demo_bad_csv : list byte :=
  bytes_of ("t,v" +:+ Text.nl +:+ "0,1.5" +:+ Text.nl +:+ "x,-2" +:+ Text.nl
            +:+ "3,4" +:+ Text.nl).

Definition demo_world (command : string) : world :=
  bench "wave.csv" demo_csv command.

Definition demo_gui : WaveformGUI :=
  mkGUI 1 (Fzero false) (Fzero false) (Fzero false) (Fzero false)
    "cmd" "wave.csv".

(** The floats [1000.0], [2.5] and [0.0] as arguments of a call. *)
Definition f1000 : pyval := VFloat (Ffin false 8796093022208000 (-43)).
Definition f2_5 : pyval := VFloat (Ffin false 5629499534213120 (-51)).
Definition f0 : pyval := VFloat (Fzero false).

(** A device that refuses its third call. *)
Definition refuses_third : list dev_call -> dev_call -> bool :=
  fun log _ => negb (length log =? 2)%nat.

(** The world after command [c] was issued and [line] printed. *)
Definition sent (w : world) (c : dev_call) (line : string) : world :=
  mkWorld (fs w) (redis w) (dev_log w ++ [c]) (dev_ok w) (stdout w ++ [line]).

(** [m] issues the device calls [cs] in order, stops at the first one the
    bus refuses, and leaves files and device behaviour as they are. *)
Definition runs (m : M unit) (cs : list dev_call) : Prop :=
  forall w, exists w',
    m w = (if all_accepted (dev_ok w) (dev_log w) cs
           then Ok tt else Raise VisaIOError, w') /\
    dev_log w' = dev_log w ++ take (issued (dev_ok w) (dev_log w) cs) cs /\
    fs w' = fs w /\ dev_ok w' = dev_ok w.

(** [m] leaves the files and the Redis store as they are. *)
Definition keeps_store {A : Type} (m : M A) : Prop :=
  forall w, fs (m w).2 = fs w /\ redis (m w).2 = redis w.

(** A character of a plain field: ASCII, and none of the line feed, the
    carriage return, the comma and the double quote. *)
Definition plain_char (c : ascii) : bool :=
  (Text.code c <? 128) && negb (Csv.is_newline c)
  && negb (Csv.is_delimiter c) && negb (Csv.is_quotechar c).

(** A field of plain characters that is within the reader's field limit. *)
Definition plain_field (f : string) : bool :=
  forallb plain_char (Text.chars f)
  && (Z.of_nat (length (Text.chars f)) <=? Csv.field_limit).

(** A row that one line of plain fields stands for: every row of plain
    fields but the row of one empty field, whose line is blank and reads as
    the row without fields. *)
Definition plain_row (row : list string) : bool :=
  forallb plain_field row && negb (bool_decide (row = [""])).

(** The two line ends of text files: the line feed [Text.nl], and the
    carriage return and line feed. *)
Definition crlf : string := String (Text.chr 13) Text.nl.

(** The line of a row: its fields joined by commas, and the line end. *)
Definition csv_line (eol : string) (row : list string) : string :=
  String.concat "," row +:+ eol.

Fixpoint csv_lines (eol : string) (rows : list (list string)) : string :=
  match rows with
  | [] => ""
  | row :: rows' => csv_line eol row +:+ csv_lines eol rows'
  end.

(** A last line that has no line end, if there is one. *)
Definition open_line (last : option (list string)) : string :=
  match last with
  | Some row => String.concat "," row
  | None => ""
  end.

(** The text of a CSV file: lines with their line ends, and possibly a
    last line without. *)
Definition csv_file (eol : string) (lines : list (list string))
    (last : option (list string)) : string :=
  csv_lines eol lines +:+ open_line last.

(** A row that a last line without line end stands for: it has a field,
    since a line without any character is no line. *)
Definition open_row (last : option (list string)) : bool :=
  match last with
  | Some row => plain_row row && negb (bool_decide (row = []))
  | None => true
  end.

(** The characters of a line after its first field, up to the end [tail]
    of the line. *)
Fixpoint rest_line (tail : list ascii) (fs : list string) : list ascii :=
  match fs with
  | [] => tail
  | g :: gs => ","%char :: Text.chars g ++ rest_line tail gs
  end.

(** * Properties *)

(** ** The library models on examples *)

Section LibraryExamples.

Example float_accepts :
  map Float.float ["2.5"; " 1_000 "; "-.5e1"; "1e400"; "-0"; "NaN"]
  = [ Some (Ffin false 5629499534213120 (-51));
      Some (Ffin false 8796093022208000 (-43));
      Some (Ffin true 5629499534213120 (-50));
      Some (Finf false); Some (Fzero true); Some (Fnan false) ].
Proof. vm_compute. reflexivity. Qed.

Example float_refuses :
  map Float.float [""; "abc"; "1,5"; "0x10"; "1__0"; "1e"; "."]
  = [None; None; None; None; None; None; None].
Proof. vm_compute. reflexivity. Qed.

Example repr_layouts :
  map (fun s => Repr.repr <$> Float.float s)
    ["1000"; "0.1"; "1e16"; "1e-5"; "-0.0"; "123456789.123"]
  = [ Some "1000.0"; Some "0.1"; Some "1e+16"; Some "1e-05"; Some "-0.0";
      Some "123456789.123" ].
Proof. vm_compute. reflexivity. Qed.

(** [1.5]; [0.1], inexact in binary32; [1e39], beyond the binary32 range:
    the native format does not raise, it stores an infinity; [1e-46],
    below the smallest subnormal; a negative NaN. *)
Example pack_f_bytes :
  map (fun s => pack_f <$> Float.float s)
    ["1.5"; "0.1"; "1e39"; "1e-46"; "-nan"]
  = [ Some [x00; x00; xc0; x3f]; Some [xcd; xcc; xcc; x3d];
      Some [x00; x00; x80; x7f]; Some [x00; x00; x00; x00];
      Some [x00; x00; xc0; xff] ].
Proof. vm_compute. reflexivity. Qed.

Example splitext_examples :
  map Path.splitext ["wave.csv"; "a/b.c/d"; "x.tar.gz"; ".bashrc"; "....bin"]
  = [ ("wave", ".csv"); ("a/b.c/d", ""); ("x.tar", ".gz"); (".bashrc", "");
      ("....bin", "") ].
Proof. vm_compute. reflexivity. Qed.

Example split_example : Text.split "  set  X 1000 " = ["set"; "X"; "1000"].
Proof. vm_compute. reflexivity. Qed.

(** A blank line is a row without fields; a quoted field keeps its comma. *)
Example reader_example :
  Csv.reader
    (bytes_of ("t,v" +:+ Text.nl +:+ Text.nl
               +:+ "1," +:+ Text.dquote +:+ "2,5" +:+ Text.dquote +:+ Text.nl))
  = RRow ["t"; "v"] (RRow [] (RRow ["1"; "2,5"] RStop)).
Proof. vm_compute. reflexivity. Qed.

End LibraryExamples.

(** ** Single precision *)

Section Shifts.

Lemma iter_pos_nat {A : Type} (f : A -> A) (n : positive) (x : A) :
  SpecFloat.iter_pos f n x = Nat.iter (Pos.to_nat n) f x.
Proof.
  revert x. induction n as [n IH|n IH|]; intros x; cbn [SpecFloat.iter_pos].
  - rewrite !IH, Pos2Nat.inj_xI, <- Nat.iter_add, <- Nat.iter_succ_r.
    f_equal. lia.
  - rewrite !IH, Pos2Nat.inj_xO, <- Nat.iter_add. f_equal. lia.
  - reflexivity.
Qed.

Lemma shr_1_m (mrs : shr_record) :
  0 <= shr_m mrs -> shr_m (shr_1 mrs) = shr_m mrs / 2.
Proof.
  destruct mrs as [m r s]. cbn [shr_m]. intros Hm.
  destruct m as [|[p|p|]|p]; cbn [shr_1 shr_m]; try lia.
  - reflexivity.
  - apply (Z.div_unique (Zpos p~1) 2 (Zpos p) 1); lia.
  - apply (Z.div_unique (Zpos p~0) 2 (Zpos p) 0); lia.
  - reflexivity.
Qed.

Lemma shr_iter_m (k : nat) (mrs : shr_record) :
  0 <= shr_m mrs ->
  shr_m (Nat.iter k shr_1 mrs) = shr_m mrs / 2 ^ Z.of_nat k.
Proof.
  intros Hm. induction k as [|k IH].
  - simpl. by rewrite Z.div_1_r.
  - rewrite Nat2Z.inj_succ, Z.pow_succ_r by lia. simpl.
    rewrite shr_1_m, IH.
    + rewrite Z.mul_comm, Z.div_div by lia. reflexivity.
    + rewrite IH. apply Z.div_pos; lia.
Qed.

(** Shifting right by [n] divides the mantissa by [2^n]. *)
Lemma shr_m_div (m e n : Z) :
  0 <= m -> 0 <= n ->
  let '(mrs, e') := shr (Build_shr_record m false false) e n in
  shr_m mrs = m / 2 ^ n /\ e' = e + n.
Proof.
  intros Hm Hn. unfold shr. destruct n as [|p|p]; [| |lia].
  - simpl. rewrite Z.div_1_r. lia.
  - split; [|reflexivity].
    rewrite iter_pos_nat, shr_iter_m by done.
    by rewrite positive_nat_Z.
Qed.

Lemma digits2_size (p : positive) : digits2_pos p = Pos.size p.
Proof. induction p as [p IH|p IH|]; simpl; by rewrite ?IH. Qed.

(** [Zdigits2 m] is the number of bits of [m]. *)
Lemma digits_bounds (p : positive) :
  2 ^ (Zpos (digits2_pos p) - 1) <= Zpos p < 2 ^ Zpos (digits2_pos p).
Proof.
  rewrite digits2_size.
  pose proof (Z.log2_spec (Zpos p)) as H.
  assert (Z.log2 (Zpos p) = Zpos (Pos.size p) - 1) as Hlog.
  { destruct p; simpl; lia. }
  rewrite Hlog in H.
  replace (Z.succ (Zpos (Pos.size p) - 1)) with (Zpos (Pos.size p)) in H by lia.
  apply H. lia.
Qed.

Lemma digits_unique (p : positive) (d : Z) :
  2 ^ (d - 1) <= Zpos p < 2 ^ d -> Zpos (digits2_pos p) = d.
Proof.
  intros [Hlo Hhi]. pose proof (digits_bounds p) as [Hlo' Hhi'].
  assert (0 < d).
  { destruct d as [|q|q]; [simpl in Hhi; lia|lia|].
    rewrite Z.pow_neg_r in Hhi by lia. lia. }
  destruct (Z.lt_trichotomy (Zpos (digits2_pos p)) d) as [Hlt|[Heq|Hgt]]; [|done|].
  - assert (2 ^ Zpos (digits2_pos p) <= 2 ^ (d - 1))
      by (apply Z.pow_le_mono_r; lia). lia.
  - assert (2 ^ d <= 2 ^ (Zpos (digits2_pos p) - 1))
      by (apply Z.pow_le_mono_r; lia). lia.
Qed.

End Shifts.

Section Rounding.

(** The last step of rounding: a mantissa of [k] bits, or [2^k] after a
    carry, at the exponent of [k]-bit mantissas, is normalized into a valid
    binary32, or overflows. *)
Lemma renormalize_valid (sx : bool) (m1 e' k : Z) :
  1 <= k <= 24 ->
  fexp 24 128 (k + e') = e' ->
  2 ^ (k - 1) <= m1 <= 2 ^ k ->
  valid_binary 24 128
    (let '(mrs, e'') := shr_fexp 24 128 m1 e' loc_Exact in
     match shr_m mrs with
     | Z0 => S754_zero sx
     | Zpos m => if e'' <=? 128 - 24 then S754_finite sx m e''
                 else S754_infinity sx
     | Zneg _ => S754_nan
     end) = true.
Proof.
  intros Hk He' Hm1.
  assert (0 < 2 ^ (k - 1)) by (apply Z.pow_pos_nonneg; lia).
  destruct m1 as [|p|p]; [lia| |lia].
  unfold shr_fexp. cbn [Zdigits2 shr_record_of_loc].
  destruct (Z.eq_dec (Zpos p) (2 ^ k)) as [Hcarry|Hno].
  - assert (Zpos (digits2_pos p) = k + 1) as Hd.
    { apply digits_unique. replace (k + 1 - 1) with k by lia.
      rewrite Hcarry. split; [lia|]. apply Z.pow_lt_mono_r; lia. }
    rewrite Hd.
    destruct (Z.eq_dec k 24) as [->|Hk24].
    + assert (p = 16777216%positive) as -> by (simpl in Hcarry; lia).
      replace (fexp 24 128 (24 + 1 + e') - e') with 1
        by (unfold fexp, emin in *; lia).
      cbn. destruct (e' + 1 <=? 128 - 24) eqn:Hle; [|reflexivity].
      cbn. unfold bounded, canonical_mantissa. cbn [digits2_pos Pos.succ].
      rewrite Hle, andb_true_r. apply Z.eqb_eq.
      unfold fexp, emin in *. lia.
    + replace (fexp 24 128 (k + 1 + e') - e') with 0
        by (unfold fexp, emin in *; lia).
      cbn. destruct (e' <=? 128 - 24) eqn:Hle; [|reflexivity].
      cbn. unfold bounded, canonical_mantissa.
      rewrite Hd, Hle, andb_true_r. apply Z.eqb_eq.
      unfold fexp, emin in *. lia.
  - assert (Zpos (digits2_pos p) = k) as Hd by (apply digits_unique; lia).
    rewrite Hd, He', Z.sub_diag.
    cbn. destruct (e' <=? 128 - 24) eqn:Hle; [|reflexivity].
    cbn. unfold bounded, canonical_mantissa.
    rewrite Hd, He', Hle, Z.eqb_refl. reflexivity.
Qed.

Lemma round_nearest_even_range (m : Z) (l : location) :
  m <= round_nearest_even m l <= m + 1.
Proof.
  destruct l as [|[]]; simpl; try lia. destruct (Z.even m); lia.
Qed.

(** Rounding to binary32 yields a valid binary32. *)
Lemma binary_round_aux_valid (sx : bool) (mz : positive) (ez : Z) :
  ez <= fexp 24 128 (Zpos (digits2_pos mz) + ez) ->
  valid_binary 24 128 (binary_round_aux 24 128 sx (Zpos mz) ez loc_Exact)
  = true.
Proof.
  intros Haligned. unfold binary_round_aux.
  set (D := Zpos (digits2_pos mz) + ez) in *.
  unfold shr_fexp at 1. cbn [Zdigits2 shr_record_of_loc]. fold D.
  set (e' := fexp 24 128 D) in *.
  pose proof (shr_m_div (Zpos mz) ez (e' - ez)) as Hshr.
  destruct (shr _ ez (e' - ez)) as [mrs e1].
  destruct Hshr as [Hm' He1]; [lia|lia|].
  replace e1 with e' by lia. clear He1.
  pose proof (round_nearest_even_range (shr_m mrs) (loc_of_shr_record mrs))
    as Hm1.
  set (m1 := round_nearest_even (shr_m mrs) (loc_of_shr_record mrs)) in *.
  pose proof (digits_bounds mz) as [Hlo Hhi].
  set (d := Zpos (digits2_pos mz)) in *.
  set (n := e' - ez) in *.
  assert (0 < 2 ^ n) as Hpow by (apply Z.pow_pos_nonneg; lia).
  assert (0 <= shr_m mrs) as Hm'0 by (rewrite Hm'; apply Z.div_pos; lia).
  (* the shifted mantissa has [d - n] bits *)
  destruct (Z.le_gt_cases d n) as [Hsmall|Hbig].
  - (* everything is shifted out: the result is zero or the least subnormal *)
    assert (shr_m mrs = 0) as Hzero.
    { rewrite Hm'. apply Z.div_small. split; [lia|].
      assert (2 ^ d <= 2 ^ n) by (apply Z.pow_le_mono_r; lia). lia. }
    assert (m1 = 0 \/ m1 = 1) as [->| ->] by lia.
    + unfold shr_fexp. cbn [Zdigits2 shr_record_of_loc].
      destruct (fexp 24 128 (0 + e') - e') as [|q|q] eqn:Hn2; [done| |done].
      pose proof (shr_m_div 0 e' (Zpos q)) as Hshr.
      destruct (shr _ e' (Zpos q)) as [mrs2 e2].
      destruct Hshr as [-> _]; [lia|lia|].
      by rewrite Z.div_0_l by lia.
    + apply (renormalize_valid sx 1 e' 1); [lia| |simpl; lia].
      unfold e', fexp, emin, D in *. lia.
  - assert (2 ^ (d - n - 1) <= shr_m mrs < 2 ^ (d - n)) as [Hlo' Hhi'].
    { rewrite Hm'. split.
      - apply Z.div_le_lower_bound; [lia|].
        rewrite <- Z.pow_add_r by lia.
        replace (n + (d - n - 1)) with (d - 1) by lia. lia.
      - apply Z.div_lt_upper_bound; [lia|].
        rewrite <- Z.pow_add_r by lia.
        replace (n + (d - n)) with d by lia. lia. }
    apply (renormalize_valid sx m1 e' (d - n)).
    + unfold e', fexp, emin, D, n in *. lia.
    + unfold e', fexp, emin, D, n in *. lia.
    + lia.
Qed.

End Rounding.

Section Cast.

Lemma digits_shl (m d : positive) :
  Zpos (digits2_pos (Pos.iter xO m d)) = Zpos (digits2_pos m) + Zpos d.
Proof.
  induction d as [|d IH] using Pos.peano_ind.
  - simpl. lia.
  - rewrite Pos.iter_succ. cbn [digits2_pos]. lia.
Qed.

Lemma binary_round_valid (sx : bool) (mx : positive) (ex : Z) :
  valid_binary 24 128 (binary_round 24 128 sx mx ex) = true.
Proof.
  unfold binary_round, shl_align.
  destruct (fexp 24 128 (Zpos (digits2_pos mx) + ex) - ex) as [|q|q] eqn:Hn.
  - apply binary_round_aux_valid. lia.
  - apply binary_round_aux_valid. lia.
  - apply binary_round_aux_valid. rewrite digits_shl.
    replace (Zpos (digits2_pos mx) + Zpos q
             + fexp 24 128 (Zpos (digits2_pos mx) + ex))
      with (Zpos (digits2_pos mx) + ex) by lia.
    lia.
Qed.

(** [(float) x] is a binary32. *)
Lemma to_single_valid (x : pyfloat) :
  Float.single_valid (Float.to_single x) = true.
Proof.
  destruct x as [s|s|s|s m e]; try reflexivity.
  unfold Float.to_single. cbn [binary_normalize].
  pose proof (binary_round_valid false m e) as H.
  by destruct (binary_round 24 128 false m e).
Qed.

(** A binary32 is not changed by the cast. *)
Lemma to_single_exact (x : pyfloat) :
  Float.single_valid x = true -> Float.to_single x = x.
Proof.
  destruct x as [s|s|s|s m e]; try reflexivity.
  cbn [Float.single_valid]. unfold bounded, canonical_mantissa.
  intros [Hcanon Hle]%andb_true_iff. apply Z.eqb_eq in Hcanon.
  unfold Float.to_single. cbn [binary_normalize].
  unfold binary_round, shl_align. rewrite Hcanon, Z.sub_diag.
  unfold binary_round_aux, shr_fexp. cbn [Zdigits2 shr_record_of_loc].
  rewrite Hcanon, Z.sub_diag. cbn.
  rewrite Hcanon, Z.sub_diag. cbn.
  by rewrite Hle.
Qed.

End Cast.

Section Encoding.

Lemma valid_finite (m : positive) (e : Z) :
  bounded 24 128 m e = true ->
  Zpos m < 2 ^ 24 /\ -149 <= e <= 104 /\ (Zpos m < 2 ^ 23 -> e = -149).
Proof.
  unfold bounded, canonical_mantissa.
  intros [Hcanon Hle]%andb_true_iff.
  apply Z.eqb_eq in Hcanon. apply Z.leb_le in Hle.
  pose proof (digits_bounds m) as [Hlo Hhi].
  set (d := Zpos (digits2_pos m)) in *.
  unfold fexp, emin in Hcanon.
  assert (d <= 24) by lia.
  assert (2 ^ d <= 2 ^ 24) by (apply Z.pow_le_mono_r; lia).
  split; [lia|]. split; [lia|]. intros Hsub.
  destruct (Z.eq_dec d 24) as [Hd|Hd]; [|lia].
  rewrite Hd in Hlo. simpl in Hlo. simpl in Hsub. lia.
Qed.

Lemma bits_of_single_range (x : pyfloat) :
  Float.single_valid x = true -> 0 <= Float.bits_of_single x < 2 ^ 32.
Proof.
  destruct x as [s|s|s|s m e]; cbn [Float.single_valid Float.bits_of_single];
    unfold Float.sign_bit; change (2 ^ 31) with 2147483648;
    change (2 ^ 32) with 4294967296; change (2 ^ 23) with 8388608.
  1-3: intros _; destruct s; lia.
  intros (Hm & He & _)%valid_finite. change (2 ^ 24) with 16777216 in Hm.
  destruct (Z.ltb_spec (Zpos m) 8388608); destruct s; lia.
Qed.

Lemma single_of_bits_of_single (x : pyfloat) :
  Float.single_valid x = true -> Float.single_of_bits (Float.bits_of_single x) = x.
Proof.
  destruct x as [[]|[]|[]|s m e]; try reflexivity.
  simpl Float.single_valid. intros (Hm & He & Hsub)%valid_finite.
  unfold Float.bits_of_single, Float.single_of_bits.
  change (2 ^ 24) with 16777216 in *. change (2 ^ 23) with 8388608 in *.
  change (2 ^ 31) with 2147483648. change (2 ^ 8) with 256.
  destruct (Z.ltb_spec (Zpos m) 8388608) as [Hlt|Hge].
  - rewrite (Hsub Hlt).
    assert (Float.sign_bit s = if s then 2147483648 else 0) as Hs by by destruct s.
    assert ((Float.sign_bit s + Zpos m) mod 8388608 = Zpos m) as ->.
    { rewrite Hs. destruct s; symmetry.
      - apply (Z.mod_unique _ _ 256); lia.
      - apply (Z.mod_unique _ _ 0); lia. }
    assert (((Float.sign_bit s + Zpos m) / 8388608) mod 256 = 0) as ->.
    { rewrite Hs. destruct s.
      - rewrite <- (Z.div_unique _ 8388608 256 (Zpos m)) by lia. reflexivity.
      - rewrite <- (Z.div_unique _ 8388608 0 (Zpos m)) by lia. reflexivity. }
    simpl Z.eqb. cbv iota. f_equal.
    rewrite Hs. destruct s.
    + apply Z.leb_le. lia.
    + apply Z.leb_gt. lia.
  - set (b := Float.sign_bit s + (e + 150) * 8388608 + (Zpos m - 8388608)).
    assert (Float.sign_bit s = if s then 2147483648 else 0) as Hs by by destruct s.
    assert (b mod 8388608 = Zpos m - 8388608) as ->.
    { unfold b. rewrite Hs. destruct s; symmetry.
      - apply (Z.mod_unique _ _ (256 + (e + 150))); lia.
      - apply (Z.mod_unique _ _ (e + 150)); lia. }
    assert ((b / 8388608) mod 256 = e + 150) as ->.
    { unfold b. rewrite Hs. destruct s.
      - rewrite <- (Z.div_unique _ 8388608 (256 + (e + 150))
                      (Zpos m - 8388608)) by lia.
        symmetry. apply (Z.mod_unique _ _ 1); lia.
      - rewrite <- (Z.div_unique _ 8388608 (e + 150)
                      (Zpos m - 8388608)) by lia.
        symmetry. apply (Z.mod_unique _ _ 0); lia. }
    replace (e + 150 =? 0) with false by (symmetry; apply Z.eqb_neq; lia).
    replace (e + 150 =? 255) with false by (symmetry; apply Z.eqb_neq; lia).
    replace (Zpos m - 8388608 + 8388608) with (Zpos m) by lia.
    replace (e + 150 - 150) with e by lia.
    f_equal. unfold b. rewrite Hs. destruct s.
    + apply Z.leb_le. lia.
    + apply Z.leb_gt. lia.
Qed.

Lemma Z_of_byte_of_Z (z : Z) : Z_of_byte (byte_of_Z z) = z mod 256.
Proof.
  unfold Z_of_byte, byte_of_Z.
  pose proof (Z.mod_pos_bound z 256) as Hmod.
  destruct (Byte.of_N (Z.to_N (z mod 256))) as [b|] eqn:Hb.
  - apply Byte.to_of_N in Hb. simpl. rewrite Hb. lia.
  - apply Byte.of_N_None_iff in Hb. lia.
Qed.

Lemma le_bytes4_value (b : Z) :
  0 <= b < 2 ^ 32 ->
  match le_bytes4 b with
  | [b0; b1; b2; b3] =>
      Z_of_byte b0 + Z_of_byte b1 * 2 ^ 8
      + Z_of_byte b2 * 2 ^ 16 + Z_of_byte b3 * 2 ^ 24 = b
  | _ => False
  end.
Proof.
  intros Hb. unfold le_bytes4. rewrite !Z_of_byte_of_Z, !Z.shiftr_div_pow2 by lia.
  change (2 ^ 8) with 256. change (2 ^ 16) with 65536.
  change (2 ^ 24) with 16777216. change (2 ^ 32) with 4294967296 in Hb.
  pose proof (Z.div_mod b 256). pose proof (Z.mod_pos_bound b 256).
  pose proof (Z.div_mod (b / 256) 256). pose proof (Z.mod_pos_bound (b / 256) 256).
  pose proof (Z.div_mod (b / 65536) 256).
  pose proof (Z.mod_pos_bound (b / 65536) 256).
  assert (b / 65536 = b / 256 / 256) by (rewrite Z.div_div by lia; reflexivity).
  assert (b / 16777216 = b / 65536 / 256) by (rewrite Z.div_div by lia; reflexivity).
  assert (0 <= b / 16777216 < 256).
  { split; [apply Z.div_pos; lia|apply Z.div_lt_upper_bound; lia]. }
  rewrite (Z.mod_small (b / 16777216)) by lia. lia.
Qed.

(** Reading the four bytes back as a binary32 gives the value of the cast. *)
Theorem unpack_pack_f (x : pyfloat) :
  unpack_f (pack_f x) = Some (Float.to_single x).
Proof.
  pose proof (to_single_valid x) as Hvalid.
  pose proof (le_bytes4_value _ (bits_of_single_range _ Hvalid)) as Hle.
  unfold pack_f, native_bytes4, unpack_f, le_bytes4 in *.
  cbv beta iota zeta delta [sys_byteorder].
  rewrite Hle. by rewrite single_of_bits_of_single.
Qed.

End Encoding.

(** ** Words of a command string *)

Section SplitFacts.
Import Text.

Lemma chars_app (a b : string) : chars (a +:+ b) = chars a ++ chars b.
Proof. induction a as [|c a IH]; simpl; [done|]. by rewrite IH. Qed.

Lemma str_chars (s : string) : str (chars s) = s.
Proof. apply string_of_list_ascii_of_string. Qed.

Lemma chars_str (l : list ascii) : chars (str l) = l.
Proof. apply list_ascii_of_string_of_list_ascii. Qed.

Lemma split_go_word (t rest cur : list ascii) :
  forallb (fun c => negb (is_space c)) t = true ->
  split_go cur (t ++ rest) = split_go (rev t ++ cur) rest.
Proof.
  revert cur. induction t as [|c t IH]; intros cur Ht; simpl in *; [done|].
  apply andb_true_iff in Ht as [Hc Ht].
  destruct (is_space c); [done|].
  rewrite IH by done. by rewrite <- app_assoc.
Qed.

Lemma split_go_flush (cur : list ascii) (c : ascii) (rest : list ascii) :
  cur <> [] -> is_space c = true ->
  split_go cur (c :: rest) = str (rev cur) :: split_go [] rest.
Proof. intros Hcur Hc. simpl. rewrite Hc. by destruct cur. Qed.

Lemma split_go_last (cur : list ascii) :
  cur <> [] -> split_go cur [] = [str (rev cur)].
Proof. intros Hcur. by destruct cur. Qed.

Lemma token_chars (tok : string) :
  is_token tok = true ->
  chars tok <> [] /\
  forallb (fun c => negb (is_space c)) (chars tok) = true.
Proof. unfold is_token. destruct (chars tok); [done|]. by split. Qed.

Lemma rev_not_nil (l : list ascii) : l <> [] -> rev l <> [].
Proof.
  intros Hl Hr. apply Hl. apply (f_equal (@rev ascii)) in Hr.
  by rewrite rev_involutive in Hr.
Qed.

Lemma split_go_token_space (tok : string) (c : ascii) (rest : list ascii) :
  is_token tok = true -> is_space c = true ->
  split_go [] (chars tok ++ c :: rest) = tok :: split_go [] rest.
Proof.
  intros [Hne Hall]%token_chars Hc.
  rewrite split_go_word, app_nil_r by done.
  rewrite split_go_flush; [|by apply rev_not_nil|done].
  by rewrite rev_involutive, str_chars.
Qed.

Lemma split_go_token_end (tok : string) :
  is_token tok = true -> split_go [] (chars tok) = [tok].
Proof.
  intros [Hne Hall]%token_chars.
  rewrite <- (app_nil_r (chars tok)), split_go_word, app_nil_r by done.
  rewrite split_go_last; [|by apply rev_not_nil].
  by rewrite rev_involutive, str_chars.
Qed.

End SplitFacts.

(** ** Running computations *)

Section Running.

Lemma run_bind {A B : Type} (m : M A) (f : A -> M B) (w : world) :
  (m ≫= f) w =
  match m w with
  | (Ok a, w') => f a w'
  | (Raise e, w') => (Raise e, w')
  end.
Proof. reflexivity. Qed.

Lemma run_bind_ok {A B : Type} (m : M A) (f : A -> M B) (w w' : world) a :
  m w = (Ok a, w') -> (m ≫= f) w = f a w'.
Proof. intros H. by rewrite run_bind, H. Qed.

Lemma run_bind_raise {A B : Type} (m : M A) (f : A -> M B) (w w' : world) e :
  m w = (Raise e, w') -> (m ≫= f) w = (Raise e, w').
Proof. intros H. by rewrite run_bind, H. Qed.

Lemma send_command_run (command : string) (w : world) :
  send_command command w =
  (if dev_ok w (dev_log w) (DevWrite command)
   then Ok tt else Raise VisaIOError,
   sent w (DevWrite command) ("Sending command: " +:+ command)).
Proof.
  unfold send_command, print, device_call, sent. rewrite run_bind. simpl.
  by destruct (dev_ok w (dev_log w) (DevWrite command)).
Qed.

Lemma send_command_reliable (command : string) (w : world) :
  reliable w ->
  send_command command w =
  (Ok tt, sent w (DevWrite command) ("Sending command: " +:+ command)).
Proof. intros Hw. by rewrite send_command_run, Hw. Qed.

Lemma ret_bind {A B : Type} (a : A) (f : A -> M B) (w : world) :
  (mret a ≫= f) w = f a w.
Proof. reflexivity. Qed.

Lemma send_bind_reliable {B : Type} (command : string) (f : unit -> M B)
    (w : world) :
  reliable w ->
  (send_command command ≫= f) w =
  f tt (sent w (DevWrite command) ("Sending command: " +:+ command)).
Proof. intros Hw. by rewrite run_bind, send_command_reliable. Qed.

Lemma float_bind {B : Type} (s : string) (x : pyfloat) (f : pyfloat -> M B)
    (w : world) :
  Float.float s = Some x -> (float s ≫= f) w = f x w.
Proof. intros H. unfold float. by rewrite H. Qed.

Lemma float_bind_raise {B : Type} (s : string) (f : pyfloat -> M B)
    (w : world) :
  Float.float s = None -> (float s ≫= f) w = (Raise (ValueError s), w).
Proof. intros H. unfold float. by rewrite H. Qed.

Lemma isfile_bind {B : Type} (path : string) (f : bool -> M B) (w : world) :
  (isfile path ≫= f) w = f (bool_decide (is_Some (fs w !! path))) w.
Proof. reflexivity. Qed.

Lemma open_wb_bind {B : Type} (path : string) (f : unit -> M B) (w : world) :
  (open_wb path ≫= f) w = f tt (with_fs w (<[path := []]> (fs w))).
Proof. reflexivity. Qed.

Lemma csv_reader_bind {B : Type} (path : string) (data : list byte)
    (f : records -> M B) (w : world) :
  fs w !! path = Some data -> (csv_reader path ≫= f) w = f (Csv.reader data) w.
Proof.
  intros H. unfold csv_reader, file_read. rewrite !run_bind. by rewrite H.
Qed.

Lemma file_read_bind {B : Type} (path : string) (data : list byte)
    (f : list byte -> M B) (w : world) :
  fs w !! path = Some data -> (file_read path ≫= f) w = f data w.
Proof. intros H. unfold file_read. rewrite run_bind. by rewrite H. Qed.

Lemma device_call_bind {B : Type} (c : dev_call) (f : unit -> M B) (w : world) :
  (device_call c ≫= f) w =
  if dev_ok w (dev_log w) c
  then f tt (with_dev_log w (dev_log w ++ [c]))
  else (Raise VisaIOError, with_dev_log w (dev_log w ++ [c])).
Proof.
  unfold device_call. rewrite run_bind.
  by destruct (dev_ok w (dev_log w) c).
Qed.

Lemma print_bind {B : Type} (line : string) (f : unit -> M B) (w : world) :
  (print line ≫= f) w = f tt (with_stdout w (stdout w ++ [line])).
Proof. reflexivity. Qed.

Lemma sent_reliable (w : world) (c : dev_call) (line : string) :
  reliable w -> reliable (sent w c line).
Proof. intros Hw log c'. apply Hw. Qed.

End Running.

(** ** The remote command parser *)

Section Dispatch.
Import Text.

Variable self : WaveformGUI.

Lemma fetch_command (w : world) (command : string) (k : list string -> M unit) :
  redis w !! redis_key self = Some command ->
  (command ← get_command_from_redis (redis_key self);
   parts ← match command with
           | Some c => mret (Text.split c)
           | None => raise AttributeError
           end;
   k parts) w = k (Text.split command) w.
Proof.
  intros H. unfold get_command_from_redis, redis_get.
  rewrite run_bind. simpl. rewrite H. reflexivity.
Qed.

Lemma split_go_cons_token (word tok : string) (rest : list ascii) :
  is_token word = true -> is_token tok = true ->
  split_go [] (chars (word +:+ " ") ++ chars tok ++ rest)
  = word :: split_go [] (chars tok ++ rest).
Proof.
  intros Hword Htok. rewrite chars_app, <- app_assoc.
  change (chars " " ++ chars tok ++ rest)
    with (" "%char :: (chars tok ++ rest)).
  by rewrite split_go_token_space.
Qed.

Lemma split_upload (tok csv_filename : string) :
  is_token tok = true -> is_token csv_filename = true ->
  split ("upload " +:+ tok +:+ " " +:+ csv_filename)
  = ["upload"; tok; csv_filename].
Proof.
  intros Htok Hcsv. unfold split. rewrite !chars_app.
  rewrite (split_go_cons_token "upload") by done.
  change (chars " " ++ chars csv_filename)
    with (" "%char :: chars csv_filename).
  rewrite split_go_token_space by done.
  by rewrite split_go_token_end.
Qed.

Lemma split_set (tok : string) :
  is_token tok = true ->
  split ("set " +:+ tok +:+ " X 1000 2.5") = ["set"; tok; "X"; "1000"; "2.5"].
Proof.
  intros Htok. unfold split. rewrite !chars_app.
  rewrite (split_go_cons_token "set") by done.
  change (chars " X 1000 2.5") with (" "%char :: chars "X 1000 2.5").
  rewrite split_go_token_space by done.
  reflexivity.
Qed.

End Dispatch.

Section DispatchTheorems.
Import Text.

Lemma float_1000 : Float.float "1000" = Some (Ffin false 8796093022208000 (-43)).
Proof. vm_compute. reflexivity. Qed.

Lemma float_2_5 : Float.float "2.5" = Some (Ffin false 5629499534213120 (-51)).
Proof. vm_compute. reflexivity. Qed.

Lemma repr_1000 : Repr.repr (Ffin false 8796093022208000 (-43)) = "1000.0".
Proof. vm_compute. reflexivity. Qed.

Lemma repr_2_5 : Repr.repr (Ffin false 5629499534213120 (-51)) = "2.5".
Proof. vm_compute. reflexivity. Qed.

(** C9: the command [stop] issues one device command, the output-disable
    of the configured channel, and nothing else; it raises only if the bus
    refuses that command. *)
Theorem stop_issues_one_output_off (self : WaveformGUI) (w : world) :
  redis w !! redis_key self = Some "stop" ->
  let c := DevWrite ("C" +:+ pretty (channel self) +:+ ":OUTP OFF") in
  exists r w',
    execute_redis_command self w = (r, w') /\
    dev_log w' = dev_log w ++ [c] /\
    fs w' = fs w /\
    r = if dev_ok w (dev_log w) c then Ok tt else Raise VisaIOError.
Proof.
  intros Hcmd c. unfold execute_redis_command.
  rewrite (fetch_command self w "stop") by done.
  change (split "stop") with ["stop"].
  unfold getitem. rewrite run_bind. simpl.
  unfold stop_waveform. rewrite send_command_run. simpl.
  eexists _, _. split; [reflexivity|]. simpl. done.
Qed.

Lemma append_cancel (a x y : string) : a +:+ x = a +:+ y -> x = y.
Proof. induction a as [|c a IH]; simpl; [done|]. intros [= H]. auto. Qed.

(** C3, as amended: with a word in the unused second position, the command
    [set <word> X 1000 2.5] issues on the configured channel the waveform
    type [X], the frequency [1000.0], the amplitude [2.5] and the
    output-enable, in this order, and nothing else: no phase and no offset
    command. *)
Theorem set_issues_type_frequency_amplitude_on
    (self : WaveformGUI) (w : world) (tok : string) :
  is_token tok = true ->
  reliable w ->
  redis w !! redis_key self = Some ("set " +:+ tok +:+ " X 1000 2.5") ->
  let ch := pretty (channel self) in
  let cmds :=
    [ DevWrite ("C" +:+ ch +:+ ":BSWV WVTP,X");
      DevWrite ("C" +:+ ch +:+ ":BSWV FRQ,1000.0");
      DevWrite ("C" +:+ ch +:+ ":BSWV AMP,2.5");
      DevWrite ("C" +:+ ch +:+ ":OUTP ON") ] in
  exists w',
    execute_redis_command self w = (Ok tt, w') /\
    dev_log w' = dev_log w ++ cmds /\
    Forall (fun c => forall v,
              c <> DevWrite ("C" +:+ ch +:+ ":BSWV PHSE," +:+ v) /\
              c <> DevWrite ("C" +:+ ch +:+ ":BSWV OFST," +:+ v)) cmds /\
    fs w' = fs w.
Proof.
  intros Htok Hw Hcmd ch cmds. unfold execute_redis_command.
  rewrite (fetch_command self w _ _ Hcmd).
  rewrite split_set by done.
  unfold getitem. rewrite run_bind. simpl.
  unfold set_waveform_type, set_frequency, set_amplitude, start_waveform.
  rewrite ret_bind, send_bind_reliable by done.
  rewrite ret_bind, (float_bind _ _ _ _ float_1000).
  rewrite send_bind_reliable by by apply sent_reliable.
  rewrite ret_bind, (float_bind _ _ _ _ float_2_5).
  rewrite send_bind_reliable by by do 2 apply sent_reliable.
  rewrite send_command_reliable by by do 3 apply sent_reliable.
  eexists. split; [reflexivity|].
  cbn [sent dev_log fs py_str].
  rewrite repr_1000, repr_2_5, <- !app_assoc.
  split; [done|]. split; [|done].
  repeat constructor;
    intros [= H%append_cancel%append_cancel]; discriminate H.
Qed.

(** C4: the command [upload <word> <csv_path>] first checks that the path
    names a file; when it does not, a diagnostic is printed, nothing is
    raised and no device command is issued; when it does, the composite
    operation is called on two arguments only, the configured channel and
    the path, although its signature has four more required parameters
    (so that the call raises before the body runs). *)
Theorem upload_command_passes_channel_and_path_only
    (self : WaveformGUI) (w : world) (tok csv_filename : string) :
  is_token tok = true ->
  is_token csv_filename = true ->
  redis w !! redis_key self
    = Some ("upload " +:+ tok +:+ " " +:+ csv_filename) ->
  (fs w !! csv_filename = None ->
     execute_redis_command self w
     = (Ok tt, with_stdout w
                 (stdout w ++ ["No such file: '" +:+ csv_filename +:+ "'"])))
  /\
  (is_Some (fs w !! csv_filename) ->
     execute_redis_command self w
     = call_upload_and_generate_waveform
         [VInt (channel self); VStr csv_filename] w
     /\ length upload_and_generate_waveform_params = 6%nat
     /\ call_upload_and_generate_waveform
          [VInt (channel self); VStr csv_filename] w
        = (Raise (TypeError "missing required positional arguments: frequency, amplitude, phase, offset"),
           w)).
Proof.
  intros Htok Hcsv Hcmd.
  assert (Hrun : execute_redis_command self w =
    (present ← isfile csv_filename;
     if negb present
     then print ("No such file: '" +:+ csv_filename +:+ "'")
     else call_upload_and_generate_waveform
            [VInt (channel self); VStr csv_filename]) w).
  { unfold execute_redis_command.
    rewrite (fetch_command self w _ _ Hcmd), split_upload by done.
    reflexivity. }
  rewrite Hrun. unfold isfile. rewrite run_bind. split.
  - intros Hnone. rewrite bool_decide_eq_false_2; [done|].
    rewrite Hnone. by intros [? ?].
  - intros Hsome. by rewrite bool_decide_eq_true_2.
Qed.

(** The form's button, for comparison, passes all six arguments. *)
Lemma upload_and_generate_passes_six_arguments (self : WaveformGUI) (w : world) :
  upload_and_generate self w
  = upload_and_generate_waveform (VInt (channel self)) (file_path self)
      (VFloat (frequency self)) (VFloat (amplitude self))
      (VFloat (phase self)) (VFloat (offset self)) w.
Proof. reflexivity. Qed.

(** C3, as stated, fails: in [set X 1000 2.5] the word [X] takes the unused
    position, [1000] is sent as the waveform type and [2.5] as the
    frequency, then [parts[4]] raises IndexError: no amplitude and no
    output-enable command is issued. *)
Lemma set_X_1000_2_5_raises_IndexError :
  exists w',
    execute_redis_command demo_gui (demo_world "set X 1000 2.5")
    = (Raise IndexError, w') /\
    dev_log w' = [DevWrite "C1:BSWV WVTP,1000"; DevWrite "C1:BSWV FRQ,2.5"] /\
    dev_log w' <> [DevWrite "C1:BSWV WVTP,X"; DevWrite "C1:BSWV FRQ,1000.0";
                   DevWrite "C1:BSWV AMP,2.5"; DevWrite "C1:OUTP ON"].
Proof. eexists. split; [vm_compute; reflexivity|]. by split. Qed.

End DispatchTheorems.

(** ** The transcoder *)

Section Chunks.
Context {A B : Type}.

(** In a concatenation of chunks of one size, chunk [k] starts at
    [n * k]. *)
Lemma chunk_of_concat (f : A -> list B) (n : nat) (l : list A) (k : nat) (x : A) :
  (forall a, length (f a) = n) ->
  l !! k = Some x ->
  take n (drop (n * k) (concat (map f l))) = f x.
Proof.
  intros Hn. revert k. induction l as [|a l IH]; intros k Hk; [done|].
  destruct k as [|k]; simpl in *.
  - injection Hk as ->. rewrite Nat.mul_0_r, drop_0.
    by rewrite take_app_length'.
  - replace (n * S k)%nat with (length (f a) + n * k)%nat
      by (rewrite Hn; lia).
    rewrite drop_app_add'; [|done]. by apply IH.
Qed.

Lemma length_concat_chunks (f : A -> list B) (n : nat) (l : list A) :
  (forall a, length (f a) = n) ->
  length (concat (map f l)) = (n * length l)%nat.
Proof.
  intros Hn. induction l as [|a l IH]; simpl; [lia|].
  rewrite length_app, Hn, IH. lia.
Qed.

(** In a concatenation of rows of [m] entries, entry [j] of row [i] is at
    [i * m + j]. *)
Lemma lookup_concat_rows (m : nat) (ll : list (list A)) (i j : nat)
    (l : list A) (x : A) :
  Forall (fun r => length r = m) ll ->
  ll !! i = Some l -> l !! j = Some x ->
  concat ll !! (i * m + j)%nat = Some x.
Proof.
  intros Hm. revert i. induction Hm as [|r ll Hr Hm IH]; intros i Hi Hj; [done|].
  destruct i as [|i]; simpl in *.
  - injection Hi as ->. by rewrite lookup_app_l by by eapply lookup_lt_Some.
  - rewrite lookup_app_r by lia.
    replace (m + i * m + j - length r)%nat with (i * m + j)%nat by lia.
    by apply IH.
Qed.

Lemma length_concat_rows (m : nat) (ll : list (list A)) :
  Forall (fun r => length r = m) ll ->
  length (concat ll) = (length ll * m)%nat.
Proof.
  induction 1 as [|r ll Hr Hm IH]; simpl; [done|].
  rewrite length_app, IH. lia.
Qed.

End Chunks.

Section Transcoder.

Lemma length_pack_f (x : pyfloat) : length (pack_f x) = 4%nat.
Proof. reflexivity. Qed.

Lemma struct_pack_rows (valss : list (list pyfloat)) :
  concat (map struct_pack valss) = concat (map pack_f (concat valss)).
Proof.
  induction valss as [|vals valss IH]; simpl; [done|].
  by rewrite map_app, concat_app, IH.
Qed.

Lemma mapM_float_ok (row : list string) (vals : list pyfloat) (w : world) :
  numeric_row row = Some vals -> mapM float row w = (Ok vals, w).
Proof.
  unfold numeric_row. revert vals.
  induction row as [|s row IH]; intros vals H; simpl in *.
  - by injection H as <-.
  - destruct (Float.float s) as [x|] eqn:Hs; [|done]. simpl in H.
    destruct (mapM Float.float row) as [k|] eqn:Hk; [|done].
    injection H as <-.
    rewrite (float_bind _ _ _ _ Hs), run_bind, (IH k) by done. done.
Qed.

Lemma mapM_float_raise (row : list string) (w : world) :
  Exists (fun s => Float.float s = None) row ->
  exists s, s ∈ row /\ Float.float s = None /\
    mapM float row w = (Raise (ValueError s), w).
Proof.
  induction 1 as [s row Hs|s row Hex IH].
  - exists s. split; [by left|]. split; [done|].
    simpl. by rewrite float_bind_raise.
  - destruct (Float.float s) as [x|] eqn:Hs.
    + destruct IH as (s' & Hin & Hnone & Hrun).
      exists s'. split; [by right|]. split; [done|].
      simpl. by rewrite (float_bind _ _ _ _ Hs), run_bind, Hrun.
    + exists s. split; [by left|]. split; [done|].
      simpl. by rewrite float_bind_raise.
Qed.

(** The loop over numeric rows appends their bytes and goes on with the
    rest of the reader. *)
Lemma write_rows_numeric (bin_filename : string) (rows : list (list string))
    (valss : list (list pyfloat)) (rest : records) (w : world)
    (acc : list byte) :
  Forall2 (fun row vals => numeric_row row = Some vals) rows valss ->
  fs w !! bin_filename = Some acc ->
  write_rows bin_filename (rows_then rows rest) w
  = write_rows bin_filename rest
      (with_fs w (<[bin_filename := acc ++ concat (map struct_pack valss)]> (fs w))).
Proof.
  intros Hrows. revert w acc.
  induction Hrows as [|row vals rows valss Hrow Hrows IH]; intros w acc Hacc.
  - simpl. rewrite app_nil_r, insert_id by done. by destruct w.
  - simpl rows_then. simpl write_rows.
    rewrite (run_bind_ok _ _ _ _ _ (mapM_float_ok _ _ _ Hrow)).
    unfold file_write at 1. rewrite run_bind. simpl.
    rewrite Hacc. simpl.
    rewrite (IH _ (acc ++ struct_pack vals)); [|by simpl; rewrite lookup_insert_eq].
    simpl. unfold with_fs. simpl.
    by rewrite insert_insert_eq, <- app_assoc.
Qed.

(** Up to the first data row: the output file is opened, and emptied,
    before the reader looks at the input. *)
Lemma convert_reads_after_truncating (csv_filename bin_filename : string)
    (w : world) (data : list byte) :
  is_Some (fs w !! csv_filename) ->
  <[bin_filename := []]> (fs w) !! csv_filename = Some data ->
  convert_csv_to_binary csv_filename bin_filename w
  = ((match Csv.reader data with
      | RStop => raise StopIteration
      | RRaise e => raise e
      | RRow _ rest => write_rows bin_filename rest
      end ;;
      print ("Converted " +:+ csv_filename +:+ " to " +:+ bin_filename))
       (with_fs w (<[bin_filename := []]> (fs w)))).
Proof.
  intros Hfile Hdata. unfold convert_csv_to_binary.
  rewrite isfile_bind, bool_decide_eq_true_2 by done.
  cbn [negb].
  by rewrite open_wb_bind, (csv_reader_bind _ data).
Qed.

(** C7: on a path that names no file, the transcoder raises
    FileNotFoundError before it opens anything: no file is created or
    changed, and nothing else happens. *)
Theorem convert_missing_input_raises_FileNotFoundError
    (csv_filename bin_filename : string) (w : world) :
  fs w !! csv_filename = None ->
  convert_csv_to_binary csv_filename bin_filename w
  = (Raise (FileNotFoundError ("No such file: '" +:+ csv_filename +:+ "'")),
     w).
Proof.
  intros Hnone. unfold convert_csv_to_binary.
  rewrite isfile_bind, bool_decide_eq_false_2; [done|].
  rewrite Hnone. by intros [? ?].
Qed.

(** C10: on an input file with no bytes at all, the transcoder raises
    StopIteration when it skips the header, and the output file has been
    created, or emptied, by then. *)
Theorem convert_empty_input_raises_StopIteration
    (csv_filename bin_filename : string) (w : world) :
  fs w !! csv_filename = Some [] ->
  convert_csv_to_binary csv_filename bin_filename w
  = (Raise StopIteration, with_fs w (<[bin_filename := []]> (fs w))).
Proof.
  intros Hempty.
  rewrite (convert_reads_after_truncating _ _ _ []).
  - reflexivity.
  - by rewrite Hempty.
  - destruct (decide (bin_filename = csv_filename)) as [->|Hne].
    + by rewrite lookup_insert_eq.
    + by rewrite lookup_insert_ne.
Qed.

(** C6, as amended: at the first data row with a non-numeric field, the
    transcoder, writing to a path other than the input's, raises the
    conversion error (ValueError, on a non-numeric field of that row) and
    leaves an output file that holds the bytes of the rows before it, and
    no more. *)
Theorem convert_partial_write_on_bad_row
    (csv_filename bin_filename : string) (w : world) (data : list byte)
    (header : list string) (pre : list (list string)) (bad : list string)
    (rest : records) (valss : list (list pyfloat)) :
  csv_filename <> bin_filename ->
  fs w !! csv_filename = Some data ->
  Csv.reader data = RRow header (rows_then pre (RRow bad rest)) ->
  Forall2 (fun row vals => numeric_row row = Some vals) pre valss ->
  Exists (fun field => Float.float field = None) bad ->
  exists field w',
    convert_csv_to_binary csv_filename bin_filename w
    = (Raise (ValueError field), w') /\
    field ∈ bad /\ Float.float field = None /\
    fs w' = <[bin_filename := concat (map struct_pack valss)]> (fs w) /\
    dev_log w' = dev_log w.
Proof.
  intros Hne Hdata Hreader Hpre Hbad.
  rewrite (convert_reads_after_truncating _ _ _ data);
    [|by rewrite Hdata|by rewrite lookup_insert_ne].
  rewrite Hreader, run_bind.
  rewrite (write_rows_numeric _ _ _ _ _ [] Hpre);
    [|by simpl; rewrite lookup_insert_eq].
  simpl write_rows.
  destruct (mapM_float_raise bad
    (with_fs (with_fs w (<[bin_filename:=[]]> (fs w)))
       (<[bin_filename:=[] ++ concat (map struct_pack valss)]>
          (fs (with_fs w (<[bin_filename:=[]]> (fs w)))))) Hbad)
    as (field & Hin & Hnone & Hrun).
  rewrite (run_bind_raise _ _ _ _ _ Hrun).
  exists field. eexists. split; [reflexivity|].
  split; [done|]. split; [done|]. simpl.
  by rewrite insert_insert_eq.
Qed.

(** C1, as amended: for a CSV file that the reader splits into a header
    row and [N] data rows of [M] numeric fields each, and an output path
    other than the path of that file, the transcoder writes an output
    file of [4 * N * M] bytes in which the four bytes at position
    [4 * (i * M + j)] are field [j] of data row [i] packed as ['f']: read
    back as a little-endian IEEE-754 binary32 they give the float value of
    the field rounded to single precision.  The values are in row-major
    order. *)
Theorem convert_writes_float32_row_major
    (csv_filename bin_filename : string) (w : world) (data : list byte)
    (header : list string) (rows : list (list string)) (N M : nat) :
  csv_filename <> bin_filename ->
  fs w !! csv_filename = Some data ->
  Csv.reader data = RRow header (rows_then rows RStop) ->
  length rows = N ->
  Forall (fun row => length row = M /\ is_Some (numeric_row row)) rows ->
  exists w' bytes,
    convert_csv_to_binary csv_filename bin_filename w = (Ok tt, w') /\
    fs w' = <[bin_filename := bytes]> (fs w) /\
    dev_log w' = dev_log w /\
    length bytes = (4 * N * M)%nat /\
    forall i j row field,
      rows !! i = Some row -> row !! j = Some field ->
      exists x,
        Float.float field = Some x /\
        take 4 (drop (4 * (i * M + j)) bytes) = pack_f x /\
        unpack_f (take 4 (drop (4 * (i * M + j)) bytes))
        = Some (Float.to_single x).
Proof.
  intros Hne Hdata Hreader HN Hrows.
  assert (exists valss,
    Forall2 (fun row vals => numeric_row row = Some vals) rows valss)
    as [valss Hvalss].
  { clear -Hrows. induction Hrows as [|row rows [_ [vals Hrow]] _ [valss IH]].
    - by exists [].
    - exists (vals :: valss). by constructor. }
  assert (Forall (fun vals => length vals = M) valss) as HM.
  { clear -Hrows Hvalss. induction Hvalss as [|row vals rows valss Hrow _ IH].
    - constructor.
    - apply Forall_cons in Hrows as [[Hlen _] Hrows].
      constructor; [|by apply IH].
      unfold numeric_row in Hrow. apply length_mapM in Hrow. congruence. }
  rewrite (convert_reads_after_truncating _ _ _ data);
    [|by rewrite Hdata|by rewrite lookup_insert_ne].
  rewrite Hreader, run_bind.
  rewrite (write_rows_numeric _ _ _ _ _ [] Hvalss);
    [|by simpl; rewrite lookup_insert_eq].
  simpl write_rows. simpl app.
  eexists _, (concat (map struct_pack valss)).
  split; [reflexivity|]. simpl.
  split; [by rewrite insert_insert_eq|]. split; [done|].
  rewrite struct_pack_rows. split.
  - rewrite (length_concat_chunks pack_f 4) by apply length_pack_f.
    rewrite (length_concat_rows M) by done.
    apply Forall2_length in Hvalss. lia.
  - intros i j row field Hi Hj.
    destruct (Forall2_lookup_l _ _ _ _ _ Hvalss Hi) as (vals & Hvals & Hrow).
    unfold numeric_row in Hrow. apply mapM_Some_1 in Hrow.
    destruct (Forall2_lookup_l _ _ _ _ _ Hrow Hj) as (x & Hx & Hfield).
    exists x. split; [done|].
    assert (take 4 (drop (4 * (i * M + j))
                      (concat (map pack_f (concat valss)))) = pack_f x)
      as Hchunk.
    { apply (chunk_of_concat pack_f 4); [apply length_pack_f|].
      by apply (lookup_concat_rows M _ _ _ vals). }
    split; [exact Hchunk|].
    rewrite <- (unpack_pack_f x). f_equal. exact Hchunk.
Qed.

End Transcoder.

(** ** The composite upload *)

Section Upload.

Lemma mapM_float_pure (row : list string) (w : world) :
  (mapM float row w).2 = w.
Proof.
  induction row as [|s row IH]; [reflexivity|]. simpl.
  destruct (Float.float s) as [x|] eqn:Hs.
  - rewrite (float_bind _ _ _ _ Hs), run_bind.
    by destruct (mapM float row w) as [[k|e] w1].
  - by rewrite float_bind_raise.
Qed.

(** The loop touches the output file only, and never removes it. *)
Lemma write_rows_frame (bin_filename : string) (reader : records) (w : world) :
  is_Some (fs w !! bin_filename) ->
  let w' := (write_rows bin_filename reader w).2 in
  is_Some (fs w' !! bin_filename) /\
  dev_log w' = dev_log w /\ dev_ok w' = dev_ok w.
Proof.
  revert w. induction reader as [|row rest IH|e]; intros w Hbin; simpl; [done| |done].
  rewrite run_bind.
  pose proof (mapM_float_pure row w) as Hpure.
  destruct (mapM float row w) as [[vals|e] w1]; simpl in Hpure; subst w1; [|done].
  unfold file_write at 1. rewrite run_bind.
  match goal with |- context [write_rows _ rest ?w1] =>
    destruct (IH w1) as (H1 & H2 & H3)
  end; [by simpl; rewrite lookup_insert_eq|].
  done.
Qed.

(** The transcoder sends nothing, and when it returns the output file is
    there. *)
Lemma convert_frame (csv_filename bin_filename : string) (w : world) :
  let out := convert_csv_to_binary csv_filename bin_filename w in
  dev_log out.2 = dev_log w /\ dev_ok out.2 = dev_ok w /\
  (out.1 = Ok tt -> is_Some (fs out.2 !! bin_filename)).
Proof.
  unfold convert_csv_to_binary. rewrite isfile_bind.
  destruct (bool_decide (is_Some (fs w !! csv_filename))); [|done].
  cbn [negb]. rewrite open_wb_bind.
  destruct (<[bin_filename:=[]]> (fs w) !! csv_filename) as [data|] eqn:Hdata.
  2:{ unfold csv_reader, file_read. rewrite !run_bind. cbn [fs with_fs].
      by rewrite Hdata. }
  rewrite (csv_reader_bind _ data) by done. rewrite run_bind.
  destruct (Csv.reader data) as [|header rest|e]; [done| |done].
  match goal with |- context [write_rows _ rest ?w1] =>
    destruct (write_rows_frame bin_filename rest w1) as (H1 & H2 & H3);
      [by simpl; rewrite lookup_insert_eq|];
    destruct (write_rows bin_filename rest w1) as [[[]|e] w2]
  end; simpl in *; done.
Qed.

Lemma all_accepted_issued (ok : list dev_call -> dev_call -> bool)
    (cs log : list dev_call) :
  all_accepted ok log cs = true -> take (issued ok log cs) cs = cs.
Proof.
  revert log. induction cs as [|c cs IH]; intros log H; simpl in *; [done|].
  apply andb_true_iff in H as [-> H]. simpl. by rewrite IH.
Qed.

Lemma first_refused (ok : list dev_call -> dev_call -> bool)
    (cs log : list dev_call) :
  all_accepted ok log cs = false ->
  exists k c,
    cs !! k = Some c /\ issued ok log cs = S k /\
    all_accepted ok log (take k cs) = true /\
    ok (log ++ take k cs) c = false.
Proof.
  revert log. induction cs as [|c cs IH]; intros log H; simpl in *; [done|].
  destruct (ok log c) eqn:Hc; simpl in H.
  - destruct (IH _ H) as (k & c' & Hk & Hissued & Hacc & Hrefused).
    rewrite <- app_assoc in Hrefused.
    exists (S k), c'. simpl. by rewrite Hc, Hissued.
  - exists 0%nat, c. by rewrite app_nil_r.
Qed.


Lemma all_accepted_app (ok : list dev_call -> dev_call -> bool)
    (cs1 cs2 log : list dev_call) :
  all_accepted ok log (cs1 ++ cs2)
  = all_accepted ok log cs1 && all_accepted ok (log ++ cs1) cs2.
Proof.
  revert log. induction cs1 as [|c cs1 IH]; intros log; simpl.
  - by rewrite app_nil_r.
  - by rewrite IH, <- app_assoc, andb_assoc.
Qed.

Lemma issued_app (ok : list dev_call -> dev_call -> bool)
    (cs1 cs2 log : list dev_call) :
  issued ok log (cs1 ++ cs2)
  = if all_accepted ok log cs1
    then (length cs1 + issued ok (log ++ cs1) cs2)%nat
    else issued ok log cs1.
Proof.
  revert log. induction cs1 as [|c cs1 IH]; intros log; simpl.
  - by rewrite app_nil_r.
  - destruct (ok log c); simpl; [|done].
    rewrite IH, <- app_assoc. simpl. by destruct (all_accepted _ _ cs1).
Qed.

Lemma issued_le (ok : list dev_call -> dev_call -> bool)
    (cs log : list dev_call) :
  (issued ok log cs <= length cs)%nat.
Proof.
  revert log. induction cs as [|c cs IH]; intros log; simpl; [lia|].
  destruct (ok log c); [|lia]. specialize (IH (log ++ [c])). lia.
Qed.

Lemma runs_print (line : string) : runs (print line) [].
Proof. intros w. eexists. split; [reflexivity|]. simpl. by rewrite app_nil_r. Qed.

Lemma runs_device_call (c : dev_call) : runs (device_call c) [c].
Proof.
  intros w. unfold device_call. simpl.
  destruct (dev_ok w (dev_log w) c); eexists; (split; [reflexivity|done]).
Qed.

Lemma runs_seq (m k : M unit) (cs1 cs2 : list dev_call) :
  runs m cs1 -> runs k cs2 -> runs (m ;; k) (cs1 ++ cs2).
Proof.
  intros Hm Hk w. destruct (Hm w) as (w1 & Hrun1 & Hlog1 & Hfs1 & Hok1).
  rewrite run_bind, Hrun1, all_accepted_app, issued_app.
  destruct (all_accepted (dev_ok w) (dev_log w) cs1) eqn:Hacc; simpl.
  - rewrite all_accepted_issued in Hlog1 by done.
    destruct (Hk w1) as (w2 & Hrun2 & Hlog2 & Hfs2 & Hok2).
    rewrite Hok1, Hlog1 in Hrun2, Hlog2.
    exists w2. rewrite Hrun2, Hlog2, take_app_add, app_assoc.
    split; [done|]. split; [done|]. split; congruence.
  - exists w1. split; [done|].
    rewrite take_app_le by apply issued_le. done.
Qed.

Lemma runs_send_command (command : string) :
  runs (send_command command) [DevWrite command].
Proof. apply (runs_seq _ _ [] [_]); [apply runs_print|apply runs_device_call]. Qed.


Lemma bind_assoc {A B C : Type} (m : M A) (f : A -> M B) (g : B -> M C)
    (w : world) :
  ((m ≫= f) ≫= g) w = (m ≫= fun a => f a ≫= g) w.
Proof. rewrite !run_bind. by destruct (m w) as [[a|e] w1]. Qed.

Lemma upload_device_phase (channel : pyval) (csv_filename : string)
    (frequency amplitude phase offset : pyval) (w w1 : world)
    (data : list byte) :
  let bin_filename := (Path.splitext csv_filename).1 +:+ ".bin" in
  let steps :=
    upload_steps channel csv_filename data frequency amplitude phase offset in
  convert_csv_to_binary csv_filename bin_filename w = (Ok tt, w1) ->
  fs w1 !! bin_filename = Some data ->
  exists w',
    upload_and_generate_waveform channel csv_filename
      frequency amplitude phase offset w
    = (if all_accepted (dev_ok w1) (dev_log w1) steps
       then Ok tt else Raise VisaIOError, w') /\
    dev_log w' = dev_log w1 ++ take (issued (dev_ok w1) (dev_log w1) steps) steps /\
    fs w' = fs w1.
Proof.
  intros bin_filename steps Hconv Hdata.
  unfold upload_and_generate_waveform. fold bin_filename.
  rewrite (run_bind_ok _ _ _ _ _ Hconv).
  unfold save_binary_waveform_to_device.
  rewrite bind_assoc, (file_read_bind _ data) by done.
  match goal with |- context [?m w1] =>
    assert (runs m steps) as Hruns
  end.
  { unfold steps, upload_steps. fold bin_filename.
    unfold set_arbitrary_waveform_by_name, set_frequency, set_amplitude,
      set_phase, set_offset, start_waveform.
    apply (runs_seq _ _ [_] [_; _; _; _; _; _]).
    { apply (runs_seq _ _ [_] []); [apply runs_device_call|apply runs_print]. }
    repeat (apply (runs_seq _ _ [_] _); [apply runs_send_command|]).
    apply runs_print. }
  destruct (Hruns w1) as (w' & Hrun & Hlog & Hfs & _).
  exists w'. by rewrite Hrun.
Qed.

End Upload.

Section UploadClaims.

Variables (channel : pyval) (csv_filename : string).
Variables (frequency amplitude phase offset : pyval).

Let bin_filename : string := (Path.splitext csv_filename).1 +:+ ".bin".

Let steps (data : list byte) : list dev_call :=
  upload_steps channel csv_filename data frequency amplitude phase offset.

(** What one call of the composite operation does, by the outcome of its
    first step. *)
Lemma upload_outcome (w : world) :
  match convert_csv_to_binary csv_filename bin_filename w with
  | (Raise e, w1) =>
      upload_and_generate_waveform channel csv_filename
        frequency amplitude phase offset w = (Raise e, w1)
      /\ dev_log w1 = dev_log w
  | (Ok _, w1) =>
      exists data w',
        fs w1 !! bin_filename = Some data /\
        upload_and_generate_waveform channel csv_filename
          frequency amplitude phase offset w
        = (if all_accepted (dev_ok w) (dev_log w) (steps data)
           then Ok tt else Raise VisaIOError, w') /\
        dev_log w' = dev_log w
          ++ take (issued (dev_ok w) (dev_log w) (steps data)) (steps data) /\
        fs w' = fs w1
  end.
Proof.
  pose proof (convert_frame csv_filename bin_filename w) as (Hlog & Hok & Hfile).
  destruct (convert_csv_to_binary csv_filename bin_filename w)
    as [[[]|e] w1] eqn:Hconv; simpl in *.
  - destruct Hfile as [data Hdata]; [done|].
    destruct (upload_device_phase channel csv_filename frequency amplitude
                phase offset w w1 data Hconv Hdata) as (w' & Hrun & Hlog' & Hfs).
    rewrite Hok, Hlog in Hrun, Hlog'. by exists data, w'.
  - split; [|done]. unfold upload_and_generate_waveform.
    fold bin_filename. by rewrite (run_bind_raise _ _ _ _ _ Hconv).
Qed.

(** C2: a call that returns has issued the seven device calls in the
    order binary upload, select by name, frequency, amplitude, phase,
    offset, output enable.  A call that raises has either failed in the
    transcoding, with nothing sent, or at the first device call the bus
    refused: the calls before it were issued in that order, none after it,
    and the output file and the device log keep what the earlier steps
    did. *)
Theorem upload_issues_steps_in_order_and_fails_fast
    (w w' : world) (r : result unit) :
  upload_and_generate_waveform channel csv_filename
    frequency amplitude phase offset w = (r, w') ->
  (r = Ok tt ->
     exists data,
       fs w' !! bin_filename = Some data /\
       dev_log w' = dev_log w ++
         upload_steps channel csv_filename data
           frequency amplitude phase offset) /\
  (forall e, r = Raise e ->
     (convert_csv_to_binary csv_filename bin_filename w = (Raise e, w')
      /\ dev_log w' = dev_log w)
     \/
     (exists w1 data k c,
        convert_csv_to_binary csv_filename bin_filename w = (Ok tt, w1) /\
        fs w1 !! bin_filename = Some data /\
        e = VisaIOError /\
        steps data !! k = Some c /\
        dev_log w' = dev_log w ++ take (S k) (steps data) /\
        all_accepted (dev_ok w) (dev_log w) (take k (steps data)) = true /\
        dev_ok w (dev_log w ++ take k (steps data)) c = false /\
        fs w' = fs w1)).
Proof.
  intros Hrun. pose proof (upload_outcome w) as Hout.
  destruct (convert_csv_to_binary csv_filename bin_filename w)
    as [[[]|e1] w1] eqn:Hconv.
  - destruct Hout as (data & w2 & Hdata & Hrun' & Hlog & Hfs).
    rewrite Hrun in Hrun'.
    destruct (all_accepted (dev_ok w) (dev_log w) (steps data)) eqn:Hacc;
      injection Hrun' as -> ->.
    + split; [|done]. intros _. exists data.
      rewrite all_accepted_issued in Hlog by done.
      split; [by rewrite Hfs|done].
    + split; [done|]. intros e [= <-]. right.
      destruct (first_refused _ _ _ Hacc) as (k & c & Hk & Hissued & Hpre & Hc).
      exists w1, data, k, c. by rewrite Hissued in Hlog.
  - destruct Hout as [Hrun' Hlog]. rewrite Hrun in Hrun'.
    injection Hrun' as -> ->. split; [done|].
    intros e [= <-]. by left.
Qed.

(** C5: whatever channel is asked for, the binary upload goes out under
    the prefix of channel 1, and every call after it (select by name,
    the four parameters, output enable) under the prefix of the requested
    channel. *)
Theorem upload_addresses_channel_1_then_requested
    (w w' : world) (r : result unit) :
  upload_and_generate_waveform channel csv_filename
    frequency amplitude phase offset w = (r, w') ->
  exists calls data,
    dev_log w' = dev_log w ++ calls /\
    calls `prefix_of` steps data /\
    (r = Ok tt -> length calls = 7%nat) /\
    forall i c, calls !! i = Some c ->
      match i with
      | O => exists name,
          c = DevWriteBinaryValues
                ("C1:WVDT WVNM," +:+ name +:+ ",WAVEDATA,") data
      | S _ => exists tail,
          c = DevWrite ("C" +:+ py_str channel +:+ tail)
      end.
Proof.
  intros Hrun. pose proof (upload_outcome w) as Hout.
  destruct (convert_csv_to_binary csv_filename bin_filename w)
    as [[[]|e1] w1] eqn:Hconv.
  - destruct Hout as (data & w2 & Hdata & Hrun' & Hlog & Hfs).
    rewrite Hrun in Hrun'.
    exists (take (issued (dev_ok w) (dev_log w) (steps data)) (steps data)), data.
    split; [by injection Hrun' as _ ->|].
    split; [apply prefix_take|]. split.
    + intros ->.
      destruct (all_accepted (dev_ok w) (dev_log w) (steps data)) eqn:Hacc;
        [|done].
      by rewrite all_accepted_issued.
    + intros i c [Hc _]%lookup_take_Some.
      unfold steps, upload_steps in Hc.
      do 7 (destruct i as [|i]; [injection Hc as <-; eauto|]).
      done.
  - destruct Hout as [Hrun' Hlog]. rewrite Hrun in Hrun'.
    injection Hrun' as -> ->. exists [], []. rewrite app_nil_r.
    split; [done|]. split; [apply prefix_nil|]. by split.
Qed.

End UploadClaims.

(** ** Waveform names *)

Section PathFacts.
Import Text Path.

Lemma length_str (l : list ascii) : String.length (str l) = length l.
Proof. induction l as [|c l IH]; simpl; [done|]. by rewrite IH. Qed.

Lemma str_app (a b : list ascii) : str (a ++ b) = str a +:+ str b.
Proof. induction a as [|c a IH]; simpl; [done|]. by rewrite IH. Qed.

(** [rfind] ignores a tail without the character ... *)
Lemma rfind_go_absent (c : ascii) (t : list ascii) (i last : Z) :
  c ∉ t -> rfind_go c t i last = last.
Proof.
  revert i last. induction t as [|x t IH]; intros i last Ht; simpl; [done|].
  apply not_elem_of_cons in Ht as [Hx Ht].
  rewrite IH by done. destruct (Ascii.eqb_spec x c); congruence.
Qed.

Lemma rfind_go_app_absent (c : ascii) (m t : list ascii) (i last : Z) :
  c ∉ t -> rfind_go c (m ++ t) i last = rfind_go c m i last.
Proof.
  revert i last. induction m as [|x m IH]; intros i last Ht; simpl.
  - by apply rfind_go_absent.
  - by apply IH.
Qed.

(** ... and finds the occurrence after which there is no other. *)
Lemma rfind_go_last (c : ascii) (m t : list ascii) (i last : Z) :
  c ∉ t -> rfind_go c (m ++ c :: t) i last = i + Z.of_nat (length m).
Proof.
  revert i last. induction m as [|x m IH]; intros i last Ht; simpl.
  - rewrite Ascii.eqb_refl, rfind_go_absent by done. lia.
  - rewrite IH by done. lia.
Qed.

Lemma rfind_go_bounds (c : ascii) (l : list ascii) (i last : Z) :
  last < i -> last <= rfind_go c l i last < i + Z.of_nat (length l).
Proof.
  revert i last. induction l as [|x l IH]; intros i last Hlast; simpl; [lia|].
  destruct (Ascii.eqb x c).
  - specialize (IH (i + 1) i). lia.
  - specialize (IH (i + 1) last). lia.
Qed.

(** A list splits at its last occurrence of [c], if it has one. *)
Lemma split_at_last (c : ascii) (l : list ascii) :
  c ∉ l \/ exists m t, l = m ++ c :: t /\ c ∉ t.
Proof.
  induction l as [|x l [IH|(m & t & -> & Ht)]].
  - left. apply not_elem_of_nil.
  - destruct (decide (x = c)) as [->|Hx].
    + right. by exists [], l.
    + left. by apply not_elem_of_cons.
  - right. by exists (x :: m), t.
Qed.

Lemma sep_index (dir b : list ascii) :
  dir_prefix dir -> "/"%char ∉ b ->
  rfind (str (dir ++ b)) "/" + 1 = Z.of_nat (length dir).
Proof.
  intros [->|[d ->]] Hb; unfold rfind; rewrite chars_str.
  - simpl. by rewrite rfind_go_absent.
  - rewrite <- app_assoc. simpl. rewrite rfind_go_last by done.
    rewrite length_app. simpl. lia.
Qed.

Lemma path_split (p : string) :
  exists dir b, p = str (dir ++ b) /\ dir_prefix dir /\ "/"%char ∉ b.
Proof.
  destruct (split_at_last "/" (chars p)) as [Hno|(m & t & Hp & Ht)].
  - exists [], (chars p). simpl. rewrite str_chars. split; [done|].
    split; [by left|done].
  - exists (m ++ ["/"%char]), t. rewrite <- app_assoc. simpl.
    rewrite <- Hp, str_chars. split; [done|]. split; [right; by exists m|done].
Qed.

Lemma from_app (a b : list ascii) :
  from (str (a ++ b)) (Z.of_nat (length a)) = str b.
Proof.
  unfold from. by rewrite chars_str, Nat2Z.id, drop_app_length.
Qed.

Lemma upto_app (a b : list ascii) :
  upto (str (a ++ b)) (Z.of_nat (length a)) = str a.
Proof.
  unfold upto. by rewrite chars_str, Nat2Z.id, take_app_length.
Qed.

Lemma basename_app (dir b : list ascii) :
  dir_prefix dir -> "/"%char ∉ b -> basename (str (dir ++ b)) = str b.
Proof.
  intros Hdir Hb. unfold basename. rewrite sep_index by done.
  apply from_app.
Qed.

Lemma skip_leading_dots_spec (fuel : nat) (a m t : list ascii) :
  (length m <= fuel)%nat ->
  skip_leading_dots fuel (str (a ++ m ++ t))
    (Z.of_nat (length a)) (Z.of_nat (length a + length m))
  = negb (all_dots m).
Proof.
  revert fuel a. induction m as [|x m IH]; intros fuel a Hfuel.
  - destruct fuel; simpl; [done|].
    rewrite Nat.add_0_r. by rewrite Z.ltb_irrefl.
  - destruct fuel as [|fuel]; simpl in *; [lia|].
    destruct (Z.ltb_spec (Z.of_nat (length a))
                (Z.of_nat (length a + S (length m)))); [|lia].
    unfold char_at. rewrite chars_str, Nat2Z.id.
    rewrite lookup_app_r, Nat.sub_diag by done. simpl.
    destruct (Ascii.eqb x "."); simpl; [|done].
    specialize (IH fuel (a ++ [x])).
    rewrite length_app, <- app_assoc in IH. simpl in IH.
    replace (Z.of_nat (length a) + 1) with (Z.of_nat (length a + 1)) by lia.
    replace (length a + S (length m))%nat
      with (length a + 1 + length m)%nat by lia.
    apply IH. lia.
Qed.

(** [splitext] on a path whose file name [m ++ "." ++ t] has its last dot
    after [m]. *)
Lemma splitext_at_last_dot (dir m t : list ascii) :
  dir_prefix dir -> "/"%char ∉ m -> "/"%char ∉ t -> "."%char ∉ t ->
  splitext (str (dir ++ m ++ "."%char :: t))
  = if all_dots m
    then (str (dir ++ m ++ "."%char :: t), "")
    else (str (dir ++ m), str ("."%char :: t)).
Proof.
  intros Hdir Hm Ht Hdot. unfold splitext.
  assert ("/"%char ∉ m ++ "."%char :: t) as Hb.
  { rewrite elem_of_app, elem_of_cons. intros [?|[?|?]]; done. }
  pose proof (sep_index dir _ Hdir Hb) as Hsep.
  assert (rfind (str (dir ++ m ++ "."%char :: t)) "."
          = Z.of_nat (length dir + length m)) as Hdi.
  { unfold rfind. rewrite chars_str, app_assoc, rfind_go_last by done.
    rewrite length_app. lia. }
  rewrite Hdi.
  replace (rfind (str (dir ++ m ++ "."%char :: t)) "/")
    with (Z.of_nat (length dir) - 1) by lia.
  replace (Z.of_nat (length dir) - 1 + 1) with (Z.of_nat (length dir)) by lia.
  rewrite skip_leading_dots_spec.
  2:{ rewrite length_str, !length_app. lia. }
  replace (Z.of_nat (length dir) - 1 <? Z.of_nat (length dir + length m))
    with true by (symmetry; apply Z.ltb_lt; lia).
  simpl andb. destruct (all_dots m); simpl; [done|].
  rewrite app_assoc, <- length_app. by rewrite upto_app, from_app.
Qed.

Lemma splitext_no_dot (dir b : list ascii) :
  dir_prefix dir -> "/"%char ∉ b -> "."%char ∉ b ->
  splitext (str (dir ++ b)) = (str (dir ++ b), "").
Proof.
  intros Hdir Hb Hdot. unfold splitext.
  pose proof (sep_index dir _ Hdir Hb) as Hsep.
  assert (rfind (str (dir ++ b)) "." <= rfind (str (dir ++ b)) "/") as Hle.
  { unfold rfind in *. rewrite chars_str in *.
    rewrite rfind_go_app_absent by done.
    destruct Hdir as [->|[d ->]].
    - simpl in *. lia.
    - rewrite length_app in Hsep. simpl in Hsep.
      rewrite rfind_go_app_absent
        by (apply not_elem_of_cons; split; [done|apply not_elem_of_nil]).
      pose proof (rfind_go_bounds "." d 0 (-1)). lia. }
  replace (_ <? _) with false by (symmetry; apply Z.ltb_ge; lia).
  done.
Qed.

Lemma all_dots_false (b : list ascii) :
  (exists c, c ∈ b /\ c <> "."%char) -> all_dots b = false.
Proof.
  intros (c & Hin & Hc). apply not_true_iff_false. intros Hall.
  unfold all_dots in Hall. rewrite forallb_forall in Hall.
  apply list_elem_of_In, Hall in Hin. by apply Ascii.eqb_eq in Hin.
Qed.

Lemma not_in_bin (c : ascii) :
  c <> "b"%char -> c <> "i"%char -> c <> "n"%char -> c ∉ chars "bin".
Proof.
  intros ? ? ? Hin. simpl in Hin.
  rewrite !elem_of_cons, elem_of_nil in Hin.
  by destruct Hin as [?|[?|[?|[]]]].
Qed.

(** X1: the waveform name under which the payload is stored is the one
    that is selected afterwards, unless the file name consists of dots
    only. *)
Theorem waveform_names_agree (csv_filename : string) :
  (exists c, c ∈ chars (basename csv_filename) /\ c <> "."%char) ->
  let bin_filename := (splitext csv_filename).1 +:+ ".bin" in
  (splitext (basename bin_filename)).1
  = (splitext (basename csv_filename)).1.
Proof.
  destruct (path_split csv_filename) as (dir & b & -> & Hdir & Hb).
  rewrite basename_app, chars_str by done. intros Hname bin_filename.
  pose proof (all_dots_false b Hname) as Hb_dots.
  assert (dir_prefix []) as Hnil by (by left).
  assert ("/"%char ∉ chars "bin") as Hbin1 by (by apply not_in_bin).
  assert ("."%char ∉ chars "bin") as Hbin2 by (by apply not_in_bin).
  (* the name stored when the root of the path keeps the whole file name *)
  assert (forall root, "/"%char ∉ root -> all_dots root = false ->
    (splitext (basename (str (dir ++ root) +:+ ".bin"))).1 = str root)
    as Hstore.
  { intros root Hroot Hdots.
    change ".bin" with (str ("."%char :: chars "bin")).
    rewrite <- str_app, <- app_assoc, basename_app; [|done|].
    2:{ rewrite elem_of_app, elem_of_cons. intros [?|[?|?]]; done. }
    rewrite <- (app_nil_l (root ++ _)), splitext_at_last_dot by done.
    by rewrite Hdots. }
  subst bin_filename.
  destruct (split_at_last "." b) as [Hnodot|(m & t & -> & Ht)].
  - rewrite splitext_no_dot by done. cbn [fst].
    rewrite Hstore by done.
    by rewrite <- (app_nil_l b), splitext_no_dot.
  - assert (("/"%char ∉ m) /\ ("/"%char ∉ t)) as [Hm Ht'].
    { split; intros H; apply Hb; rewrite elem_of_app, elem_of_cons; auto. }
    rewrite splitext_at_last_dot by done.
    rewrite <- (app_nil_l (m ++ _)), (splitext_at_last_dot []) by done.
    destruct (all_dots m) eqn:Hm_dots; cbn [fst]; simpl app.
    + by rewrite Hstore.
    + by rewrite Hstore.
Qed.

End PathFacts.

(** ** The statements at work on the bench *)

Section Bench.

Lemma stop_issues_one_output_off_witness :
  redis (demo_world "stop") !! redis_key demo_gui = Some "stop" /\
  exists r w',
    execute_redis_command demo_gui (demo_world "stop") = (r, w') /\
    dev_log w' = dev_log (demo_world "stop") ++ [DevWrite "C1:OUTP OFF"] /\
    fs w' = fs (demo_world "stop") /\
    r = Ok tt.
Proof.
  split; [reflexivity|].
  apply (stop_issues_one_output_off demo_gui (demo_world "stop")).
  reflexivity.
Defined.

Lemma set_issues_type_frequency_amplitude_on_witness :
  let w := demo_world "set ch1 X 1000 2.5" in
  is_token "ch1" = true /\ reliable w /\
  redis w !! redis_key demo_gui = Some ("set " +:+ "ch1" +:+ " X 1000 2.5") /\
  exists w',
    execute_redis_command demo_gui w = (Ok tt, w') /\
    dev_log w' = dev_log w ++
      [ DevWrite "C1:BSWV WVTP,X"; DevWrite "C1:BSWV FRQ,1000.0";
        DevWrite "C1:BSWV AMP,2.5"; DevWrite "C1:OUTP ON" ].
Proof.
  intros w.
  assert (reliable w) as Hw by (intros log c; reflexivity).
  split; [reflexivity|]. split; [exact Hw|]. split; [reflexivity|].
  destruct (set_issues_type_frequency_amplitude_on demo_gui w "ch1")
    as (w' & Hrun & Hlog & _); [reflexivity|exact Hw|reflexivity|].
  exists w'. split; [exact Hrun|exact Hlog].
Defined.

Lemma upload_command_passes_channel_and_path_only_witness :
  let w := demo_world "upload now wave.csv" in
  is_token "now" = true /\ is_token "wave.csv" = true /\
  redis w !! redis_key demo_gui
    = Some ("upload " +:+ "now" +:+ " " +:+ "wave.csv") /\
  is_Some (fs w !! "wave.csv") /\
  execute_redis_command demo_gui w
  = (Raise (TypeError "missing required positional arguments: frequency, amplitude, phase, offset"),
     w).
Proof.
  intros w.
  assert (is_Some (fs w !! "wave.csv")) as Hfile by (eexists; reflexivity).
  split; [reflexivity|]. split; [reflexivity|]. split; [reflexivity|].
  split; [exact Hfile|].
  destruct (upload_command_passes_channel_and_path_only
              demo_gui w "now" "wave.csv") as [_ Hcall];
    [reflexivity|reflexivity|reflexivity|].
  destruct (Hcall Hfile) as (Hrun & _ & Hraise).
  exact (eq_trans Hrun Hraise).
Defined.

Lemma convert_missing_input_raises_FileNotFoundError_witness :
  let w := demo_world "" in
  fs w !! "nope.csv" = None /\
  convert_csv_to_binary "nope.csv" "nope.bin" w
  = (Raise (FileNotFoundError "No such file: 'nope.csv'"), w).
Proof.
  intros w. split; [reflexivity|].
  apply (convert_missing_input_raises_FileNotFoundError "nope.csv" "nope.bin" w).
  reflexivity.
Defined.

Lemma convert_empty_input_raises_StopIteration_witness :
  let w := bench "empty.csv" [] "" in
  fs w !! "empty.csv" = Some [] /\
  convert_csv_to_binary "empty.csv" "empty.bin" w
  = (Raise StopIteration, with_fs w (<["empty.bin" := []]> (fs w))).
Proof.
  intros w. split; [reflexivity|].
  apply (convert_empty_input_raises_StopIteration "empty.csv" "empty.bin" w).
  reflexivity.
Defined.

Lemma convert_partial_write_on_bad_row_witness :
  let w := bench "wave.csv" demo_bad_csv "" in
  Csv.reader demo_bad_csv
  = RRow ["t"; "v"] (rows_then [["0"; "1.5"]] (RRow ["x"; "-2"] (RRow ["3"; "4"] RStop))) /\
  Float.float "x" = None /\
  exists field w',
    convert_csv_to_binary "wave.csv" "wave.bin" w
    = (Raise (ValueError field), w') /\
    field ∈ ["x"; "-2"] /\ Float.float field = None /\
    fs w' = <["wave.bin" := concat (map struct_pack
                [[Fzero false; Ffin false 6755399441055744 (-52)]])]> (fs w) /\
    dev_log w' = dev_log w.
Proof.
  intros w.
  assert (Csv.reader demo_bad_csv
    = RRow ["t"; "v"] (rows_then [["0"; "1.5"]]
        (RRow ["x"; "-2"] (RRow ["3"; "4"] RStop)))) as Hreader
    by (vm_compute; reflexivity).
  assert (Float.float "x" = None) as Hx by (vm_compute; reflexivity).
  split; [exact Hreader|]. split; [exact Hx|].
  apply (convert_partial_write_on_bad_row "wave.csv" "wave.bin" w
           demo_bad_csv ["t"; "v"] [["0"; "1.5"]] ["x"; "-2"]
           (RRow ["3"; "4"] RStop)).
  - discriminate.
  - reflexivity.
  - exact Hreader.
  - constructor; [vm_compute; reflexivity|constructor].
  - constructor. exact Hx.
Defined.

Lemma convert_writes_float32_row_major_witness :
  let w := demo_world "" in
  Csv.reader demo_csv
  = RRow ["t"; "v"] (rows_then [["0"; "1.5"]; ["1"; "-2"]] RStop) /\
  exists w' bytes,
    convert_csv_to_binary "wave.csv" "wave.bin" w = (Ok tt, w') /\
    fs w' = <["wave.bin" := bytes]> (fs w) /\
    length bytes = 16%nat.
Proof.
  intros w.
  assert (Csv.reader demo_csv
    = RRow ["t"; "v"] (rows_then [["0"; "1.5"]; ["1"; "-2"]] RStop))
    as Hreader by (vm_compute; reflexivity).
  split; [exact Hreader|].
  destruct (convert_writes_float32_row_major "wave.csv" "wave.bin" w
              demo_csv ["t"; "v"] [["0"; "1.5"]; ["1"; "-2"]] 2 2)
    as (w' & bytes & Hrun & Hfs & _ & Hlen & _).
  - discriminate.
  - reflexivity.
  - exact Hreader.
  - reflexivity.
  - repeat constructor; eexists; vm_compute; reflexivity.
  - exists w', bytes. split; [exact Hrun|]. split; [exact Hfs|exact Hlen].
Defined.

(** Rows need not have the same number of fields: each row is packed with
    as many ['f'] as it has fields, a blank line with none. *)
Example ragged_rows_are_packed :
  let w := bench "r.csv"
             (bytes_of ("h" +:+ Text.nl +:+ "1,2" +:+ Text.nl +:+ Text.nl
                        +:+ "3" +:+ Text.nl)) "" in
  exists w',
    convert_csv_to_binary "r.csv" "r.bin" w = (Ok tt, w') /\
    fs w' !! "r.bin"
    = Some [x00; x00; x80; x3f; x00; x00; x00; x40; x00; x00; x40; x40].
Proof. eexists. split; vm_compute; reflexivity. Qed.

(** Writing onto the input: when both paths name the same file, it is
    emptied before the reader sees it, and the header skip raises. *)
Lemma convert_onto_itself_empties_the_input (path : string) (w : world) :
  is_Some (fs w !! path) ->
  convert_csv_to_binary path path w
  = (Raise StopIteration, with_fs w (<[path := []]> (fs w))).
Proof.
  intros Hfile. rewrite (convert_reads_after_truncating _ _ _ []).
  - reflexivity.
  - done.
  - by rewrite lookup_insert_eq.
Qed.

(** C1, as stated, fails: a CSV file of two data rows of two numeric fields
    that is named [wave.bin] is transcoded onto itself, because the output
    path of an upload is the input path with [.bin] for its extension; the
    file is emptied, StopIteration is raised, and no value is written. *)
Lemma numeric_csv_named_bin_is_emptied :
  let w := bench "wave.bin" demo_csv "" in
  Csv.reader demo_csv
  = RRow ["t"; "v"] (rows_then [["0"; "1.5"]; ["1"; "-2"]] RStop) /\
  map numeric_row [["0"; "1.5"]; ["1"; "-2"]]
  = [ Some [Fzero false; Ffin false 6755399441055744 (-52)];
      Some [Ffin false 4503599627370496 (-52);
            Ffin true 4503599627370496 (-51)] ] /\
  (Path.splitext "wave.bin").1 +:+ ".bin" = "wave.bin" /\
  exists w',
    convert_csv_to_binary "wave.bin" "wave.bin" w = (Raise StopIteration, w') /\
    fs w' !! "wave.bin" = Some [].
Proof.
  intros w. split; [vm_compute; reflexivity|].
  split; [vm_compute; reflexivity|]. split; [vm_compute; reflexivity|].
  eexists. split; vm_compute; reflexivity.
Qed.

(** C6, as stated, fails: for a CSV file named [bad.bin] whose second data
    row has a non-numeric field, the transcoder onto the same path raises
    StopIteration, not a conversion error, and the file holds no bytes
    instead of the eight bytes of the first data row. *)
Lemma bad_csv_named_bin_raises_StopIteration :
  let w := bench "bad.bin" demo_bad_csv "" in
  Csv.reader demo_bad_csv
  = RRow ["t"; "v"]
      (rows_then [["0"; "1.5"]] (RRow ["x"; "-2"] (RRow ["3"; "4"] RStop))) /\
  Float.float "x" = None /\
  (Path.splitext "bad.bin").1 +:+ ".bin" = "bad.bin" /\
  exists w',
    convert_csv_to_binary "bad.bin" "bad.bin" w = (Raise StopIteration, w') /\
    fs w' !! "bad.bin" = Some [] /\
    [] <> struct_pack [Fzero false; Ffin false 6755399441055744 (-52)].
Proof.
  intros w. split; [vm_compute; reflexivity|].
  split; [vm_compute; reflexivity|]. split; [vm_compute; reflexivity|].
  eexists. split; [vm_compute; reflexivity|].
  split; [vm_compute; reflexivity|]. discriminate.
Qed.

Lemma upload_issues_steps_in_order_and_fails_fast_witness :
  let w := demo_world "" in
  let w_bad :=
    mkWorld {[ "wave.csv" := demo_csv ]} ∅ [] refuses_third [] in
  (exists w' data,
     upload_and_generate_waveform (VInt 2) "wave.csv" f1000 f2_5 f0 f0 w
     = (Ok tt, w') /\
     dev_log w' = dev_log w ++
       upload_steps (VInt 2) "wave.csv" data f1000 f2_5 f0 f0) /\
  (exists w' w1 data k c,
     upload_and_generate_waveform (VInt 2) "wave.csv" f1000 f2_5 f0 f0 w_bad
     = (Raise VisaIOError, w') /\
     upload_steps (VInt 2) "wave.csv" data f1000 f2_5 f0 f0 !! k = Some c /\
     dev_log w' = dev_log w_bad ++
       take (S k) (upload_steps (VInt 2) "wave.csv" data f1000 f2_5 f0 f0) /\
     length (dev_log w') = 3%nat /\
     fs w' = fs w1 /\ fs w1 !! "wave.bin" = Some data).
Proof.
  intros w w_bad. split.
  - assert ((upload_and_generate_waveform (VInt 2) "wave.csv"
               f1000 f2_5 f0 f0 w).1 = Ok tt) as Hr
      by (vm_compute; reflexivity).
    destruct (upload_and_generate_waveform (VInt 2) "wave.csv"
                f1000 f2_5 f0 f0 w) as [r w'] eqn:Hrun.
    simpl in Hr. subst r.
    destruct (upload_issues_steps_in_order_and_fails_fast
                (VInt 2) "wave.csv" f1000 f2_5 f0 f0 w w' (Ok tt) Hrun)
      as [Hok _].
    destruct (Hok eq_refl) as (data & _ & Hlog).
    exists w', data. split; [reflexivity|exact Hlog].
  - assert ((upload_and_generate_waveform (VInt 2) "wave.csv"
               f1000 f2_5 f0 f0 w_bad).1 = Raise VisaIOError) as Hr
      by (vm_compute; reflexivity).
    assert (length (dev_log (upload_and_generate_waveform (VInt 2) "wave.csv"
               f1000 f2_5 f0 f0 w_bad).2) = 3%nat) as Hlen
      by (vm_compute; reflexivity).
    assert ((convert_csv_to_binary "wave.csv"
               ((Path.splitext "wave.csv").1 +:+ ".bin") w_bad).1 = Ok tt)
      as Hconv by (vm_compute; reflexivity).
    destruct (upload_and_generate_waveform (VInt 2) "wave.csv"
                f1000 f2_5 f0 f0 w_bad) as [r w'] eqn:Hrun.
    simpl in Hr, Hlen. subst r.
    destruct (upload_issues_steps_in_order_and_fails_fast
                (VInt 2) "wave.csv" f1000 f2_5 f0 f0 w_bad w'
                (Raise VisaIOError) Hrun) as [_ Hfail].
    destruct (Hfail VisaIOError eq_refl)
      as [[Hraise _]|(w1 & data & k & c & _ & Hdata & _ & Hk & Hlog & _ & _ & Hfs)].
    + rewrite Hraise in Hconv. discriminate Hconv.
    + exists w', w1, data, k, c. repeat split; assumption.
Defined.

Lemma upload_addresses_channel_1_then_requested_witness :
  let w := demo_world "" in
  exists w' calls data,
    upload_and_generate_waveform (VInt 2) "wave.csv" f1000 f2_5 f0 f0 w
    = (Ok tt, w') /\
    dev_log w' = dev_log w ++ calls /\
    length calls = 7%nat /\
    forall i c, calls !! i = Some c ->
      match i with
      | O => exists name,
          c = DevWriteBinaryValues
                ("C1:WVDT WVNM," +:+ name +:+ ",WAVEDATA,") data
      | S _ => exists tail, c = DevWrite ("C" +:+ "2" +:+ tail)
      end.
Proof.
  intros w.
  assert ((upload_and_generate_waveform (VInt 2) "wave.csv"
             f1000 f2_5 f0 f0 w).1 = Ok tt) as Hr
    by (vm_compute; reflexivity).
  destruct (upload_and_generate_waveform (VInt 2) "wave.csv"
              f1000 f2_5 f0 f0 w) as [r w'] eqn:Hrun.
  simpl in Hr. subst r.
  destruct (upload_addresses_channel_1_then_requested
              (VInt 2) "wave.csv" f1000 f2_5 f0 f0 w w' (Ok tt) Hrun)
    as (calls & data & Hlog & _ & Hlen & Hcalls).
  exists w', calls, data. split; [reflexivity|]. split; [exact Hlog|].
  split; [exact (Hlen eq_refl)|exact Hcalls].
Defined.

(** C8 at a file named [...]: the output path is the input path with
    [.bin] appended, [....bin]; the payload is stored under the name
    [....bin], the whole name of the output file, and the waveform then
    selected is [...]. *)
Lemma all_dots_file_is_stored_and_selected_under_two_names :
  exists w' data,
    upload_and_generate_waveform (VInt 2) "..." f1000 f2_5 f0 f0
      (bench "..." demo_csv "")
    = (Ok tt, w') /\
    fs w' !! "....bin" = Some data /\
    dev_log w' !! 0%nat
    = Some (DevWriteBinaryValues "C1:WVDT WVNM,....bin,WAVEDATA," data) /\
    dev_log w' !! 1%nat = Some (DevWrite "C2:ARWV NAME,...").
Proof.
  eexists _, _. split; [vm_compute; reflexivity|].
  split; [vm_compute; reflexivity|]. split; reflexivity.
Qed.

End Bench.

(** * Further properties *)

(** ** Values that single precision holds exactly *)

Section ExactCast.

Lemma shr_iter_exact (n : nat) (m M : positive) :
  Zpos M = Zpos m * 2 ^ Z.of_nat n ->
  Nat.iter n shr_1 (Build_shr_record (Zpos M) false false)
  = Build_shr_record (Zpos m) false false.
Proof.
  revert M. induction n as [|n IH]; intros M HM.
  - simpl in *. f_equal. lia.
  - rewrite Nat2Z.inj_succ, Z.pow_succ_r in HM by lia.
    rewrite Nat.iter_succ_r.
    destruct M as [M|M|]; [lia| |lia].
    cbn [shr_1 orb]. apply IH. lia.
Qed.

(** Shifting out [k] zero bits loses nothing. *)
Lemma shr_exact (m M : positive) (E k : Z) :
  0 <= k -> Zpos M = Zpos m * 2 ^ k ->
  shr (Build_shr_record (Zpos M) false false) E k
  = (Build_shr_record (Zpos m) false false, E + k).
Proof.
  intros Hk HM. unfold shr. destruct k as [|p|p]; [| |lia].
  - simpl in HM. rewrite Z.add_0_r. do 2 f_equal. lia.
  - rewrite iter_pos_nat. f_equal. apply shr_iter_exact.
    by rewrite positive_nat_Z.
Qed.

Lemma digits_scaled (m M : positive) (k : Z) :
  0 <= k -> Zpos M = Zpos m * 2 ^ k ->
  Zpos (digits2_pos M) = Zpos (digits2_pos m) + k.
Proof.
  intros Hk HM. apply digits_unique.
  pose proof (digits_bounds m) as [Hlo Hhi].
  replace (Zpos (digits2_pos m) + k - 1) with (Zpos (digits2_pos m) - 1 + k) by lia.
  rewrite !Z.pow_add_r by lia. rewrite HM.
  assert (0 < 2 ^ k) by (apply Z.pow_pos_nonneg; lia). nia.
Qed.

(** A float whose value is that of a binary32 is cast to this binary32:
    [M * 2^(e - k)] with [M = m * 2^k] is [m * 2^e]. *)
Lemma to_single_of_single_value (s : bool) (m M : positive) (e k : Z) :
  0 <= k -> Zpos M = Zpos m * 2 ^ k ->
  Float.single_valid (Ffin s m e) = true ->
  Float.to_single (Ffin s M (e - k)) = Ffin s m e.
Proof.
  intros Hk HM Hb. cbn [Float.single_valid] in Hb. pose proof Hb as Hb'.
  unfold bounded, canonical_mantissa in Hb'.
  apply andb_true_iff in Hb' as [Hcanon Hle]. apply Z.eqb_eq in Hcanon.
  pose proof (digits_scaled m M k Hk HM) as Hd.
  unfold Float.to_single. cbn [binary_normalize].
  unfold binary_round, shl_align.
  replace (Zpos (digits2_pos M) + (e - k)) with (Zpos (digits2_pos m) + e) by lia.
  rewrite Hcanon.
  replace (e - (e - k)) with k by lia.
  assert ((let '(mz, ez) :=
             match k with Zneg d => (Pos.iter xO M d, e) | _ => (M, e - k) end in
           binary_round_aux 24 128 false (Zpos mz) ez loc_Exact)
          = binary_round_aux 24 128 false (Zpos M) (e - k) loc_Exact) as ->.
  { destruct k; try reflexivity. lia. }
  unfold binary_round_aux, shr_fexp. cbn [Zdigits2 shr_record_of_loc].
  replace (Zpos (digits2_pos M) + (e - k)) with (Zpos (digits2_pos m) + e) by lia.
  rewrite Hcanon. replace (e - (e - k)) with k by lia.
  rewrite (shr_exact m M) by done.
  replace (e - k + k) with e by lia.
  cbn [shr_m loc_of_shr_record shr_r shr_s round_nearest_even Zdigits2
       shr_record_of_loc].
  rewrite Hcanon, Z.sub_diag.
  cbn [shr shr_m]. by rewrite Hle.
Qed.

(** X2: the four bytes of a packed value read back as a binary32 [y];
    packing [y] gives the same four bytes again, and reading these gives
    [y]: the rounding to single precision happens once. *)
Theorem packed_value_is_a_fixed_point (x : pyfloat) :
  exists y,
    unpack_f (pack_f x) = Some y /\
    Float.single_valid y = true /\
    pack_f y = pack_f x /\
    unpack_f (pack_f y) = Some y.
Proof.
  exists (Float.to_single x).
  pose proof (to_single_valid x) as Hvalid.
  pose proof (to_single_exact _ Hvalid) as Hexact.
  split; [apply unpack_pack_f|]. split; [done|].
  split; [unfold pack_f; by rewrite Hexact|].
  by rewrite unpack_pack_f, Hexact.
Qed.

(** X3: a float whose value a binary32 holds exactly is packed without
    loss.  When the mantissa [M] of the float is the mantissa [m] of a
    binary32 followed by [k] zero bits, the four bytes read back as
    [m * 2^e], the value [M * 2^(e - k)] of the float. *)
Theorem pack_f_is_exact_on_single_values
    (s : bool) (m M : positive) (e k : Z) :
  0 <= k -> Zpos M = Zpos m * 2 ^ k ->
  Float.single_valid (Ffin s m e) = true ->
  unpack_f (pack_f (Ffin s M (e - k))) = Some (Ffin s m e).
Proof.
  intros Hk HM Hb.
  by rewrite unpack_pack_f, (to_single_of_single_value s m M e k).
Qed.

End ExactCast.

(** ** Values beyond the range of single precision *)

Section Overflow.

(** After rounding, a mantissa of 24 bits, or [2^24] after a carry, at an
    exponent above 104 is beyond the binary32 range. *)
Lemma renormalize_overflow (sx : bool) (m1 e' : Z) :
  2 ^ 23 <= m1 <= 2 ^ 24 -> 104 < e' ->
  (let '(mrs, e'') := shr_fexp 24 128 m1 e' loc_Exact in
   match shr_m mrs with
   | Z0 => S754_zero sx
   | Zpos m => if e'' <=? 128 - 24 then S754_finite sx m e''
               else S754_infinity sx
   | Zneg _ => S754_nan
   end) = S754_infinity sx.
Proof.
  intros Hm1 He'. change (2 ^ 23) with 8388608 in Hm1.
  change (2 ^ 24) with 16777216 in Hm1.
  destruct m1 as [|p|p]; [lia| |lia].
  unfold shr_fexp. cbn [Zdigits2 shr_record_of_loc].
  pose proof (shr_m_div (Zpos p) e'
                (fexp 24 128 (Zpos (digits2_pos p) + e') - e')) as Hshr.
  assert (Zpos (digits2_pos p) = 24 \/ Zpos (digits2_pos p) = 25) as Hd.
  { destruct (Z.eq_dec (Zpos p) 16777216) as [Hcarry|Hno].
    - right. apply digits_unique. rewrite Hcarry. simpl. lia.
    - left. apply digits_unique. simpl. lia. }
  destruct (shr _ e' _) as [mrs e''].
  destruct Hshr as [Hm He'']; [lia|unfold fexp, emin; lia|].
  assert (0 < shr_m mrs) as Hpos.
  { rewrite Hm. destruct Hd as [-> | ->].
    - replace (fexp 24 128 (24 + e') - e') with 0 by (unfold fexp, emin; lia).
      rewrite Z.div_1_r. lia.
    - replace (fexp 24 128 (25 + e') - e') with 1 by (unfold fexp, emin; lia).
      apply Z.div_str_pos. simpl. lia. }
  destruct (shr_m mrs) as [|m|m]; [lia| |lia].
  replace (e'' <=? 128 - 24) with false; [done|].
  symmetry. apply Z.leb_gt. unfold fexp, emin in He''. lia.
Qed.

(** The cast of a float of magnitude [2^128] or more is an infinity. *)
Lemma to_single_overflow (s : bool) (M : positive) (e : Z) :
  2 ^ 52 <= Zpos M < 2 ^ 53 -> 76 <= e ->
  Float.to_single (Ffin s M e) = Finf s.
Proof.
  intros HM He.
  assert (Zpos (digits2_pos M) = 53) as Hd by (by apply digits_unique).
  unfold Float.to_single. cbn [binary_normalize].
  unfold binary_round, shl_align. rewrite Hd.
  replace (fexp 24 128 (53 + e)) with (e + 29) by (unfold fexp, emin; lia).
  replace (e + 29 - e) with 29 by lia. cbv iota beta.
  unfold binary_round_aux.
  unfold shr_fexp at 1. cbn [Zdigits2 shr_record_of_loc]. rewrite Hd.
  replace (fexp 24 128 (53 + e)) with (e + 29) by (unfold fexp, emin; lia).
  replace (e + 29 - e) with 29 by lia.
  pose proof (shr_m_div (Zpos M) e 29) as Hshr.
  destruct (shr _ e 29) as [mrs e1].
  destruct Hshr as [Hm' He1]; [lia|lia|]. subst e1.
  pose proof (round_nearest_even_range (shr_m mrs) (loc_of_shr_record mrs))
    as Hm1.
  assert (2 ^ 23 <= shr_m mrs < 2 ^ 24) as Hrange.
  { rewrite Hm'. change (2 ^ 52) with (2 ^ 29 * 2 ^ 23) in HM.
    change (2 ^ 53) with (2 ^ 29 * 2 ^ 24) in HM. split.
    - apply Z.div_le_lower_bound; lia.
    - apply Z.div_lt_upper_bound; lia. }
  rewrite renormalize_overflow by lia. reflexivity.
Qed.

(** X4: a field whose value is beyond the range of single precision is
    written as an infinity, and nothing is raised: the four bytes of a
    float of magnitude [2^128] or more, in its binary64 form of a 53-bit
    mantissa [M] and an exponent [e] from 76 on, read back as the infinity
    of its sign. *)
Theorem pack_f_stores_infinity_beyond_the_range
    (s : bool) (M : positive) (e : Z) :
  2 ^ 52 <= Zpos M < 2 ^ 53 -> 76 <= e ->
  unpack_f (pack_f (Ffin s M e)) = Some (Finf s).
Proof.
  intros HM He. by rewrite unpack_pack_f, to_single_overflow.
Qed.

End Overflow.

(** ** The reader on plain CSV text *)

Section PlainCsv.
Import Text Csv.

Lemma forallb_impl {A : Type} (p q : A -> bool) (l : list A) :
  (forall a, p a = true -> q a = true) ->
  forallb p l = true -> forallb q l = true.
Proof.
  intros Hpq. induction l as [|a l IH]; simpl; [done|].
  intros [Ha Hl]%andb_true_iff. by rewrite (Hpq a Ha), IH.
Qed.

(** ASCII text is read back as written. *)
Lemma decode_bytes_of (s : string) :
  forallb (fun c => code c <? 128) (chars s) = true ->
  decode (bytes_of s) = Some (chars s).
Proof.
  intros Hs. unfold decode, bytes_of.
  assert (forallb (fun b => (Byte.to_N b <? 128)%N) (map byte_of_ascii (chars s))
          = true) as ->.
  { induction (chars s) as [|c l IH]; simpl in *; [done|].
    apply andb_true_iff in Hs as [Hc Hl]. rewrite IH by done.
    rewrite andb_true_r.
    pose proof (byte_of_ascii_via_N c) as Hb. symmetry in Hb.
    apply Byte.to_of_N in Hb. rewrite Hb.
    unfold code in Hc. apply Z.ltb_lt in Hc. apply N.ltb_lt. lia. }
  f_equal. clear Hs. induction (chars s) as [|c l IH]; [done|].
  cbn [map]. by rewrite ascii_of_byte_of_ascii, IH.
Qed.

Lemma translate_newlines_id (l : list ascii) :
  forallb (fun c => negb (code c =? 13)) l = true ->
  translate_newlines l = l.
Proof.
  induction l as [|c l IH]; simpl; [done|].
  intros [Hc Hl]%andb_true_iff. apply negb_true_iff in Hc.
  by rewrite Hc, IH.
Qed.

(** A line ends at its line feed. *)
Lemma lines_go_line (cur body rest : list ascii) :
  forallb (fun c => negb (code c =? 10)) body = true ->
  lines_go cur (body ++ chr 10 :: rest)
  = (rev cur ++ body ++ [chr 10]) :: lines_go [] rest.
Proof.
  revert cur. induction body as [|c body IH]; intros cur Hbody.
  - reflexivity.
  - simpl in Hbody. apply andb_true_iff in Hbody as [Hc Hbody].
    apply negb_true_iff in Hc. simpl. rewrite Hc, IH by done.
    simpl. by rewrite <- app_assoc.
Qed.

(** A plain character is added to the field being read ... *)
Lemma plain_char_step (S : parser_state) (acc : list string)
    (cur : list ascii) (c : ascii) :
  S = START_FIELD \/ S = IN_FIELD ->
  plain_char c = true ->
  Z.of_nat (length cur) < field_limit ->
  parse_process_char (mkReader S acc cur) (Some c)
  = Some (mkReader IN_FIELD acc (c :: cur)).
Proof.
  unfold plain_char. intros HS Hc Hlen.
  apply andb_true_iff in Hc as [Hc Hq]. apply andb_true_iff in Hc as [Hc Hd].
  apply andb_true_iff in Hc as [_ Hn].
  apply negb_true_iff in Hq, Hd, Hn.
  destruct HS as [-> | ->]; unfold parse_process_char, parse_add_char;
    cbn [state field fields]; rewrite ?Hn, ?Hq, ?Hd;
    by replace (field_limit <=? Z.of_nat (length cur)) with false
      by (symmetry; apply Z.leb_gt; lia).
Qed.

(** ... and the comma ends the field. *)
Lemma comma_step (S : parser_state) (acc : list string) (cur : list ascii) :
  S = START_FIELD \/ S = IN_FIELD ->
  parse_process_char (mkReader S acc cur) (Some ","%char)
  = Some (mkReader START_FIELD (acc ++ [str (rev cur)]) []).
Proof. by intros [-> | ->]. Qed.

Lemma process_plain_chars (S : parser_state) (acc : list string)
    (cur body tail : list ascii) :
  S = START_FIELD \/ S = IN_FIELD ->
  forallb plain_char body = true ->
  Z.of_nat (length cur + length body) <= field_limit ->
  exists S', (S' = START_FIELD \/ S' = IN_FIELD) /\
    process_line (mkReader S acc cur) (body ++ tail)
    = process_line (mkReader S' acc (rev body ++ cur)) tail.
Proof.
  revert S cur. induction body as [|c body IH]; intros S cur HS Hbody Hlen.
  - by exists S.
  - simpl in Hbody. apply andb_true_iff in Hbody as [Hc Hbody].
    simpl in Hlen.
    destruct (IH IN_FIELD (c :: cur)) as (S' & HS' & Hrun);
      [by right|done|simpl; lia|].
    exists S'. split; [done|].
    cbn [app process_line]. rewrite plain_char_step by (done || lia).
    rewrite Hrun. cbn [rev]. by rewrite <- app_assoc.
Qed.

Lemma plain_or_comma (c : ascii) :
  plain_char c || is_delimiter c = true ->
  (code c <? 128) = true /\ (code c =? 13) = false /\ (code c =? 10) = false.
Proof.
  unfold plain_char, is_delimiter, is_newline.
  destruct (code c =? 44) eqn:Hcomma.
  - apply Z.eqb_eq in Hcomma. rewrite Hcomma. done.
  - rewrite orb_false_r. intros H.
    apply andb_true_iff in H as [H _]. apply andb_true_iff in H as [H _].
    apply andb_true_iff in H as [H Hn]. apply negb_true_iff in Hn.
    apply orb_false_iff in Hn as [H10 H13]. done.
Qed.

Lemma translate_newlines_app (body rest : list ascii) :
  forallb (fun c => negb (code c =? 13)) body = true ->
  translate_newlines (body ++ rest) = body ++ translate_newlines rest.
Proof.
  induction body as [|c body IH]; [done|].
  cbn [forallb app]. intros [Hc Hbody]%andb_true_iff.
  apply negb_true_iff in Hc. cbn [translate_newlines].
  by rewrite Hc, IH.
Qed.

Lemma lines_go_open (cur body : list ascii) :
  forallb (fun c => negb (code c =? 10)) body = true ->
  rev cur ++ body <> [] ->
  lines_go cur body = [rev cur ++ body].
Proof.
  revert cur. induction body as [|c body IH]; intros cur Hbody Hne.
  - rewrite app_nil_r in *. simpl. by destruct cur.
  - cbn [forallb] in Hbody. apply andb_true_iff in Hbody as [Hc Hbody].
    apply negb_true_iff in Hc. cbn [lines_go]. rewrite Hc, IH.
    + cbn [rev]. by rewrite <- app_assoc.
    + done.
    + cbn [rev]. rewrite <- app_assoc. by destruct (rev cur).
Qed.

Lemma chars_concat_comma (f : string) (fs : list string) (tail : list ascii) :
  chars (String.concat "," (f :: fs)) ++ tail = chars f ++ rest_line tail fs.
Proof.
  revert f. induction fs as [|g gs IH]; intros f; [done|].
  change (String.concat "," (f :: g :: gs))
    with (f +:+ "," +:+ String.concat "," (g :: gs)).
  rewrite !chars_app, <- !app_assoc. f_equal.
  cbn [rest_line]. by rewrite <- IH.
Qed.

Lemma end_step (S : parser_state) (acc : list string) (cur : list ascii)
    (tail : list ascii) :
  S = START_FIELD \/ S = IN_FIELD ->
  tail = [chr 10] \/ tail = [] ->
  process_line (mkReader S acc cur) tail
  = Some (mkReader START_RECORD (acc ++ [str (rev cur)]) []).
Proof. by intros [-> | ->] [-> | ->]. Qed.

Lemma process_fields (S : parser_state) (acc : list string) (f : string)
    (fs : list string) (tail : list ascii) :
  S = START_FIELD \/ S = IN_FIELD ->
  tail = [chr 10] \/ tail = [] ->
  forallb plain_field (f :: fs) = true ->
  process_line (mkReader S acc []) (chars f ++ rest_line tail fs)
  = Some (mkReader START_RECORD (acc ++ f :: fs) []).
Proof.
  intros HS Htail. revert S acc f HS.
  induction fs as [|g gs IH]; intros S acc f HS Hplain.
  - simpl in Hplain. rewrite andb_true_r in Hplain.
    apply andb_true_iff in Hplain as [Hf Hlen]. apply Z.leb_le in Hlen.
    destruct (process_plain_chars S acc [] (chars f) (rest_line tail []) HS Hf)
      as (S' & HS' & ->); [simpl; lia|].
    rewrite app_nil_r. cbn [rest_line].
    by rewrite end_step, rev_involutive, str_chars.
  - cbn [forallb] in Hplain. apply andb_true_iff in Hplain as [Hf Hrest].
    apply andb_true_iff in Hf as [Hf Hlen]. apply Z.leb_le in Hlen.
    destruct (process_plain_chars S acc [] (chars f) (rest_line tail (g :: gs))
                HS Hf) as (S' & HS' & ->); [simpl; lia|].
    rewrite app_nil_r. cbn [rest_line].
    cbn [process_line]. rewrite comma_step, rev_involutive, str_chars by done.
    rewrite IH by (done || by left). by rewrite <- app_assoc.
Qed.

(** One line of plain fields, with or without its line feed, is read as
    one record, its row. *)
Lemma process_csv_row (row : list string) (tail : list ascii) :
  plain_row row = true ->
  tail = [chr 10] \/ (tail = [] /\ row <> []) ->
  process_line parse_reset (chars (String.concat "," row) ++ tail)
  = Some (mkReader START_RECORD row []).
Proof.
  unfold plain_row. intros [Hplain Hrow]%andb_true_iff Htail.
  apply negb_true_iff, bool_decide_eq_false in Hrow.
  destruct row as [|f fs].
  { by destruct Htail as [-> | [_ ?]]. }
  assert (tail = [chr 10] \/ tail = []) as Htail'
    by (destruct Htail as [|[]]; auto).
  rewrite chars_concat_comma.
  transitivity (process_line (mkReader START_FIELD [] [])
                  (chars f ++ rest_line tail fs));
    [|apply (process_fields START_FIELD []); [by left|done|done]].
  destruct (chars f) as [|c l] eqn:Hf.
  - destruct fs as [|g gs]; [|reflexivity].
    destruct Hrow. f_equal. by rewrite <- (str_chars f), Hf.
  - cbn [forallb] in Hplain. apply andb_true_iff in Hplain as [Hpf _].
    unfold plain_field in Hpf. rewrite Hf in Hpf. simpl in Hpf.
    apply andb_true_iff in Hpf as [Hpf _].
    apply andb_true_iff in Hpf as [Hc _].
    unfold plain_char in Hc.
    apply andb_true_iff in Hc as [Hc _]. apply andb_true_iff in Hc as [Hc _].
    apply andb_true_iff in Hc as [_ Hn]. apply negb_true_iff in Hn.
    cbn [app process_line parse_process_char state parse_reset].
    by rewrite Hn.
Qed.

(** The characters of a line before its end are plain or commas. *)
Lemma row_body_chars (row : list string) :
  forallb plain_field row = true ->
  forallb (fun c => plain_char c || is_delimiter c)
    (chars (String.concat "," row)) = true.
Proof.
  intros Hrow. destruct row as [|f fs]; [done|].
  revert f Hrow. induction fs as [|g gs IH]; intros f Hrow.
  - simpl in Hrow. rewrite andb_true_r in Hrow.
    apply andb_true_iff in Hrow as [Hf _].
    eapply forallb_impl; [|exact Hf]. intros c ->. done.
  - cbn [forallb] in Hrow. apply andb_true_iff in Hrow as [Hf Hrest].
    change (String.concat "," (f :: g :: gs))
      with (f +:+ "," +:+ String.concat "," (g :: gs)).
    rewrite !chars_app, !forallb_app. rewrite (IH g Hrest), andb_true_r.
    apply andb_true_iff in Hf as [Hf _].
    eapply forallb_impl; [|exact Hf]. intros c ->. done.
Qed.

Lemma row_body_ascii (row : list string) :
  forallb plain_field row = true ->
  forallb (fun c => code c <? 128) (chars (String.concat "," row)) = true /\
  forallb (fun c => negb (code c =? 13)) (chars (String.concat "," row)) = true /\
  forallb (fun c => negb (code c =? 10)) (chars (String.concat "," row)) = true.
Proof.
  intros Hrow%row_body_chars. repeat split;
    (eapply forallb_impl; [|exact Hrow]); intros c Hc%plain_or_comma.
  - by destruct Hc as (-> & _ & _).
  - by destruct Hc as (_ & -> & _).
  - by destruct Hc as (_ & _ & ->).
Qed.

Lemma open_row_body (row : list string) :
  open_row (Some row) = true ->
  forallb plain_field row = true /\ chars (String.concat "," row) <> [].
Proof.
  unfold open_row, plain_row.
  intros [[Hplain Hone]%andb_true_iff Hnil]%andb_true_iff.
  apply negb_true_iff, bool_decide_eq_false in Hone, Hnil.
  split; [done|]. destruct row as [|f [|g gs]]; [done| |].
  - simpl. intros Hf. apply Hone. f_equal.
    by rewrite <- (str_chars f), Hf.
  - change (String.concat "," (f :: g :: gs))
      with (f +:+ "," +:+ String.concat "," (g :: gs)).
    rewrite !chars_app. by destruct (chars f).
Qed.

Lemma translate_lf (rest : list ascii) :
  translate_newlines (chr 10 :: rest) = chr 10 :: translate_newlines rest.
Proof. reflexivity. Qed.

Lemma translate_crlf (rest : list ascii) :
  translate_newlines (chr 13 :: chr 10 :: rest)
  = chr 10 :: translate_newlines rest.
Proof. reflexivity. Qed.

(** Line ends [\n] and [\r\n] are read as [\n] ... *)
Lemma translate_csv_file (eol : string) (lines : list (list string))
    (last : option (list string)) :
  eol = nl \/ eol = crlf ->
  forallb plain_row lines = true ->
  open_row last = true ->
  forallb (fun c => code c <? 128) (chars (csv_file eol lines last)) = true /\
  translate_newlines (chars (csv_file eol lines last))
  = chars (csv_file nl lines last).
Proof.
  intros Heol Hlines Hlast. unfold csv_file.
  induction lines as [|row lines IH].
  - cbn [csv_lines]. change ("" +:+ open_line last) with (open_line last).
    destruct last as [row|]; [|done].
    apply open_row_body in Hlast as [Hrow _].
    destruct (row_body_ascii row Hrow) as (Hascii & Hcr & _).
    split; [done|]. by apply translate_newlines_id.
  - cbn [forallb] in Hlines. apply andb_true_iff in Hlines as [Hrow Hlines].
    destruct (IH Hlines) as [Hascii Htr].
    apply andb_true_iff in Hrow as [Hrow _].
    destruct (row_body_ascii row Hrow) as (Hbody & Hcr & _).
    cbn [csv_lines]. unfold csv_line.
    rewrite !chars_app, <- !app_assoc.
    rewrite !forallb_app, Hbody, translate_newlines_app by done.
    rewrite chars_app, forallb_app in Hascii. rewrite !chars_app in Htr.
    rewrite Hascii, andb_true_r.
    destruct Heol as [-> | ->].
    + change (chars nl) with [chr 10]. split; [done|].
      cbn [app]. by rewrite translate_lf, Htr.
    + change (chars crlf) with [chr 13; chr 10]. change (chars nl) with [chr 10].
      split; [done|].
      cbn [app]. by rewrite translate_crlf, Htr.
Qed.

(** ... and the lines of the text are the lines of its rows. *)
Lemma lines_csv_file (lines : list (list string))
    (last : option (list string)) :
  forallb plain_row lines = true ->
  open_row last = true ->
  lines_go [] (chars (csv_file nl lines last))
  = map (fun row => chars (String.concat "," row) ++ [chr 10]) lines
    ++ match last with
       | Some row => [chars (String.concat "," row)]
       | None => []
       end.
Proof.
  intros Hlines Hlast. unfold csv_file.
  induction lines as [|row lines IH].
  - cbn [csv_lines]. change ("" +:+ open_line last) with (open_line last).
    destruct last as [row|]; [|done].
    apply open_row_body in Hlast as [Hrow Hne].
    destruct (row_body_ascii row Hrow) as (_ & _ & Hlf).
    by rewrite lines_go_open.
  - cbn [forallb] in Hlines. apply andb_true_iff in Hlines as [Hrow Hlines].
    apply andb_true_iff in Hrow as [Hrow _].
    destruct (row_body_ascii row Hrow) as (_ & _ & Hlf).
    cbn [csv_lines]. unfold csv_line.
    rewrite !chars_app, <- !app_assoc.
    change (chars nl) with [chr 10]. cbn [app].
    rewrite chars_app in IH.
    rewrite lines_go_line by done. by rewrite IH.
Qed.

Lemma iternext_csv_file (lines : list (list string))
    (last : option (list string)) :
  forallb plain_row lines = true ->
  open_row last = true ->
  iternext parse_reset
    (map (fun row => chars (String.concat "," row) ++ [chr 10]) lines
     ++ match last with
        | Some row => [chars (String.concat "," row)]
        | None => []
        end)
  = rows_then (lines ++ option_list last) RStop.
Proof.
  intros Hlines Hlast. induction lines as [|row lines IH].
  - destruct last as [row|]; [|reflexivity].
    cbn [map app iternext option_list rows_then].
    apply andb_true_iff in Hlast as [Hrow Hnil].
    apply negb_true_iff, bool_decide_eq_false in Hnil.
    rewrite <- (app_nil_r (chars (String.concat "," row))).
    by rewrite process_csv_row by auto.
  - cbn [forallb] in Hlines. apply andb_true_iff in Hlines as [Hrow Hlines].
    cbn [map app iternext rows_then].
    rewrite process_csv_row by auto.
    cbn [is_start_record state fields]. by rewrite IH.
Qed.

(** The reader on a text of plain lines yields their rows. *)
Lemma reader_csv_file (eol : string) (lines : list (list string))
    (last : option (list string)) :
  eol = nl \/ eol = crlf ->
  forallb plain_row lines = true ->
  open_row last = true ->
  Csv.reader (bytes_of (csv_file eol lines last))
  = rows_then (lines ++ option_list last) RStop.
Proof.
  intros Heol Hlines Hlast.
  destruct (translate_csv_file eol lines last Heol Hlines Hlast) as [Hascii Htr].
  unfold reader. rewrite decode_bytes_of by done.
  rewrite Htr, lines_csv_file by done.
  by apply iternext_csv_file.
Qed.

End PlainCsv.

(** ** The transcoder on rows of any length *)

Section TranscoderRows.

Lemma append_nil_r (s : string) : s +:+ "" = s.
Proof.
  induction s as [|c s IH]; [done|].
  change (String c (s +:+ "") = String c s). by rewrite IH.
Qed.

(** [splitext] cuts the path in two. *)
Lemma splitext_join (p : string) :
  (Path.splitext p).1 +:+ (Path.splitext p).2 = p.
Proof.
  unfold Path.splitext.
  destruct (_ && _); cbn [fst snd]; [|apply append_nil_r].
  unfold Path.upto, Path.from.
  by rewrite <- str_app, take_drop, str_chars.
Qed.

(** The output path of an upload is its input path when, and only when,
    the extension of the input is [.bin]. *)
Lemma bin_filename_eq_iff (csv_filename : string) :
  (Path.splitext csv_filename).1 +:+ ".bin" = csv_filename
  <-> (Path.splitext csv_filename).2 = ".bin".
Proof.
  pose proof (splitext_join csv_filename) as Hjoin. split.
  - intros H. apply (append_cancel (Path.splitext csv_filename).1).
    by rewrite Hjoin, H.
  - intros H. by rewrite H in Hjoin.
Qed.

Lemma numeric_rows_length (rows : list (list string))
    (valss : list (list pyfloat)) :
  Forall2 (fun row vals => numeric_row row = Some vals) rows valss ->
  length (concat valss) = length (concat rows).
Proof.
  induction 1 as [|row vals rows valss Hrow _ IH]; simpl; [done|].
  unfold numeric_row in Hrow. apply length_mapM in Hrow.
  rewrite !length_app. lia.
Qed.

(** The transcoder on a file of numeric rows, whatever their lengths. *)
Lemma convert_numeric_rows (csv_filename bin_filename : string) (w : world)
    (data : list byte) (header : list string) (rows : list (list string))
    (valss : list (list pyfloat)) :
  csv_filename <> bin_filename ->
  fs w !! csv_filename = Some data ->
  Csv.reader data = RRow header (rows_then rows RStop) ->
  Forall2 (fun row vals => numeric_row row = Some vals) rows valss ->
  convert_csv_to_binary csv_filename bin_filename w
  = (Ok tt,
     with_stdout
       (with_fs w (<[bin_filename := concat (map pack_f (concat valss))]> (fs w)))
       (stdout w ++ ["Converted " +:+ csv_filename +:+ " to " +:+ bin_filename])).
Proof.
  intros Hne Hdata Hreader Hvalss.
  rewrite (convert_reads_after_truncating _ _ _ data);
    [|by rewrite Hdata|by rewrite lookup_insert_ne].
  rewrite Hreader, run_bind.
  rewrite (write_rows_numeric _ _ _ _ _ [] Hvalss);
    [|by simpl; rewrite lookup_insert_eq].
  simpl write_rows. simpl app.
  unfold print, with_stdout, with_fs. simpl.
  by rewrite insert_insert_eq, struct_pack_rows.
Qed.

(** The loop writes to the output path only ... *)
Lemma write_rows_other_files (bin_filename : string) (reader : records)
    (w : world) (path : string) :
  path <> bin_filename ->
  fs (write_rows bin_filename reader w).2 !! path = fs w !! path.
Proof.
  intros Hne. revert w.
  induction reader as [|row rest IH|e]; intros w; simpl; [done| |done].
  rewrite run_bind.
  pose proof (mapM_float_pure row w) as Hpure.
  destruct (mapM float row w) as [[vals|e] w1]; simpl in Hpure; subst w1; [|done].
  unfold file_write at 1. rewrite run_bind. rewrite IH. simpl.
  by rewrite lookup_insert_ne.
Qed.

(** ... and so does the transcoder, however it ends. *)
Lemma convert_other_files (csv_filename bin_filename : string) (w : world)
    (path : string) :
  path <> bin_filename ->
  fs (convert_csv_to_binary csv_filename bin_filename w).2 !! path
  = fs w !! path.
Proof.
  intros Hne. unfold convert_csv_to_binary. rewrite isfile_bind.
  destruct (bool_decide (is_Some (fs w !! csv_filename))); [|done].
  cbn [negb]. rewrite open_wb_bind.
  destruct (<[bin_filename:=[]]> (fs w) !! csv_filename) as [data|] eqn:Hdata.
  2:{ unfold csv_reader, file_read. rewrite !run_bind. cbn [fs with_fs].
      rewrite Hdata. simpl. by rewrite lookup_insert_ne. }
  rewrite (csv_reader_bind _ data) by done. rewrite run_bind.
  destruct (Csv.reader data) as [|header rest|e]; simpl;
    [by rewrite lookup_insert_ne| |by rewrite lookup_insert_ne].
  match goal with |- context [write_rows _ rest ?w1] =>
    pose proof (write_rows_other_files bin_filename rest w1 path Hne) as Hrows;
    destruct (write_rows bin_filename rest w1) as [[[]|e] w2]
  end; simpl in *; rewrite Hrows; by rewrite lookup_insert_ne.
Qed.

Lemma reliable_all_accepted (w : world) (log cs : list dev_call) :
  reliable w -> all_accepted (dev_ok w) log cs = true.
Proof.
  intros Hw. revert log. induction cs as [|c cs IH]; intros log; simpl; [done|].
  by rewrite Hw, IH.
Qed.

(** X5: the rows of the input need not have the same number of fields.
    For a file that the reader splits into a header row and data rows of
    numeric fields, of whatever lengths, and an output path other than the
    input path, the transcoder returns, having printed its message, and the
    output file holds the fields of all the rows in reading order, each
    packed as ['f']: four bytes for each field, none for a row without
    fields. *)
Theorem convert_packs_rows_of_any_length
    (csv_filename bin_filename : string) (w : world) (data : list byte)
    (header : list string) (rows : list (list string))
    (valss : list (list pyfloat)) :
  csv_filename <> bin_filename ->
  fs w !! csv_filename = Some data ->
  Csv.reader data = RRow header (rows_then rows RStop) ->
  Forall2 (fun row vals => numeric_row row = Some vals) rows valss ->
  let bytes := concat (map pack_f (concat valss)) in
  convert_csv_to_binary csv_filename bin_filename w
  = (Ok tt,
     with_stdout (with_fs w (<[bin_filename := bytes]> (fs w)))
       (stdout w ++ ["Converted " +:+ csv_filename +:+ " to " +:+ bin_filename]))
  /\ length bytes = (4 * length (concat rows))%nat.
Proof.
  intros Hne Hdata Hreader Hvalss bytes. split.
  - by apply (convert_numeric_rows _ _ _ data header rows).
  - unfold bytes.
    rewrite (length_concat_chunks pack_f 4) by apply length_pack_f.
    by rewrite (numeric_rows_length rows).
Qed.

(** X6: from the bytes of the input to the bytes of the output.  When the
    input file is the text of a header line and of data lines, each line
    the plain fields of its row joined by commas, the lines ended by line
    feeds or by carriage return and line feed, the last line with or
    without its line end, and every data field is numeric, the transcoder
    writes the packed fields of the data rows, in reading order, and
    returns. *)
Theorem convert_transcodes_plain_csv_text
    (csv_filename bin_filename : string) (w : world) (eol : string)
    (lines : list (list string)) (last : option (list string))
    (header : list string) (rows : list (list string))
    (valss : list (list pyfloat)) :
  csv_filename <> bin_filename ->
  eol = Text.nl \/ eol = crlf ->
  forallb plain_row lines = true ->
  open_row last = true ->
  lines ++ option_list last = header :: rows ->
  fs w !! csv_filename = Some (bytes_of (csv_file eol lines last)) ->
  Forall2 (fun row vals => numeric_row row = Some vals) rows valss ->
  convert_csv_to_binary csv_filename bin_filename w
  = (Ok tt,
     with_stdout
       (with_fs w (<[bin_filename := concat (map pack_f (concat valss))]> (fs w)))
       (stdout w ++ ["Converted " +:+ csv_filename +:+ " to " +:+ bin_filename])).
Proof.
  intros Hne Heol Hlines Hlast Hrows Hdata Hvalss.
  apply (convert_numeric_rows _ _ _ (bytes_of (csv_file eol lines last))
           header rows); [done|done| |done].
  by rewrite reader_csv_file, Hrows.
Qed.

End TranscoderRows.

(** ** The composite upload at its edges *)

Section UploadEdges.

Variables (channel : pyval) (csv_filename : string).
Variables (frequency amplitude phase offset : pyval).

(** X7: however an upload ends, the only file it creates or changes is the
    output file, whose path is the input path with [.bin] for its
    extension; that file is the input file itself exactly when the
    extension of the input is [.bin] already. *)
Theorem upload_writes_the_bin_file_only (w : world) :
  let bin_filename := (Path.splitext csv_filename).1 +:+ ".bin" in
  let w' := (upload_and_generate_waveform channel csv_filename
               frequency amplitude phase offset w).2 in
  (forall path, path <> bin_filename -> fs w' !! path = fs w !! path) /\
  (bin_filename = csv_filename <-> (Path.splitext csv_filename).2 = ".bin").
Proof.
  intros bin_filename w'. split; [|apply bin_filename_eq_iff].
  intros path Hne. subst w'.
  pose proof (upload_outcome channel csv_filename frequency amplitude
                phase offset w) as Hout.
  pose proof (convert_other_files csv_filename bin_filename w path Hne) as Hconv.
  fold bin_filename in Hout.
  destruct (convert_csv_to_binary csv_filename bin_filename w)
    as [[[]|e] w1]; simpl in Hconv.
  - destruct Hout as (data & w2 & _ & -> & _ & Hfs). simpl. by rewrite Hfs.
  - destruct Hout as [-> _]. done.
Qed.

(** X8: an upload of an existing file whose extension is [.bin] destroys
    it: the file is emptied when it is opened for output, the header skip
    raises StopIteration, and nothing is sent to the instrument. *)
Theorem upload_of_a_bin_file_empties_it (w : world) :
  is_Some (fs w !! csv_filename) ->
  (Path.splitext csv_filename).2 = ".bin" ->
  upload_and_generate_waveform channel csv_filename
    frequency amplitude phase offset w
  = (Raise StopIteration, with_fs w (<[csv_filename := []]> (fs w))).
Proof.
  intros Hfile Hext. apply bin_filename_eq_iff in Hext.
  unfold upload_and_generate_waveform. rewrite Hext.
  by rewrite (run_bind_raise _ _ _ _ _
                (convert_onto_itself_empties_the_input _ _ Hfile)).
Qed.

(** X9: an upload of a path that names no file raises FileNotFoundError
    and leaves everything as it was: no file is created and nothing is
    sent to the instrument. *)
Theorem upload_of_a_missing_file_raises_FileNotFoundError (w : world) :
  fs w !! csv_filename = None ->
  upload_and_generate_waveform channel csv_filename
    frequency amplitude phase offset w
  = (Raise (FileNotFoundError ("No such file: '" +:+ csv_filename +:+ "'")),
     w).
Proof.
  intros Hnone. unfold upload_and_generate_waveform, convert_csv_to_binary.
  rewrite !run_bind. simpl.
  rewrite bool_decide_eq_false_2; [done|].
  rewrite Hnone. by intros [? ?].
Qed.

End UploadEdges.

Section UploadButton.

(** X10: the [Upload and Generate] button of the form, end to end.  For a
    file whose extension is not [.bin], that the reader splits into a
    header row and rows of numeric fields, and an instrument that carries
    out every call, the callback returns; the output file holds the packed
    fields of the data rows, and the seven device calls of the upload have
    been issued, in order, with these bytes as the payload and with the
    channel, frequency, amplitude, phase and offset of the form. *)
Theorem upload_and_generate_sends_the_packed_rows
    (self : WaveformGUI) (w : world) (data : list byte)
    (header : list string) (rows : list (list string))
    (valss : list (list pyfloat)) :
  (Path.splitext (file_path self)).2 <> ".bin" ->
  fs w !! file_path self = Some data ->
  Csv.reader data = RRow header (rows_then rows RStop) ->
  Forall2 (fun row vals => numeric_row row = Some vals) rows valss ->
  reliable w ->
  let payload := concat (map pack_f (concat valss)) in
  let bin_filename := (Path.splitext (file_path self)).1 +:+ ".bin" in
  exists w',
    upload_and_generate self w = (Ok tt, w') /\
    fs w' = <[bin_filename := payload]> (fs w) /\
    dev_log w' = dev_log w ++
      upload_steps (VInt (channel self)) (file_path self) payload
        (VFloat (frequency self)) (VFloat (amplitude self))
        (VFloat (phase self)) (VFloat (offset self)).
Proof.
  intros Hext Hdata Hreader Hvalss Hw payload bin_filename.
  assert (file_path self <> bin_filename) as Hne.
  { intros Heq. apply Hext, bin_filename_eq_iff. by symmetry. }
  pose proof (convert_numeric_rows _ _ w data header rows valss
                Hne Hdata Hreader Hvalss) as Hconv.
  fold payload in Hconv.
  destruct (upload_device_phase (VInt (channel self)) (file_path self)
              (VFloat (frequency self)) (VFloat (amplitude self))
              (VFloat (phase self)) (VFloat (offset self)) w _ payload Hconv)
    as (w' & Hrun & Hlog & Hfs).
  { simpl. by rewrite lookup_insert_eq. }
  cbn [dev_ok dev_log with_stdout with_fs fs] in Hrun, Hlog, Hfs.
  rewrite reliable_all_accepted in Hrun by done.
  rewrite all_accepted_issued in Hlog by by apply reliable_all_accepted.
  exists w'. split; [exact Hrun|]. by split.
Qed.

End UploadButton.

(** ** File names of dots *)

Section DotNames.
Import Text Path.

Lemma all_dots_snoc (b : list ascii) :
  all_dots b = true -> b <> [] ->
  exists m, b = m ++ ["."%char] /\ all_dots m = true.
Proof.
  intros Hall Hne. destruct (rev b) as [|c r] eqn:Hrev.
  { destruct Hne. by rewrite <- (rev_involutive b), Hrev. }
  assert (b = rev r ++ [c]) as Hb.
  { by rewrite <- (rev_involutive b), Hrev. }
  subst b. unfold all_dots in *. rewrite forallb_app in Hall.
  apply andb_true_iff in Hall as [Hm Hc]. simpl in Hc.
  rewrite andb_true_r in Hc. apply Ascii.eqb_eq in Hc. subst c.
  by exists (rev r).
Qed.

Lemma all_dots_no_sep (b : list ascii) :
  all_dots b = true -> "/"%char ∉ b.
Proof.
  unfold all_dots. rewrite forallb_forall. intros Hall Hin.
  apply list_elem_of_In, Hall in Hin. by apply Ascii.eqb_eq in Hin.
Qed.

(** X11: for a path whose file name consists of dots only, or is empty,
    the two waveform names of an upload differ: the payload is stored
    under the file name with [.bin] appended, and the waveform selected
    afterwards is the file name as it stands. *)
Theorem all_dots_names_differ (csv_filename : string) :
  all_dots (chars (basename csv_filename)) = true ->
  let bin_filename := (splitext csv_filename).1 +:+ ".bin" in
  (splitext (basename bin_filename)).1 = basename csv_filename +:+ ".bin" /\
  (splitext (basename csv_filename)).1 = basename csv_filename.
Proof.
  destruct (path_split csv_filename) as (dir & b & -> & Hdir & Hb).
  rewrite basename_app, chars_str by done. intros Hall bin_filename.
  assert (dir_prefix []) as Hnil by (by left).
  assert ("/"%char ∉ chars "bin") as Hbin1 by (by apply not_in_bin).
  assert ("."%char ∉ chars "bin") as Hbin2 by (by apply not_in_bin).
  assert ((splitext (str (dir ++ b))).1 = str (dir ++ b)
          /\ (splitext (str b)).1 = str b) as [Hroot Hsel].
  { destruct (decide (b = [])) as [->|Hne].
    - rewrite splitext_no_dot by (done || apply not_elem_of_nil).
      by split.
    - destruct (all_dots_snoc b Hall Hne) as (m & -> & Hm).
      pose proof (all_dots_no_sep m Hm) as Hsep.
      rewrite splitext_at_last_dot
        by (done || apply not_elem_of_nil).
      rewrite <- (app_nil_l (m ++ _)), (splitext_at_last_dot [])
        by (done || apply not_elem_of_nil).
      by rewrite Hm. }
  split; [|done]. subst bin_filename. rewrite Hroot.
  change ".bin" with (str ("."%char :: chars "bin")).
  rewrite <- !str_app, <- app_assoc, basename_app; [|done|].
  2:{ rewrite elem_of_app, elem_of_cons. intros [?|[?|?]]; done. }
  rewrite <- (app_nil_l (b ++ _)), splitext_at_last_dot by done.
  by rewrite Hall.
Qed.

End DotNames.

(** ** The remote command parser at its edges *)

Section DispatchSteps.
Import Text.

Lemma split_go_blank (l : list ascii) :
  forallb is_space l = true -> split_go [] l = [].
Proof.
  induction l as [|c l IH]; simpl; [done|].
  intros [Hc Hl]%andb_true_iff. rewrite Hc. by apply IH.
Qed.

Lemma runs_ret_bind {A : Type} (a : A) (f : A -> M unit)
    (cs : list dev_call) :
  runs (f a) cs -> runs (mret a ≫= f) cs.
Proof. intros H w. rewrite ret_bind. apply H. Qed.

Lemma runs_float_bind (s : string) (x : pyfloat) (f : pyfloat -> M unit)
    (cs : list dev_call) :
  Float.float s = Some x -> runs (f x) cs -> runs (float s ≫= f) cs.
Proof. intros Hs H w. rewrite (float_bind _ _ _ _ Hs). apply H. Qed.

Lemma getitem_bind {B : Type} (parts : list string) (i : nat) (s : string)
    (f : string -> M B) (w : world) :
  parts !! i = Some s -> (getitem parts i ≫= f) w = f s w.
Proof. intros H. unfold getitem. by rewrite H. Qed.

Lemma getitem_bind_raise {B : Type} (parts : list string) (i : nat)
    (f : string -> M B) (w : world) :
  parts !! i = None -> (getitem parts i ≫= f) w = (Raise IndexError, w).
Proof. intros H. unfold getitem. by rewrite H. Qed.

Lemma keeps_ret {A : Type} (a : A) : keeps_store (mret a : M A).
Proof. by intros w. Qed.

Lemma keeps_raise {A : Type} (e : exn) : keeps_store (raise e : M A).
Proof. by intros w. Qed.

Lemma keeps_bind {A B : Type} (m : M A) (f : A -> M B) :
  keeps_store m -> (forall a, keeps_store (f a)) -> keeps_store (m ≫= f).
Proof.
  intros Hm Hf w. rewrite run_bind. destruct (Hm w) as [Hfs Hredis].
  destruct (m w) as [[a|e] w1]; simpl in *; [|done].
  destruct (Hf a w1) as [Hfs' Hredis']. split; congruence.
Qed.

Lemma keeps_print (line : string) : keeps_store (print line).
Proof. by intros w. Qed.

Lemma keeps_send_command (command : string) :
  keeps_store (send_command command).
Proof. intros w. by rewrite send_command_run. Qed.

Lemma keeps_getitem (parts : list string) (i : nat) :
  keeps_store (getitem parts i).
Proof. intros w. unfold getitem. by destruct (parts !! i). Qed.

Lemma keeps_float (s : string) : keeps_store (float s).
Proof. intros w. unfold float. by destruct (Float.float s). Qed.

End DispatchSteps.

Section DispatchEdges.
Import Text.

Variable self : WaveformGUI.

(** X12: when the Redis store has nothing under the key of the form, the
    parser raises AttributeError on the missing command string, and nothing
    else happens. *)
Theorem missing_key_raises_AttributeError (w : world) :
  redis w !! redis_key self = None ->
  execute_redis_command self w = (Raise AttributeError, w).
Proof.
  intros Hnone. unfold execute_redis_command, get_command_from_redis, redis_get.
  rewrite run_bind. simpl. by rewrite Hnone.
Qed.

(** X13: a command with too few words raises IndexError before anything is
    printed or sent: a command that is empty or all white space, and a
    command whose verb is [upload] or [set] and that has fewer than three
    words. *)
Theorem too_few_words_raise_IndexError (w : world) (command : string) :
  redis w !! redis_key self = Some command ->
  forallb is_space (chars command) = true \/
  (exists verb rest,
     split command = verb :: rest /\
     (verb = "upload" \/ verb = "set") /\ (length rest < 2)%nat) ->
  execute_redis_command self w = (Raise IndexError, w).
Proof.
  intros Hcmd Hfew. unfold execute_redis_command.
  rewrite (fetch_command self w _ _ Hcmd).
  destruct Hfew as [Hblank|(verb & rest & -> & Hverb & Hlen)].
  - unfold split. by rewrite split_go_blank.
  - destruct rest as [|unused [|third rest]]; simpl in Hlen; [| |lia];
      by destruct Hverb as [-> | ->].
Qed.

(** X14: a command whose first word is none of [upload], [set] and [stop],
    spelled in lower case, prints [Unknown command.] and does nothing
    else. *)
Theorem unknown_verb_prints_a_diagnostic
    (w : world) (command verb : string) (rest : list string) :
  redis w !! redis_key self = Some command ->
  split command = verb :: rest ->
  verb <> "upload" -> verb <> "set" -> verb <> "stop" ->
  execute_redis_command self w
  = (Ok tt, with_stdout w (stdout w ++ ["Unknown command."])).
Proof.
  intros Hcmd Hsplit Hupload Hset Hstop. unfold execute_redis_command.
  rewrite (fetch_command self w _ _ Hcmd), Hsplit.
  unfold getitem. rewrite run_bind. simpl.
  apply String.eqb_neq in Hupload, Hset, Hstop.
  by rewrite Hupload, Hset, Hstop.
Qed.

(** X15: whatever words follow [stop], and whatever white space stands
    around the words, the command announces and issues the output-disable
    of the configured channel, and nothing else. *)
Theorem stop_ignores_the_words_after_it
    (w : world) (command : string) (rest : list string) :
  redis w !! redis_key self = Some command ->
  split command = "stop" :: rest ->
  let c := DevWrite ("C" +:+ pretty (channel self) +:+ ":OUTP OFF") in
  execute_redis_command self w
  = (if dev_ok w (dev_log w) c then Ok tt else Raise VisaIOError,
     sent w c ("Sending command: C" +:+ pretty (channel self) +:+ ":OUTP OFF")).
Proof.
  intros Hcmd Hsplit c. unfold execute_redis_command.
  rewrite (fetch_command self w _ _ Hcmd), Hsplit.
  unfold getitem. rewrite run_bind. simpl.
  unfold stop_waveform. by rewrite send_command_run.
Qed.

(** X16: a [set] command of five words or more, whose fourth and fifth
    words are numbers, issues four device commands on the configured
    channel, in this order: the waveform type, which is the third word as
    it stands, the frequency and the amplitude, each written as Python
    prints the float, and the output-enable.  The second word and the
    words after the fifth are not looked at.  The first command that the
    bus refuses ends the sequence with its error. *)
Theorem set_issues_four_commands
    (w : world) (command unused ty fr am : string) (rest : list string)
    (x y : pyfloat) :
  redis w !! redis_key self = Some command ->
  split command = "set" :: unused :: ty :: fr :: am :: rest ->
  Float.float fr = Some x ->
  Float.float am = Some y ->
  let ch := pretty (channel self) in
  let cmds :=
    [ DevWrite ("C" +:+ ch +:+ ":BSWV WVTP," +:+ ty);
      DevWrite ("C" +:+ ch +:+ ":BSWV FRQ," +:+ Repr.repr x);
      DevWrite ("C" +:+ ch +:+ ":BSWV AMP," +:+ Repr.repr y);
      DevWrite ("C" +:+ ch +:+ ":OUTP ON") ] in
  exists w',
    execute_redis_command self w
    = (if all_accepted (dev_ok w) (dev_log w) cmds
       then Ok tt else Raise VisaIOError, w') /\
    dev_log w' = dev_log w ++ take (issued (dev_ok w) (dev_log w) cmds) cmds /\
    fs w' = fs w.
Proof.
  intros Hcmd Hsplit Hfr Ham ch cmds. unfold execute_redis_command.
  rewrite (fetch_command self w _ _ Hcmd), Hsplit.
  match goal with |- exists w', ?m w = _ /\ _ =>
    assert (runs m cmds) as Hruns
  end.
  { unfold getitem. simpl. do 2 apply runs_ret_bind.
    apply (runs_seq _ _ [_] _); [apply runs_send_command|].
    apply runs_ret_bind, (runs_float_bind _ x); [done|].
    apply (runs_seq _ _ [_] _); [apply runs_send_command|].
    apply runs_ret_bind, (runs_float_bind _ y); [done|].
    apply (runs_seq _ _ [_] _); apply runs_send_command. }
  destruct (Hruns w) as (w' & Hrun & Hlog & Hfs & _). by exists w'.
Qed.

(** X17: a [set] command is carried out word by word, and what was sent
    before a word fails stays sent.  With an instrument that carries out
    every call and a command of three words or more: when the fourth word
    is missing (IndexError) or is not a number (ValueError), the waveform
    type has been sent; when the fifth word is missing or is not a number,
    the waveform type and the frequency have been sent; in all four cases
    the output-enable has not. *)
Theorem set_applies_settings_until_a_word_fails
    (w : world) (command unused ty : string) (rest : list string) :
  reliable w ->
  redis w !! redis_key self = Some command ->
  split command = "set" :: unused :: ty :: rest ->
  let ch := pretty (channel self) in
  let type_text := "C" +:+ ch +:+ ":BSWV WVTP," +:+ ty in
  let w1 := sent w (DevWrite type_text) ("Sending command: " +:+ type_text) in
  let w2 x :=
    let text := "C" +:+ ch +:+ ":BSWV FRQ," +:+ Repr.repr x in
    sent w1 (DevWrite text) ("Sending command: " +:+ text) in
  (rest = [] -> execute_redis_command self w = (Raise IndexError, w1)) /\
  (forall fr more,
     rest = fr :: more -> Float.float fr = None ->
     execute_redis_command self w = (Raise (ValueError fr), w1)) /\
  (forall fr x,
     rest = [fr] -> Float.float fr = Some x ->
     execute_redis_command self w = (Raise IndexError, w2 x)) /\
  (forall fr am more x,
     rest = fr :: am :: more -> Float.float fr = Some x ->
     Float.float am = None ->
     execute_redis_command self w = (Raise (ValueError am), w2 x)).
Proof.
  intros Hw Hcmd Hsplit ch type_text w1 w2.
  assert (reliable w1) as Hw1 by by apply sent_reliable.
  assert (execute_redis_command self w
    = (p3 ← getitem ("set" :: unused :: ty :: rest) 3;
       f ← float p3;
       set_frequency (VInt (channel self)) (VFloat f) ;;
       p4 ← getitem ("set" :: unused :: ty :: rest) 4;
       a ← float p4;
       set_amplitude (VInt (channel self)) (VFloat a) ;;
       start_waveform (VInt (channel self))) w1) as Hrun.
  { unfold execute_redis_command.
    rewrite (fetch_command self w _ _ Hcmd), Hsplit.
    rewrite (getitem_bind _ 0 "set") by done.
    change ("set" =? "upload")%string with false.
    change ("set" =? "set")%string with true. cbv iota.
    rewrite (getitem_bind _ 2 ty) by done.
    unfold set_waveform_type. by rewrite send_bind_reliable. }
  rewrite Hrun. repeat split.
  - intros ->. by rewrite getitem_bind_raise.
  - intros fr more -> Hfr.
    by rewrite (getitem_bind _ 3 fr), float_bind_raise.
  - intros fr x -> Hfr.
    rewrite (getitem_bind _ 3 fr), (float_bind _ _ _ _ Hfr) by done.
    unfold set_frequency. rewrite send_bind_reliable by done.
    by rewrite getitem_bind_raise.
  - intros fr am more x -> Hfr Ham.
    rewrite (getitem_bind _ 3 fr), (float_bind _ _ _ _ Hfr) by done.
    unfold set_frequency. rewrite send_bind_reliable by done.
    by rewrite (getitem_bind _ 4 am), float_bind_raise.
Qed.

(** X18: no [upload] command reaches the instrument.  Whatever follows
    the verb, no device call is issued; and the command returns without an
    error in one case only, after the diagnostic for a third word that
    names no file. *)
Theorem upload_command_never_reaches_the_device
    (w : world) (command : string) (rest : list string) :
  redis w !! redis_key self = Some command ->
  split command = "upload" :: rest ->
  let out := execute_redis_command self w in
  dev_log out.2 = dev_log w /\
  (out.1 = Ok tt ->
   exists csv_filename,
     rest !! 1%nat = Some csv_filename /\ fs w !! csv_filename = None).
Proof.
  intros Hcmd Hsplit. unfold execute_redis_command.
  rewrite (fetch_command self w _ _ Hcmd), Hsplit.
  rewrite (getitem_bind _ 0 "upload") by done.
  change ("upload" =? "upload")%string with true. cbv iota.
  destruct rest as [|unused [|csv_filename more]].
  - by rewrite getitem_bind_raise.
  - by rewrite getitem_bind_raise.
  - rewrite (getitem_bind _ 2 csv_filename), isfile_bind by done.
    destruct (fs w !! csv_filename) as [data|] eqn:Hfile.
    + rewrite bool_decide_eq_true_2 by by eexists. by split.
    + rewrite bool_decide_eq_false_2 by by intros [? ?].
      split; [done|]. intros _. by exists csv_filename.
Qed.

(** X19: whatever the stored command is, and however it ends, the parser
    changes no file and leaves the Redis store as it is: the command is
    read, not taken, so that the next run finds it again. *)
Theorem execute_redis_command_keeps_files_and_commands (w : world) :
  let w' := (execute_redis_command self w).2 in
  fs w' = fs w /\ redis w' = redis w.
Proof.
  assert (keeps_store (execute_redis_command self)) as Hkeeps; [|apply Hkeeps].
  unfold execute_redis_command.
  apply keeps_bind; [by intros w0|]. intros command.
  apply keeps_bind; [destruct command; [apply keeps_ret|apply keeps_raise]|].
  intros parts. apply keeps_bind; [apply keeps_getitem|]. intros verb.
  destruct (String.eqb verb "upload").
  { apply keeps_bind; [apply keeps_getitem|]. intros csv_filename.
    apply keeps_bind; [by intros w0|]. intros present.
    destruct (negb present); [apply keeps_print|apply keeps_raise]. }
  destruct (String.eqb verb "set").
  { apply keeps_bind; [apply keeps_getitem|]. intros ty.
    apply keeps_bind; [apply keeps_send_command|]. intros _.
    apply keeps_bind; [apply keeps_getitem|]. intros p3.
    apply keeps_bind; [apply keeps_float|]. intros f.
    apply keeps_bind; [apply keeps_send_command|]. intros _.
    apply keeps_bind; [apply keeps_getitem|]. intros p4.
    apply keeps_bind; [apply keeps_float|]. intros a.
    apply keeps_bind; [apply keeps_send_command|]. intros _.
    apply keeps_send_command. }
  destruct (String.eqb verb "stop"); [apply keeps_send_command|apply keeps_print].
Qed.

End DispatchEdges.

(** ** The Redis store *)

Section Store.

(** X20: a command stored under a key is the command read under that key
    afterwards, in place of what was stored there before; the commands
    under the other keys are as they were, and storing touches neither
    the files nor the instrument. *)
Theorem set_command_then_get_command (key value key' : string) (w : world) :
  (set_command_to_redis key value ;; get_command_from_redis key') w
  = (Ok (if decide (key' = key) then Some value else redis w !! key'),
     with_redis w (<[key := value]> (redis w))).
Proof.
  unfold set_command_to_redis, get_command_from_redis, redis_set, redis_get.
  rewrite run_bind. simpl. destruct (decide (key' = key)) as [->|Hne].
  - by rewrite lookup_insert_eq.
  - by rewrite lookup_insert_ne.
Qed.

End Store.

(** ** The manual form *)

Section Form.

Lemma bind_ext {A B : Type} (m : M A) (f g : A -> M B) (w : world) :
  (forall a w1, f a w1 = g a w1) -> (m ≫= f) w = (m ≫= g) w.
Proof.
  intros Hfg. rewrite !run_bind. by destruct (m w) as [[a|e] w1].
Qed.

(** X21: the [Set Waveform] button issues six device commands on the
    channel of the form, in this order: waveform type, frequency,
    amplitude, phase, offset, output-enable, with the values of the form.
    The first command that the bus refuses ends the sequence with its
    error, before the plot is redrawn; when all six are carried out the
    callback ends with the redrawn plot. *)
Theorem set_waveform_manual_issues_six_commands
    (self : WaveformGUI) (tk : Widgets) (w : world) :
  let ch := pretty (channel self) in
  let cmds :=
    [ DevWrite ("C" +:+ ch +:+ ":BSWV WVTP," +:+ waveform_type tk);
      DevWrite ("C" +:+ ch +:+ ":BSWV FRQ," +:+ Repr.repr (frequency self));
      DevWrite ("C" +:+ ch +:+ ":BSWV AMP," +:+ Repr.repr (amplitude self));
      DevWrite ("C" +:+ ch +:+ ":BSWV PHSE," +:+ Repr.repr (phase self));
      DevWrite ("C" +:+ ch +:+ ":BSWV OFST," +:+ Repr.repr (offset self));
      DevWrite ("C" +:+ ch +:+ ":OUTP ON") ] in
  exists w',
    set_waveform_manual self tk w
    = (if all_accepted (dev_ok w) (dev_log w) cmds
       then Ok (plot_waveform self tk) else Raise VisaIOError, w') /\
    dev_log w' = dev_log w ++ take (issued (dev_ok w) (dev_log w) cmds) cmds /\
    fs w' = fs w.
Proof.
  intros ch cmds.
  assert (runs (set_waveform_type (VInt (channel self)) (VStr (waveform_type tk)) ;;
                set_frequency (VInt (channel self)) (VFloat (frequency self)) ;;
                set_amplitude (VInt (channel self)) (VFloat (amplitude self)) ;;
                set_phase (VInt (channel self)) (VFloat (phase self)) ;;
                set_offset (VInt (channel self)) (VFloat (offset self)) ;;
                start_waveform (VInt (channel self))) cmds) as Hruns.
  { repeat (apply (runs_seq _ _ [_] _); [apply runs_send_command|]).
    apply runs_send_command. }
  destruct (Hruns w) as (w' & Hrun & Hlog & Hfs & _).
  exists w'. split; [|by split].
  transitivity
    (((set_waveform_type (VInt (channel self)) (VStr (waveform_type tk)) ;;
       set_frequency (VInt (channel self)) (VFloat (frequency self)) ;;
       set_amplitude (VInt (channel self)) (VFloat (amplitude self)) ;;
       set_phase (VInt (channel self)) (VFloat (phase self)) ;;
       set_offset (VInt (channel self)) (VFloat (offset self)) ;;
       start_waveform (VInt (channel self))) ;;
      mret (plot_waveform self tk)) w).
  - unfold set_waveform_manual. symmetry.
    do 5 (rewrite bind_assoc; apply bind_ext; intros [] ?).
    reflexivity.
  - rewrite run_bind, Hrun.
    by destruct (all_accepted (dev_ok w) (dev_log w) cmds).
Qed.

(** X22: after a mode is chosen, the frame of this mode is shown and the
    two other frames are not, whatever was shown before; when the text of
    the mode box is none of [Manual], [Redis] and [Custom], no frame is
    shown.  At no time are two of the frames shown. *)
Theorem mode_selected_shows_the_frame_of_the_mode (tk : Widgets) :
  let tk' := mode_selected tk in
  (is_Some (manual_frame tk') <-> mode tk = "Manual") /\
  (is_Some (redis_frame tk') <-> mode tk = "Redis") /\
  (is_Some (custom_frame tk') <-> mode tk = "Custom") /\
  (length (filter is_Some [manual_frame tk'; redis_frame tk'; custom_frame tk'])
   <= 1)%nat.
Proof.
  unfold mode_selected. cbn [mode grid_manual_frame grid_redis_frame
                             grid_custom_frame].
  destruct (String.eqb_spec (mode tk) "Manual") as [->|H1]; simpl.
  { repeat split; try done; try (by intros [? ?]); by eexists. }
  destruct (String.eqb_spec (mode tk) "Redis") as [->|H2]; simpl.
  { repeat split; try done; try (by intros [? ?]); by eexists. }
  destruct (String.eqb_spec (mode tk) "Custom") as [->|H3]; simpl.
  { repeat split; try done; try (by intros [? ?]); by eexists. }
  repeat split; try done; try (by intros [? ?]); lia.
Qed.

End Form.

(** ** The further statements at work on the bench *)

Section BenchEdges.

Lemma convert_packs_rows_of_any_length_witness :
  let data := bytes_of ("h" +:+ Text.nl +:+ "1,2" +:+ Text.nl +:+ Text.nl
                        +:+ "3" +:+ Text.nl) in
  let w := bench "r.csv" data "" in
  Csv.reader data = RRow ["h"] (rows_then [["1"; "2"]; []; ["3"]] RStop) /\
  convert_csv_to_binary "r.csv" "r.bin" w
  = (Ok tt,
     with_stdout
       (with_fs w (<["r.bin" := [x00; x00; x80; x3f; x00; x00; x00; x40;
                                 x00; x00; x40; x40]]> (fs w)))
       (stdout w ++ ["Converted r.csv to r.bin"])).
Proof.
  intros data w.
  assert (Csv.reader data
          = RRow ["h"] (rows_then [["1"; "2"]; []; ["3"]] RStop)) as Hreader
    by (vm_compute; reflexivity).
  split; [exact Hreader|].
  refine (proj1 (convert_packs_rows_of_any_length "r.csv" "r.bin" w data
                   ["h"] [["1"; "2"]; []; ["3"]]
                   [[Ffin false 4503599627370496 (-52);
                     Ffin false 4503599627370496 (-51)]; [];
                    [Ffin false 6755399441055744 (-51)]] _ _ Hreader _)).
  - discriminate.
  - reflexivity.
  - repeat constructor; vm_compute; reflexivity.
Defined.

Lemma convert_transcodes_plain_csv_text_witness :
  let text := "t,v" +:+ crlf +:+ "0,1.5" +:+ crlf +:+ "1,-2" in
  let w := bench "dos.csv" (bytes_of text) "" in
  csv_file crlf [["t"; "v"]; ["0"; "1.5"]] (Some ["1"; "-2"]) = text /\
  forallb plain_row [["t"; "v"]; ["0"; "1.5"]] = true /\
  open_row (Some ["1"; "-2"]) = true /\
  convert_csv_to_binary "dos.csv" "dos.bin" w
  = (Ok tt,
     with_stdout
       (with_fs w (<["dos.bin" := [x00; x00; x00; x00; x00; x00; xc0; x3f;
                                   x00; x00; x80; x3f; x00; x00; x00; xc0]]>
                     (fs w)))
       (stdout w ++ ["Converted dos.csv to dos.bin"])).
Proof.
  intros text w. split; [reflexivity|]. split; [reflexivity|].
  split; [reflexivity|].
  apply (convert_transcodes_plain_csv_text "dos.csv" "dos.bin" w crlf
           [["t"; "v"]; ["0"; "1.5"]] (Some ["1"; "-2"])
           ["t"; "v"] [["0"; "1.5"]; ["1"; "-2"]]
           [[Fzero false; Ffin false 6755399441055744 (-52)];
            [Ffin false 4503599627370496 (-52);
             Ffin true 4503599627370496 (-51)]]).
  - discriminate.
  - by right.
  - reflexivity.
  - reflexivity.
  - reflexivity.
  - reflexivity.
  - repeat constructor; vm_compute; reflexivity.
Defined.

Lemma upload_of_a_bin_file_empties_it_witness :
  let w := bench "data/wave.bin" demo_csv "" in
  is_Some (fs w !! "data/wave.bin") /\
  (Path.splitext "data/wave.bin").2 = ".bin" /\
  upload_and_generate_waveform (VInt 1) "data/wave.bin" f0 f0 f0 f0 w
  = (Raise StopIteration, with_fs w (<["data/wave.bin" := []]> (fs w))).
Proof.
  intros w.
  assert (is_Some (fs w !! "data/wave.bin")) as Hfile by (eexists; reflexivity).
  split; [exact Hfile|]. split; [reflexivity|].
  apply (upload_of_a_bin_file_empties_it (VInt 1) "data/wave.bin" f0 f0 f0 f0 w);
    [exact Hfile|reflexivity].
Defined.

Lemma upload_of_a_missing_file_raises_FileNotFoundError_witness :
  let w := demo_world "" in
  fs w !! "nope.csv" = None /\
  upload_and_generate_waveform (VInt 1) "nope.csv" f0 f0 f0 f0 w
  = (Raise (FileNotFoundError "No such file: 'nope.csv'"), w).
Proof.
  intros w. split; [reflexivity|].
  apply (upload_of_a_missing_file_raises_FileNotFoundError
           (VInt 1) "nope.csv" f0 f0 f0 f0 w).
  reflexivity.
Defined.

Lemma waveform_names_agree_witness :
  (exists c, c ∈ Text.chars (Path.basename "data/wave.v2.csv")
             /\ c <> "."%char) /\
  (Path.splitext (Path.basename
     ((Path.splitext "data/wave.v2.csv").1 +:+ ".bin"))).1 = "wave.v2" /\
  (Path.splitext (Path.basename "data/wave.v2.csv")).1 = "wave.v2".
Proof.
  assert (exists c, c ∈ Text.chars (Path.basename "data/wave.v2.csv")
                    /\ c <> "."%char) as Hname.
  { exists "w"%char. split; [apply list_elem_of_here|discriminate]. }
  split; [exact Hname|].
  pose proof (waveform_names_agree "data/wave.v2.csv" Hname) as Hagree.
  split; [|reflexivity].
  exact (eq_trans Hagree eq_refl).
Defined.

Lemma upload_and_generate_sends_the_packed_rows_witness :
  let w := demo_world "" in
  exists w' payload,
    upload_and_generate demo_gui w = (Ok tt, w') /\
    fs w' = <["wave.bin" := payload]> (fs w) /\
    length payload = 16%nat /\
    dev_log w' = upload_steps (VInt 1) "wave.csv" payload f0 f0 f0 f0.
Proof.
  intros w.
  destruct (upload_and_generate_sends_the_packed_rows demo_gui w demo_csv
              ["t"; "v"] [["0"; "1.5"]; ["1"; "-2"]]
              [[Fzero false; Ffin false 6755399441055744 (-52)];
               [Ffin false 4503599627370496 (-52);
                Ffin true 4503599627370496 (-51)]])
    as (w' & Hrun & Hfs & Hlog).
  - vm_compute. discriminate.
  - reflexivity.
  - vm_compute. reflexivity.
  - repeat constructor; vm_compute; reflexivity.
  - intros log c. reflexivity.
  - exists w', (concat (map pack_f (concat
        [[Fzero false; Ffin false 6755399441055744 (-52)];
         [Ffin false 4503599627370496 (-52);
          Ffin true 4503599627370496 (-51)]]))).
    split; [exact Hrun|]. split; [exact Hfs|]. split; [reflexivity|exact Hlog].
Defined.

Lemma pack_f_is_exact_on_single_values_witness :
  0 <= 29 /\
  6755399441055744 = 12582912 * 2 ^ 29 /\
  Float.single_valid (Ffin false 12582912 (-23)) = true /\
  Float.float "1.5" = Some (Ffin false 6755399441055744 (-23 - 29)) /\
  unpack_f (pack_f (Ffin false 6755399441055744 (-23 - 29)))
  = Some (Ffin false 12582912 (-23)).
Proof.
  split; [lia|]. split; [reflexivity|]. split; [reflexivity|].
  split; [vm_compute; reflexivity|].
  apply (pack_f_is_exact_on_single_values false 12582912 6755399441055744
           (-23) 29); [lia|reflexivity|reflexivity].
Defined.

Lemma missing_key_raises_AttributeError_witness :
  let w := mkWorld ∅ ∅ [] always_ok [] in
  redis w !! redis_key demo_gui = None /\
  execute_redis_command demo_gui w = (Raise AttributeError, w).
Proof.
  intros w. split; [reflexivity|].
  apply (missing_key_raises_AttributeError demo_gui w). reflexivity.
Defined.

Lemma too_few_words_raise_IndexError_witness :
  let blank := demo_world "   " in
  let short := demo_world "upload now" in
  forallb Text.is_space (Text.chars "   ") = true /\
  Text.split "upload now" = ["upload"; "now"] /\
  execute_redis_command demo_gui blank = (Raise IndexError, blank) /\
  execute_redis_command demo_gui short = (Raise IndexError, short).
Proof.
  intros blank short. split; [reflexivity|]. split; [reflexivity|]. split.
  - apply (too_few_words_raise_IndexError demo_gui blank "   ");
      [reflexivity|left; reflexivity].
  - apply (too_few_words_raise_IndexError demo_gui short "upload now");
      [reflexivity|].
    right. exists "upload", ["now"].
    split; [reflexivity|]. split; [by left|simpl; lia].
Defined.

Lemma unknown_verb_prints_a_diagnostic_witness :
  let w := demo_world "STOP" in
  Text.split "STOP" = ["STOP"] /\
  execute_redis_command demo_gui w
  = (Ok tt, with_stdout w (stdout w ++ ["Unknown command."])).
Proof.
  intros w. split; [reflexivity|].
  apply (unknown_verb_prints_a_diagnostic demo_gui w "STOP" "STOP" []);
    [reflexivity|reflexivity|discriminate|discriminate|discriminate].
Defined.

Lemma stop_ignores_the_words_after_it_witness :
  let w := demo_world " stop  now" in
  Text.split " stop  now" = ["stop"; "now"] /\
  execute_redis_command demo_gui w
  = (Ok tt, sent w (DevWrite "C1:OUTP OFF") "Sending command: C1:OUTP OFF").
Proof.
  intros w. split; [reflexivity|].
  apply (stop_ignores_the_words_after_it demo_gui w " stop  now" ["now"]);
    reflexivity.
Defined.

Lemma set_issues_four_commands_witness :
  let w := demo_world "set ch1 SINE 1e3 2.5 now" in
  Text.split "set ch1 SINE 1e3 2.5 now"
  = ["set"; "ch1"; "SINE"; "1e3"; "2.5"; "now"] /\
  exists w',
    execute_redis_command demo_gui w = (Ok tt, w') /\
    dev_log w' =
      [ DevWrite "C1:BSWV WVTP,SINE"; DevWrite "C1:BSWV FRQ,1000.0";
        DevWrite "C1:BSWV AMP,2.5"; DevWrite "C1:OUTP ON" ].
Proof.
  intros w. split; [reflexivity|].
  destruct (set_issues_four_commands demo_gui w "set ch1 SINE 1e3 2.5 now"
              "ch1" "SINE" "1e3" "2.5" ["now"]
              (Ffin false 8796093022208000 (-43))
              (Ffin false 5629499534213120 (-51)))
    as (w' & Hrun & Hlog & _);
    [reflexivity|reflexivity|vm_compute; reflexivity|vm_compute; reflexivity|].
  exists w'. split; [exact Hrun|].
  rewrite Hlog. vm_compute. reflexivity.
Defined.

Lemma set_applies_settings_until_a_word_fails_witness :
  let w := demo_world "set ch1 SINE fast" in
  reliable w /\
  Text.split "set ch1 SINE fast" = ["set"; "ch1"; "SINE"; "fast"] /\
  Float.float "fast" = None /\
  execute_redis_command demo_gui w
  = (Raise (ValueError "fast"),
     sent w (DevWrite "C1:BSWV WVTP,SINE")
       "Sending command: C1:BSWV WVTP,SINE").
Proof.
  intros w.
  assert (reliable w) as Hw by (intros log c; reflexivity).
  assert (Float.float "fast" = None) as Hfast by (vm_compute; reflexivity).
  split; [exact Hw|]. split; [reflexivity|]. split; [exact Hfast|].
  destruct (set_applies_settings_until_a_word_fails demo_gui w
              "set ch1 SINE fast" "ch1" "SINE" ["fast"])
    as (_ & Hbad & _); [exact Hw|reflexivity|reflexivity|].
  exact (Hbad "fast" [] eq_refl Hfast).
Defined.

Lemma upload_command_never_reaches_the_device_witness :
  let w := demo_world "upload wave.csv" in
  Text.split "upload wave.csv" = ["upload"; "wave.csv"] /\
  dev_log (execute_redis_command demo_gui w).2 = dev_log w /\
  (execute_redis_command demo_gui w).1 <> Ok tt.
Proof.
  intros w. split; [reflexivity|].
  destruct (upload_command_never_reaches_the_device demo_gui w
              "upload wave.csv" ["wave.csv"]) as [Hlog Hok];
    [reflexivity|reflexivity|].
  split; [exact Hlog|].
  intros Hr. destruct (Hok Hr) as (csv_filename & Hcsv & _).
  discriminate Hcsv.
Defined.

Lemma pack_f_stores_infinity_beyond_the_range_witness :
  Float.float "-1e39" = Some (Ffin true 6617444900424221 77) /\
  2 ^ 52 <= 6617444900424221 < 2 ^ 53 /\ 76 <= 77 /\
  pack_f (Ffin true 6617444900424221 77) = [x00; x00; x80; xff] /\
  unpack_f (pack_f (Ffin true 6617444900424221 77)) = Some (Finf true).
Proof.
  split; [vm_compute; reflexivity|]. split; [simpl; lia|]. split; [lia|].
  split; [vm_compute; reflexivity|].
  apply (pack_f_stores_infinity_beyond_the_range true 6617444900424221 77);
    [simpl; lia|lia].
Defined.

Lemma all_dots_names_differ_witness :
  all_dots (Text.chars (Path.basename "data/...")) = true /\
  (Path.splitext
     (Path.basename ((Path.splitext "data/...").1 +:+ ".bin"))).1
  = "....bin" /\
  (Path.splitext (Path.basename "data/...")).1 = "...".
Proof.
  split; [reflexivity|].
  exact (all_dots_names_differ "data/..." eq_refl).
Defined.

End BenchEdges.
